(** * sim-cli: argument vectors, validation and error classification

    A shallow embedding of the command layer of the iOS simulator CLI
    (src/utils/validator.ts, executor.ts, device.ts, error-handler.ts,
    logger.ts and src/commands/ui.ts, app.ts, media.ts).

    JavaScript strings are modelled by [string] (one [ascii] per code unit,
    so code units up to 0xFF), numbers that reach an argument vector by
    integers, [process.env] by a [gmap string string], and every [async]
    function by a state-and-exception computation over the process state:
    the environment, the external processes spawned so far and the
    console. What the operating system answers (process results, file
    tests, path resolution, the parsed device list, the event schedule of
    a child process) is read from a [Host] record. *)

From Stdlib Require Import ZArith Ascii String List Bool Lia DecimalString.
From stdpp Require Import base gmap strings list.

Import ListNotations.
Local Open Scope Z_scope.

(** ** JavaScript string primitives *)

Module JS.

(** [s.startsWith(p)] *)
Fixpoint startsWith (s p : string) {struct p} : bool :=
  match p, s with
  | EmptyString, _ => true
  | String _ _, EmptyString => false
  | String a p', String b s' => Ascii.eqb a b && startsWith s' p'
  end.

(** [s.includes(sub)]: [sub] occurs at some offset of [s]. *)
Fixpoint includes (s sub : string) : bool :=
  startsWith s sub ||
  match s with
  | EmptyString => false
  | String _ s' => includes s' sub
  end.

(** [s.split(c)] for a one-character separator. *)
Fixpoint split (c : ascii) (s : string) : list string :=
  match s with
  | EmptyString => [EmptyString]
  | String a s' =>
      if Ascii.eqb a c then EmptyString :: split c s'
      else match split c s' with
           | [] => [String a EmptyString]
           | w :: ws => String a w :: ws
           end
  end.

(** [arr.includes(x)] on an array of strings. *)
Definition arr_includes (l : list string) (x : string) : bool :=
  existsb (String.eqb x) l.

(** The lower-case form of one code unit below 256: A-Z, and the capital
    letters U+00C0-U+00DE of Latin-1 (all of that range but the
    multiplication sign U+00D7), lie 32 below their lower-case forms. *)
Definition lower_ascii (a : ascii) : ascii :=
  let n := N_of_ascii a in
  if ((65 <=? n) && (n <=? 90))%N
     || ((192 <=? n) && (n <=? 222) && negb (n =? 215))%N
  then ascii_of_N (n + 32) else a.

(** [s.toLowerCase()] on the code units this model has, U+0000-U+00FF. *)
Fixpoint toLowerCase (s : string) : string :=
  match s with
  | EmptyString => EmptyString
  | String a s' => String (lower_ascii a) (toLowerCase s')
  end.

Definition is_space (a : ascii) : bool :=
  let n := N_of_ascii a in
  ((n =? 32) || ((9 <=? n) && (n <=? 13)) || (n =? 160))%N.

Fixpoint trimStart (s : string) : string :=
  match s with
  | String a s' => if is_space a then trimStart s' else s
  | EmptyString => EmptyString
  end.

Fixpoint trimEnd (s : string) : string :=
  match s with
  | EmptyString => EmptyString
  | String a s' =>
      match trimEnd s' with
      | EmptyString => if is_space a then EmptyString else String a EmptyString
      | t => String a t
      end
  end.

(** [s.trim()] *)
Definition trim (s : string) : string := trimEnd (trimStart s).

(** Truthiness of a [string] and of a [string | undefined]. *)
Definition truthy (s : string) : bool := negb (String.eqb s "").

Definition truthy_opt (o : option string) : bool :=
  match o with
  | Some s => truthy s
  | None => false
  end.

(** The one-character string holding a double quote. *)
Definition quote : string := String (ascii_of_N 34) EmptyString.

(** The value of a [string | undefined] that passes [if (value)]. *)
Definition if_truthy (o : option string) : option string :=
  match o with
  | Some s => if truthy s then Some s else None
  | None => None
  end.

(** [String(n)] for an integral number of less than 10^21 in size: the
    decimal digits, with a minus sign below zero. From 10^21 on JavaScript
    writes an exponent (1e+21), and a number is a double, exact on the
    integers only up to 2^53: statements that rely on the rendering keep to
    that range. *)
Definition String_of_number (n : Z) : string :=
  NilEmpty.string_of_int (Z.to_int n).

End JS.

(** ** Regular expressions

  The validators are anchored regular expressions ([^...$], no flags).
  They are kept as syntax and run by Brzozowski derivatives. *)

Module Regex.

Inductive regex : Type :=
| Void : regex
| Eps : regex
| Cls : (ascii -> bool) -> regex
| Cat : regex -> regex -> regex
| Alt : regex -> regex -> regex
| Star : regex -> regex.

Fixpoint nullable (r : regex) : bool :=
  match r with
  | Void => false
  | Eps => true
  | Cls _ => false
  | Cat r1 r2 => nullable r1 && nullable r2
  | Alt r1 r2 => nullable r1 || nullable r2
  | Star _ => true
  end.

Fixpoint deriv (c : ascii) (r : regex) : regex :=
  match r with
  | Void => Void
  | Eps => Void
  | Cls p => if p c then Eps else Void
  | Cat r1 r2 =>
      if nullable r1
      then Alt (Cat (deriv c r1) r2) (deriv c r2)
      else Cat (deriv c r1) r2
  | Alt r1 r2 => Alt (deriv c r1) (deriv c r2)
  | Star r1 => Cat (deriv c r1) (Star r1)
  end.

(** [/^r$/.test(s)] *)
Fixpoint test (r : regex) (s : string) : bool :=
  match s with
  | EmptyString => nullable r
  | String c s' => test (deriv c r) s'
  end.

Definition Plus (r : regex) : regex := Cat r (Star r).
Definition Opt (r : regex) : regex := Alt Eps r.
Definition Chr (a : ascii) : regex := Cls (Ascii.eqb a).

(** [r{n}] *)
Fixpoint Rep (n : nat) (r : regex) : regex :=
  match n with
  | O => Eps
  | S n' => Cat r (Rep n' r)
  end.

(** A character range [[lo-hi]] by code unit. *)
Definition range (lo hi : N) (a : ascii) : bool :=
  let n := N_of_ascii a in ((lo <=? n) && (n <=? hi))%N.

Definition digit : ascii -> bool := range 48 57.
Definition upper : ascii -> bool := range 65 90.
Definition lower : ascii -> bool := range 97 122.

End Regex.

(** ** Zod schemas (src/utils/validator.ts) *)

Module Zod.

Record ZodIssue : Type := { issue_path : list string; issue_message : string }.

(** The result of [schema.safeParse]. *)
Inductive SafeParse (A : Type) : Type :=
| Success (data : A)
| Failure (issues : list ZodIssue).
Arguments Success {A} data.
Arguments Failure {A} issues.

Definition success {A} (r : SafeParse A) : bool :=
  match r with
  | Success _ => true
  | Failure _ => false
  end.

(** One refinement of [z.string()]: an issue with the given message when
    the test fails. Zod runs every refinement and collects the issues. *)
Definition refine (ok : bool) (message : string) : list ZodIssue :=
  if ok then [] else [{| issue_path := []; issue_message := message |}].

Definition z_string (checks : string -> list ZodIssue) (s : string) : SafeParse string :=
  match checks s with
  | [] => Success s
  | i :: rest => Failure (i :: rest)
  end.

(** [.max(n, message)] *)
Definition z_max (n : nat) (message : string) (s : string) : list ZodIssue :=
  refine (String.length s <=? n)%nat message.

(** [.regex(re, message)] *)
Definition z_regex (re : Regex.regex) (message : string) (s : string) : list ZodIssue :=
  refine (Regex.test re s) message.

Fixpoint quoted_options (l : list string) : string :=
  match l with
  | [] => ""
  | [x] => "'" +:+ x +:+ "'"
  | x :: rest => "'" +:+ x +:+ "' | " +:+ quoted_options rest
  end.

(** [z.enum(options)] *)
Definition z_enum (options : list string) (s : string) : SafeParse string :=
  if JS.arr_includes options s then Success s
  else Failure [{| issue_path := [];
                   issue_message := "Invalid enum value. Expected " +:+ quoted_options options
                                    +:+ ", received '" +:+ s +:+ "'" |}].

End Zod.

Module Validator.
Import Regex Zod.

Definition hex (a : ascii) : bool := digit a || range 65 70 a || range 97 102 a.

(** [/^[0-9A-Fa-f]{8}-[0-9A-Fa-f]{4}-[0-9A-Fa-f]{4}-[0-9A-Fa-f]{4}-[0-9A-Fa-f]{12}$/] *)
Definition UDID_REGEX : regex :=
  Cat (Rep 8 (Cls hex)) (Cat (Chr "-")
  (Cat (Rep 4 (Cls hex)) (Cat (Chr "-")
  (Cat (Rep 4 (Cls hex)) (Cat (Chr "-")
  (Cat (Rep 4 (Cls hex)) (Cat (Chr "-")
  (Rep 12 (Cls hex))))))))).

Definition udidSchema : string -> SafeParse string :=
  z_string (z_regex UDID_REGEX "Invalid UDID format").

(** [/^\d+(\.\d+)?$/] *)
Definition DURATION_REGEX : Regex.regex :=
  Cat (Plus (Cls digit)) (Opt (Cat (Chr ".") (Plus (Cls digit)))).

Definition durationSchema : string -> SafeParse string :=
  z_string (z_regex DURATION_REGEX "Duration must be a positive number").

(** [/^[\x20-\x7E]+$/] *)
Definition TEXT_REGEX : Regex.regex := Plus (Cls (range 32 126)).

Definition textInputSchema : string -> SafeParse string :=
  z_string (fun s =>
    z_max 500 "Text is too long (max 500 characters)" s ++
    z_regex TEXT_REGEX "Text must contain only ASCII printable characters" s).

Definition filePathSchema : string -> SafeParse string :=
  z_string (z_max 1024 "Path is too long (max 1024 characters)").

Definition bundle_char (a : ascii) : bool :=
  lower a || upper a || digit a || Ascii.eqb a "." || Ascii.eqb a "-".

(** [/^[a-zA-Z0-9.-]+$/] *)
Definition BUNDLE_REGEX : Regex.regex := Plus (Cls bundle_char).

Definition bundleIdSchema : string -> SafeParse string :=
  z_string (fun s =>
    z_max 256 "Bundle ID is too long (max 256 characters)" s ++
    z_regex BUNDLE_REGEX "Invalid bundle ID format" s).

Definition hardwareButtons : list string :=
  ["home"; "lock"; "volume-up"; "volume-down"; "ringer"; "power"; "home+lock"].

Definition hardwareButtonSchema : string -> SafeParse string :=
  z_enum hardwareButtons.

End Validator.

(** ** Errors, the host and the process state *)

#[warnings="-register-all"] Inductive json : Type :=
| JNull
| JBool (b : bool)
| JNum (n : Z)
| JStr (s : string)
| JArr (items : list json)
| JObj (fields : list (string * json)).

(** [enum ErrorCode] (src/utils/error-handler.ts) *)
Inductive ErrorCode : Type :=
| SUCCESS
| GENERAL_ERROR
| INVALID_ARGUMENTS
| SIMULATOR_NOT_FOUND
| TIMEOUT
| PERMISSION_DENIED
| FILE_NOT_FOUND
| COMMAND_NOT_FOUND.

Definition exit_status (c : ErrorCode) : Z :=
  match c with
  | SUCCESS => 0
  | GENERAL_ERROR => 1
  | INVALID_ARGUMENTS => 2
  | SIMULATOR_NOT_FOUND => 3
  | TIMEOUT => 4
  | PERMISSION_DENIED => 5
  | FILE_NOT_FOUND => 6
  | COMMAND_NOT_FOUND => 127
  end.

(** The [code] property Node puts on the error of a failed [execFile]: the
    exit status of the process, a system error name, or nothing. *)
Inductive NodeCode : Type :=
| NoCode
| ExitCode (n : Z)
| SysCode (name : string).

(** What a [throw] can carry. [SimulatorError] and [ZodError] are subclasses
    of [Error]; [NodeError] stands for every other [Error] instance and
    [NotAnError] for a thrown value that is no [Error] at all. *)
Inductive Thrown : Type :=
| SimulatorError (message : string) (code : ErrorCode) (suggestions : option (list string))
| ZodError (issues : list Zod.ZodIssue)
| NodeError (message : string) (code : NodeCode)
| NotAnError.

(** [error.message] of an [Error] instance. The message of a [ZodError] is
    the text of its issue list; it is rendered here by the issue messages. *)
Definition message_of (e : Thrown) : option string :=
  match e with
  | SimulatorError m _ _ => Some m
  | ZodError issues => Some (String.concat "; " (map Zod.issue_message issues))
  | NodeError m _ => Some m
  | NotAnError => None
  end.

Record ExecutorResult : Type := { stdout : string; stderr : string }.

(** How a call of [execFile] ends. *)
Inductive ExecOutcome : Type :=
| Exited (raw : ExecutorResult)
| Failed (message : string) (code : NodeCode).

(** One external process started by this program. *)
Record Invocation : Type :=
  { inv_command : string; inv_args : list string; inv_background : bool }.

Definition foreground (command : string) (args : list string) : Invocation :=
  {| inv_command := command; inv_args := args; inv_background := false |}.

Definition detached (command : string) (args : list string) : Invocation :=
  {| inv_command := command; inv_args := args; inv_background := true |}.

(** A device record of [simctl list devices --json]. *)
Record RawDevice : Type :=
  { raw_name : string;
    raw_udid : string;
    raw_state : string;
    raw_isAvailable : option bool;
    raw_deviceTypeIdentifier : string }.

(** What the event loop delivers while [record] awaits its promise, in the
    order of delivery: a chunk on the child's error stream, a tick of the
    100 ms interval, the 3000 ms timeout, the exit of the child. *)
Inductive LoopEvent : Type :=
| StderrData (chunk : string)
| IntervalTick
| TimeoutFired
| ChildExit (status : Z).

Record ChildBehaviour : Type :=
  { child_pid : Z; child_events : list LoopEvent }.

(** The answers of the operating system and of the helpers of
    src/utils/paths.ts, [path] and [JSON]. [execFile] and [spawn] see the
    processes started before the call. [parse_device_list] reads the answer
    of the list query: [Some devices] for a well-formed document, one that
    [JSON.parse] accepts and whose [devices] maps every runtime to an array
    of device records, given in the order of the document; [None] when
    [JSON.parse] throws. A text that parses into another shape has no
    counterpart here: what the code does with it depends on how far the
    loop that reads it gets. *)
Record Host : Type :=
  { execFile : list Invocation -> string -> list string -> ExecOutcome;
    spawn : list Invocation -> string -> list string -> ChildBehaviour;
    fileExists : string -> bool;
    isDirectory : string -> bool;
    path_isAbsolute : string -> bool;
    path_resolve : string -> string;
    path_extname : string -> string;
    resolveFilePath : string -> string;
    generateTimestampedFilename : string -> string -> string;
    parse_device_list : string -> option (list (string * list RawDevice)) }.

(** [enum LogLevel] (src/utils/logger.ts) *)
Inductive LogLevel : Type := ERROR | WARN | INFO | DEBUG | VERBOSE.

Definition level_number (l : LogLevel) : Z :=
  match l with
  | ERROR => 0
  | WARN => 1
  | INFO => 2
  | DEBUG => 3
  | VERBOSE => 4
  end.

Inductive Channel : Type := Log | Warning | Err.

(** The decoration the logger puts before a message (symbol and colour). *)
Inductive Mark : Type := Plain | Tick | Cross | Caution | Note.

Inductive ConsoleEvent : Type :=
| SpinnerStart (text : string)
| SpinnerSucceed (text : option string)
| SpinnerFail (text : option string)
| Line (channel : Channel) (mark : Mark) (text : string)
| LineJson (channel : Channel) (data : json).

(** The state of the running CLI process: [process.env], the external
    processes started so far (oldest first), what was written to the
    console, and the two fields of the logger singleton. *)
Record Process : Type :=
  { env : gmap string string;
    spawned : list Invocation;
    console : list ConsoleEvent;
    log_level : LogLevel;
    spinner : option string }.

(** How an awaited call ends: with a value, with an exception, or never
    (a promise that nothing settles). *)
Inductive Outcome (A : Type) : Type :=
| Returned (a : A)
| Threw (e : Thrown)
| Pending.
Arguments Returned {A} a.
Arguments Threw {A} e.
Arguments Pending {A}.

Definition M (A : Type) : Type := Process -> Outcome A * Process.

Definition ret {A} (a : A) : M A := fun p => (Returned a, p).

Definition throw {A} (e : Thrown) : M A := fun p => (Threw e, p).

Definition bind {A B} (m : M A) (k : A -> M B) : M B :=
  fun p =>
    match m p with
    | (Returned a, p') => k a p'
    | (Threw e, p') => (Threw e, p')
    | (Pending, p') => (Pending, p')
    end.

(** [try { m } catch (error) { handler error }] *)
Definition try_catch {A} (m : M A) (handler : Thrown -> M A) : M A :=
  fun p =>
    match m p with
    | (Threw e, p') => handler e p'
    | r => r
    end.

Notation "x <- m ;; k" := (bind m (fun x => k))
  (at level 100, m at next level, right associativity).
Notation "m ;;; k" := (bind m (fun _ => k))
  (at level 100, right associativity).

Definition when (b : bool) (m : M unit) : M unit := if b then m else ret tt.

Definition getenv (name : string) : M (option string) :=
  fun p => (Returned (env p !! name), p).

Definition setenv (name value : string) : M unit :=
  fun p => (Returned tt,
            {| env := <[name := value]> (env p); spawned := spawned p;
               console := console p; log_level := log_level p; spinner := spinner p |}).

Definition unsetenv (name : string) : M unit :=
  fun p => (Returned tt,
            {| env := delete name (env p); spawned := spawned p;
               console := console p; log_level := log_level p; spinner := spinner p |}).

Definition emit (e : ConsoleEvent) : M unit :=
  fun p => (Returned tt,
            {| env := env p; spawned := spawned p;
               console := console p ++ [e]; log_level := log_level p; spinner := spinner p |}).

Definition set_spinner (s : option string) : M unit :=
  fun p => (Returned tt,
            {| env := env p; spawned := spawned p;
               console := console p; log_level := log_level p; spinner := s |}).

Definition record_spawn (i : Invocation) : M unit :=
  fun p => (Returned tt,
            {| env := env p; spawned := spawned p ++ [i];
               console := console p; log_level := log_level p; spinner := spinner p |}).

(** [schema.parse(value)]: the data, or a thrown [ZodError]. *)
Definition parse {A} (r : Zod.SafeParse A) : M A :=
  match r with
  | Zod.Success a => ret a
  | Zod.Failure issues => throw (ZodError issues)
  end.

(** ** The logger singleton (src/utils/logger.ts) *)

Module Logger.

Definition env_is (p : Process) (name value : string) : bool :=
  match env p !! name with
  | Some v => String.eqb v value
  | None => false
  end.

Definition format_json (p : Process) : bool := env_is p "SIM_CLI_FORMAT" "json".

Definition getLogLevelFromEnv (p : Process) : option LogLevel :=
  if env_is p "SIM_CLI_QUIET" "1" then Some ERROR
  else if env_is p "SIM_CLI_VERBOSE" "1" then Some VERBOSE
  else None.

Definition shouldLog (level : LogLevel) (p : Process) : bool :=
  (level_number level <=? level_number (log_level p)) && negb (format_json p).

Definition error (message : string) : M unit :=
  fun p =>
    match spinner p with
    | Some _ => (emit (SpinnerFail (Some message)) ;;; set_spinner None) p
    | None => when (shouldLog ERROR p) (emit (Line Err Cross message)) p
    end.

Definition warn (message : string) : M unit :=
  fun p => when (shouldLog WARN p) (emit (Line Warning Caution message)) p.

Definition info (message : string) : M unit :=
  fun p => when (shouldLog INFO p) (emit (Line Log Note message)) p.

Definition success (message : string) : M unit :=
  fun p =>
    match spinner p with
    | Some _ => (emit (SpinnerSucceed (Some message)) ;;; set_spinner None) p
    | None => when (shouldLog INFO p) (emit (Line Log Tick message)) p
    end.

Definition startSpinner (message : string) : M unit :=
  fun p =>
    when (negb (format_json p) && negb (JS.truthy_opt (env p !! "SIM_CLI_QUIET")))
         (emit (SpinnerStart message) ;;; set_spinner (Some message)) p.

Definition updateSpinner (message : string) : M unit :=
  fun p =>
    match spinner p with
    | Some _ => set_spinner (Some message) p
    | None => ret tt p
    end.

Definition stopSpinner (ok : bool) (message : option string) : M unit :=
  fun p =>
    match spinner p with
    | Some _ =>
        (emit (if ok then SpinnerSucceed message else SpinnerFail message) ;;;
         set_spinner None) p
    | None => ret tt p
    end.

Definition json (data : json) : M unit :=
  fun p => when (format_json p) (emit (LineJson Log data)) p.

End Logger.

(** ** The process executor (src/utils/executor.ts) *)

(** The object [spawn] returns. Node sets [killed] when this program sends
    the child a signal through [subprocess.kill()], and at no other time. *)
Record ChildProcess : Type :=
  { pid : Z; killed : bool; events : list LoopEvent }.

Section Executor.
Variable host : Host.

(** [run(command, args, options)], [options.timeout] in seconds. *)
Definition run (command : string) (args : list string) (timeout_s : option Z)
  : M ExecutorResult :=
  fun p =>
    let timeout :=
      match timeout_s with
      | Some t => if t =? 0 then 30000 else t * 1000
      | None => 30000
      end in
    let (_, p') := record_spawn (foreground command args) p in
    match execFile host (spawned p) command args with
    | Exited raw =>
        (Returned {| stdout := JS.trim (stdout raw); stderr := JS.trim (stderr raw) |}, p')
    | Failed message (SysCode name) =>
        if String.eqb name "ETIMEDOUT"
        then (Threw (NodeError ("Command timed out after "
                                +:+ JS.String_of_number (timeout / 1000)
                                +:+ " seconds") NoCode), p')
        else (Threw (NodeError message (SysCode name)), p')
    | Failed message code => (Threw (NodeError message code), p')
    end.

(** [runBackground(command, args)] *)
Definition runBackground (command : string) (args : list string) : M ChildProcess :=
  fun p =>
    let child := spawn host (spawned p) command args in
    let (_, p') := record_spawn (detached command args) p in
    (Returned {| pid := child_pid child; killed := false; events := child_events child |}, p').

(** The [code] property of a caught value. *)
Definition code_of (e : Thrown) : NodeCode :=
  match e with
  | SimulatorError _ c _ => ExitCode (exit_status c)
  | NodeError _ c => c
  | ZodError _ => NoCode
  | NotAnError => NoCode
  end.

Definition code_is_1 (c : NodeCode) : bool :=
  match c with
  | ExitCode n => n =? 1
  | _ => false
  end.

(** [killProcess(pattern)]: [pkill] exits with 1 when nothing matched. *)
Definition killProcess (pattern : string) : M unit :=
  try_catch
    (run "pkill" ["-SIGINT"; "-f"; pattern] None ;;; ret tt)
    (fun error => if code_is_1 (code_of error) then ret tt else throw error).

End Executor.

(** ** The device resolver (src/utils/device.ts) *)

Record SimulatorDevice : Type :=
  { name : string;
    udid : string;
    state : string;
    isAvailable : bool;
    deviceTypeIdentifier : string;
    runtimeIdentifier : string }.

Section Device.
Variable host : Host.

(** The inner loop of [getBootedDevice]: the first record of one runtime
    whose state is ['Booted']. *)
Fixpoint first_booted (runtime : string) (deviceList : list RawDevice)
  : option SimulatorDevice :=
  match deviceList with
  | [] => None
  | device :: rest =>
      if String.eqb (raw_state device) "Booted"
      then Some {| name := raw_name device;
                   udid := raw_udid device;
                   state := raw_state device;
                   isAvailable := default true (raw_isAvailable device);
                   deviceTypeIdentifier := raw_deviceTypeIdentifier device;
                   runtimeIdentifier := runtime |}
      else first_booted runtime rest
  end.

(** The outer loop, over the runtimes in the order of the document. *)
Fixpoint search_runtimes (devices : list (string * list RawDevice))
  : option SimulatorDevice :=
  match devices with
  | [] => None
  | (runtime, deviceList) :: rest =>
      match first_booted runtime deviceList with
      | Some d => Some d
      | None => search_runtimes rest
      end
  end.

Definition getBootedDevice : M SimulatorDevice :=
  r <- run host "xcrun" ["simctl"; "list"; "devices"; "--json"] None ;;
  if JS.truthy (stderr r)
  then throw (SimulatorError ("Failed to list devices: " +:+ stderr r) GENERAL_ERROR None)
  else
    match parse_device_list host (stdout r) with
    | None => throw (SimulatorError "Failed to parse device list" GENERAL_ERROR None)
    | Some devices =>
        match search_runtimes devices with
        | Some d => ret d
        | None =>
            throw (SimulatorError "No simulator is currently booted" SIMULATOR_NOT_FOUND
                     (Some ["Open Simulator.app";
                            "Run: sim-cli open";
                            "Specify a device with --device <udid>"]))
        end
    end.

Definition getDeviceId (providedId : option string) : M string :=
  match JS.if_truthy providedId with
  | Some id =>
      if Zod.success (Validator.udidSchema id) then ret id
      else throw (SimulatorError "Invalid device UDID format" INVALID_ARGUMENTS
                    (Some ["UDID must be in format: XXXXXXXX-XXXX-XXXX-XXXX-XXXXXXXXXXXX"]))
  | None =>
      envDevice <- getenv "SIM_CLI_DEVICE" ;;
      match JS.if_truthy envDevice with
      | Some id =>
          if Zod.success (Validator.udidSchema id) then ret id
          else throw (SimulatorError
                        "Invalid device UDID in SIM_CLI_DEVICE environment variable"
                        INVALID_ARGUMENTS None)
      | None =>
          device <- getBootedDevice ;;
          ret (udid device)
      end
  end.

End Device.

(** ** The error reporter (src/utils/error-handler.ts) *)

Record Report : Type :=
  { exitCode : ErrorCode; message : string; suggestions : list string }.

Definition bullet : string := "  •".

(** The classification at the head of [handleError]. *)
Definition classify (error : Thrown) : Report :=
  match error with
  | SimulatorError m c s =>
      {| exitCode := c; message := m; suggestions := default [] s |}
  | ZodError issues =>
      {| exitCode := INVALID_ARGUMENTS;
         message := "Invalid arguments provided";
         suggestions :=
           map (fun e => bullet +:+ " " +:+ String.concat "." (Zod.issue_path e)
                         +:+ ": " +:+ Zod.issue_message e) issues |}
  | NodeError m _ =>
      if JS.includes m "No booted simulator" then
        {| exitCode := SIMULATOR_NOT_FOUND; message := m;
           suggestions := ["Open Simulator.app";
                           "Run: sim-cli open";
                           "Specify a device: --device <udid>"] |}
      else if JS.includes m "timed out" then
        {| exitCode := TIMEOUT; message := m;
           suggestions := ["Increase timeout with --timeout flag";
                           "Check if simulator is responsive"] |}
      else if JS.includes m "EACCES" || JS.includes m "permission denied" then
        {| exitCode := PERMISSION_DENIED; message := m;
           suggestions := ["Check file/directory permissions";
                           "Ensure Xcode command line tools are installed";
                           "Try: xcode-select --install"] |}
      else if JS.includes m "ENOENT" || JS.includes m "not found" then
        {| exitCode := FILE_NOT_FOUND; message := m; suggestions := [] |}
      else if JS.includes m "command not found" then
        {| exitCode := COMMAND_NOT_FOUND; message := m;
           suggestions := ["Ensure all dependencies are installed";
                           "Check that idb is installed: brew install facebook/fb/idb-companion";
                           "Verify Xcode installation"] |}
      else
        {| exitCode := GENERAL_ERROR; message := m; suggestions := [] |}
  | NotAnError =>
      {| exitCode := GENERAL_ERROR;
         message := "An unexpected error occurred";
         suggestions := [] |}
  end.

Fixpoint for_each {A} (f : A -> M unit) (l : list A) : M unit :=
  match l with
  | [] => ret tt
  | x :: rest => f x ;;; for_each f rest
  end.

(** The output half of [handleError]. *)
Definition report (r : Report) : M unit :=
  fun p =>
    if Logger.format_json p then
      emit (LineJson Err
              (JObj [("error", JBool true);
                     ("message", JStr (message r));
                     ("code", JNum (exit_status (exitCode r)));
                     ("suggestions", JArr (map JStr (suggestions r)))])) p
    else
      (Logger.error (message r) ;;;
       when (0 <? Z.of_nat (List.length (suggestions r)))
         (emit (Line Err Plain "Try one of the following:") ;;;
          for_each (fun s => emit (Line Err Plain
                                     (if JS.startsWith s bullet then s
                                      else bullet +:+ " " +:+ s)))
                   (suggestions r)) ;;;
       emit (Line Err Plain "For more help, run: sim-cli --help")) p.

(** [handleError(error)]: the report, then [process.exit(exitCode)]. The
    result is the exit status and the final state of the process. *)
Definition handleError (error : Thrown) (p : Process) : Z * Process :=
  let r := classify error in
  (exit_status (exitCode r), snd (report r p)).

(** ** Pointer, keyboard and button commands (src/commands/ui.ts) *)

(** [if (process.env.SIM_CLI_FORMAT === 'json') { m }] *)
Definition when_json (m : M unit) : M unit :=
  fun p => if Logger.format_json p then m p else ret tt p.

(** The [catch] block shared by the command handlers. *)
Definition stop_and_rethrow {A} (error : Thrown) : M A :=
  Logger.stopSpinner false None ;;; throw error.

Record TapOptions : Type :=
  { tap_duration : option string; tap_device : option string }.

(** What [options.delta] holds when [swipe] reads it. The signature
    announces a number; the command line hands over the text of --delta as
    the option parser read it (its default is '1'). *)
Inductive Delta : Type :=
| DeltaNumber (n : Z)
| DeltaText (text : string).

(** [if (options.delta)] *)
Definition delta_truthy (delta : Delta) : bool :=
  match delta with
  | DeltaNumber n => negb (n =? 0)
  | DeltaText text => JS.truthy text
  end.

(** [String(options.delta)] *)
Definition String_of_delta (delta : Delta) : string :=
  match delta with
  | DeltaNumber n => JS.String_of_number n
  | DeltaText text => text
  end.

Record SwipeOptions : Type :=
  { swipe_duration : option string; swipe_delta : option Delta;
    swipe_device : option string }.

Definition no_tap_options : TapOptions :=
  {| tap_duration := None; tap_device := None |}.

Fixpoint assoc (key : string) (table : list (string * list string)) : option (list string) :=
  match table with
  | [] => None
  | (k, v) :: rest => if String.eqb k key then Some v else assoc key rest
  end.

Section Ui.
Variable host : Host.

(** The argument vector of [tap], once the device is known. *)
Definition tap_args (deviceId : string) (x y : Z) (options : TapOptions) : M (list string) :=
  let args := ["ui"; "tap"; "--udid"; deviceId; "--json"] in
  args <-
    match JS.if_truthy (tap_duration options) with
    | Some d =>
        duration <- parse (Validator.durationSchema d) ;;
        ret (args ++ ["--duration"; duration])
    | None => ret args
    end ;;
  ret (args ++ ["--"; JS.String_of_number x; JS.String_of_number y]).

Definition point_text (x y : Z) : string :=
  "(" +:+ JS.String_of_number x +:+ ", " +:+ JS.String_of_number y +:+ ")".

Definition tap (x y : Z) (options : TapOptions) : M unit :=
  deviceId <- getDeviceId host (tap_device options) ;;
  Logger.startSpinner ("Tapping at " +:+ point_text x y +:+ "...") ;;;
  try_catch
    (args <- tap_args deviceId x y options ;;
     r <- run host "idb" args None ;;
     if JS.truthy (stderr r)
     then throw (SimulatorError ("Tap failed: " +:+ stderr r) GENERAL_ERROR None)
     else
       Logger.success ("Tapped at " +:+ point_text x y) ;;;
       when_json (Logger.json (JObj [("success", JBool true); ("x", JNum x);
                                     ("y", JNum y); ("device", JStr deviceId)])))
    stop_and_rethrow.

(** [type(text, options)] *)
Definition type_text (text : string) (device : option string) : M unit :=
  validatedText <- parse (Validator.textInputSchema text) ;;
  deviceId <- getDeviceId host device ;;
  Logger.startSpinner "Typing text..." ;;;
  try_catch
    (let args := ["ui"; "text"; "--udid"; deviceId; "--"; validatedText] in
     r <- run host "idb" args None ;;
     if JS.truthy (stderr r)
     then throw (SimulatorError ("Type failed: " +:+ stderr r) GENERAL_ERROR None)
     else
       Logger.success ("Typed " +:+ JS.quote +:+ text +:+ JS.quote) ;;;
       when_json (Logger.json (JObj [("success", JBool true); ("text", JStr text);
                                     ("device", JStr deviceId)])))
    stop_and_rethrow.

Definition swipe_args (deviceId : string) (x1 y1 x2 y2 : Z) (options : SwipeOptions)
  : M (list string) :=
  let args := ["ui"; "swipe"; "--udid"; deviceId; "--json"] in
  args <-
    match JS.if_truthy (swipe_duration options) with
    | Some d =>
        duration <- parse (Validator.durationSchema d) ;;
        ret (args ++ ["--duration"; duration])
    | None => ret args
    end ;;
  let args :=
    match swipe_delta options with
    | Some delta =>
        if delta_truthy delta then args ++ ["--delta"; String_of_delta delta] else args
    | None => args
    end in
  ret (args ++ ["--"; JS.String_of_number x1; JS.String_of_number y1;
                JS.String_of_number x2; JS.String_of_number y2]).

Definition swipe (x1 y1 x2 y2 : Z) (options : SwipeOptions) : M unit :=
  deviceId <- getDeviceId host (swipe_device options) ;;
  Logger.startSpinner ("Swiping from " +:+ point_text x1 y1 +:+ " to "
                       +:+ point_text x2 y2 +:+ "...") ;;;
  try_catch
    (args <- swipe_args deviceId x1 y1 x2 y2 options ;;
     r <- run host "idb" args None ;;
     if JS.truthy (stderr r)
     then throw (SimulatorError ("Swipe failed: " +:+ stderr r) GENERAL_ERROR None)
     else
       Logger.success ("Swiped from " +:+ point_text x1 y1 +:+ " to " +:+ point_text x2 y2) ;;;
       when_json (Logger.json (JObj [("success", JBool true);
                                     ("x1", JNum x1); ("y1", JNum y1);
                                     ("x2", JNum x2); ("y2", JNum y2);
                                     ("device", JStr deviceId)])))
    stop_and_rethrow.

(** The object literal [buttonMap] of [press]. *)
Definition buttonMap (deviceId : string) : list (string * list string) :=
  [("home", ["ui"; "button"; "--udid"; deviceId; "--"; "HOME"]);
   ("lock", ["ui"; "button"; "--udid"; deviceId; "--"; "LOCK"]);
   ("power", ["ui"; "button"; "--udid"; deviceId; "--"; "LOCK"]);
   ("volume-up", ["ui"; "button"; "--udid"; deviceId; "--"; "VOLUME_UP"]);
   ("volume-down", ["ui"; "button"; "--udid"; deviceId; "--"; "VOLUME_DOWN"]);
   ("ringer", ["ui"; "button"; "--udid"; deviceId; "--"; "RINGER"])].

Definition press (button : string) (device : option string) : M unit :=
  validatedButton <- parse (Validator.hardwareButtonSchema (JS.toLowerCase button)) ;;
  deviceId <- getDeviceId host device ;;
  Logger.startSpinner ("Pressing " +:+ button +:+ " button...") ;;;
  try_catch
    ((if JS.includes validatedButton "+" then
        let buttons := JS.split "+" validatedButton in
        if JS.arr_includes buttons "home" && JS.arr_includes buttons "lock" then
          run host "xcrun" ["simctl"; "io"; deviceId; "screenshot"; "--type=png"] None ;;;
          Logger.success "Screenshot gesture performed"
        else
          throw (SimulatorError ("Unsupported button combination: " +:+ button)
                   INVALID_ARGUMENTS None)
      else
        match assoc validatedButton (buttonMap deviceId) with
        | None =>
            throw (SimulatorError ("Unsupported button: " +:+ button) INVALID_ARGUMENTS None)
        | Some args =>
            run host "idb" args None ;;;
            Logger.success ("Pressed " +:+ button +:+ " button")
        end) ;;;
     when_json (Logger.json (JObj [("success", JBool true);
                                   ("button", JStr validatedButton);
                                   ("device", JStr deviceId)])))
    stop_and_rethrow.

End Ui.

(** ** App installation (src/commands/app.ts) *)

Section App.
Variable host : Host.

Definition install_args (deviceId absolutePath : string) : list string :=
  ["simctl"; "install"; deviceId; absolutePath].

(** The two checks of [install] on the extension of the path. *)
Definition check_bundle (absolutePath : string) : M unit :=
  let ext := JS.toLowerCase (path_extname host absolutePath) in
  if negb (String.eqb ext ".app") && negb (String.eqb ext ".ipa") then
    (if String.eqb ext ".app" && negb (isDirectory host absolutePath)
     then throw (SimulatorError "Invalid app bundle: .app should be a directory"
                   INVALID_ARGUMENTS None)
     else ret tt) ;;;
    (if negb (String.eqb ext ".app")
     then throw (SimulatorError "Invalid app bundle: must be .app directory or .ipa file"
                   INVALID_ARGUMENTS None)
     else ret tt)
  else ret tt.

(** [path.isAbsolute(appPath) ? appPath : path.resolve(appPath)] *)
Definition absolute_path (appPath : string) : string :=
  if path_isAbsolute host appPath then appPath else path_resolve host appPath.

Definition install (appPath : string) (device : option string) : M unit :=
  deviceId <- getDeviceId host device ;;
  let absolutePath := absolute_path appPath in
  Logger.startSpinner ("Installing app from: " +:+ appPath +:+ "...") ;;;
  try_catch
    (if negb (fileExists host absolutePath)
     then throw (SimulatorError ("App bundle not found: " +:+ absolutePath) FILE_NOT_FOUND
                   (Some ["Check the file path is correct";
                          "Ensure the .app or .ipa file exists"]))
     else
       check_bundle absolutePath ;;;
       r <- run host "xcrun" (install_args deviceId absolutePath) None ;;
       if JS.truthy (stderr r) && negb (JS.includes (stderr r) "successfully")
       then throw (SimulatorError ("Installation failed: " +:+ stderr r) GENERAL_ERROR None)
       else
         Logger.success ("App installed successfully from: " +:+ appPath) ;;;
         when_json (Logger.json (JObj [("success", JBool true);
                                       ("path", JStr absolutePath);
                                       ("device", JStr deviceId)])))
    stop_and_rethrow.

End App.

(** ** Video recording (src/commands/media.ts) *)

Record RecordOptions : Type :=
  { rec_codec : option string;
    rec_display : option string;
    rec_mask : option string;
    rec_force : option bool;
    rec_device : option string }.

(** The variables the callbacks of [record] close over, with the two
    timers: the interval until [clearInterval], the timeout until it fires. *)
Record WaitState : Type :=
  { recordingStarted : bool;
    errorOutput : string;
    intervalActive : bool;
    timeoutArmed : bool }.

Inductive Settled : Type :=
| Resolved
| Rejected (e : Thrown).

Definition wait_init : WaitState :=
  {| recordingStarted := false; errorOutput := "";
     intervalActive := true; timeoutArmed := true |}.

(** The promise of [record] under a schedule of loop events: the stderr
    listener, the interval callback and the timeout callback run in the
    order of delivery until one of them settles the promise. No callback
    is registered for the exit of the child. [None]: never settled. *)
Fixpoint await_start (childKilled : bool) (schedule : list LoopEvent) (st : WaitState)
  : option Settled :=
  match schedule with
  | [] => None
  | StderrData data :: rest =>
      if JS.includes data "Recording started"
      then await_start childKilled rest
             {| recordingStarted := true; errorOutput := errorOutput st;
                intervalActive := intervalActive st; timeoutArmed := timeoutArmed st |}
      else await_start childKilled rest
             {| recordingStarted := recordingStarted st;
                errorOutput := errorOutput st +:+ data;
                intervalActive := intervalActive st; timeoutArmed := timeoutArmed st |}
  | IntervalTick :: rest =>
      if intervalActive st && recordingStarted st then Some Resolved
      else await_start childKilled rest st
  | TimeoutFired :: rest =>
      if timeoutArmed st then
        if negb (recordingStarted st) then
          if childKilled
          then Some (Rejected (SimulatorError
                                 ("Recording process terminated unexpectedly: "
                                  +:+ errorOutput st) GENERAL_ERROR None))
          else Some Resolved
        else await_start childKilled rest
               {| recordingStarted := recordingStarted st; errorOutput := errorOutput st;
                  intervalActive := false; timeoutArmed := false |}
      else await_start childKilled rest st
  | ChildExit _ :: rest => await_start childKilled rest st
  end.

Definition await_promise (s : option Settled) : M unit :=
  fun p =>
    match s with
    | Some Resolved => (Returned tt, p)
    | Some (Rejected e) => (Threw e, p)
    | None => (Pending, p)
    end.

Definition push_flag (flag : string) (value : option string) (args : list string)
  : list string :=
  match JS.if_truthy value with
  | Some v => args ++ [flag +:+ v]
  | None => args
  end.

Section Media.
Variable host : Host.

Definition record_args (deviceId outputPath : string) (options : RecordOptions)
  : list string :=
  let args := ["simctl"; "io"; deviceId; "recordVideo"] in
  let args := push_flag "--codec=" (rec_codec options) args in
  let args := push_flag "--display=" (rec_display options) args in
  let args := push_flag "--mask=" (rec_mask options) args in
  let args := if default false (rec_force options) then args ++ ["--force"] else args in
  args ++ ["--"; outputPath].

(** [resolveFilePath(path || generateTimestampedFilename('recording', 'mp4'))] *)
Definition output_path (path : option string) : string :=
  resolveFilePath host
    (match JS.if_truthy path with
     | Some given => given
     | None => generateTimestampedFilename host "recording" "mp4"
     end).

Definition record (path : option string) (options : RecordOptions) : M unit :=
  deviceId <- getDeviceId host (rec_device options) ;;
  let outputPath := output_path path in
  if fileExists host outputPath && negb (default false (rec_force options))
  then throw (SimulatorError ("File already exists: " +:+ outputPath) GENERAL_ERROR
                (Some ["Use --force to overwrite the existing file"]))
  else
    Logger.startSpinner "Starting video recording..." ;;;
    try_catch
      (recordingProcess <- runBackground host "xcrun" (record_args deviceId outputPath options) ;;
       await_promise (await_start (killed recordingProcess) (events recordingProcess) wait_init) ;;;
       Logger.success ("Recording started. Video will be saved to: " +:+ outputPath) ;;;
       Logger.info ("Run " +:+ JS.quote +:+ "sim-cli record-stop" +:+ JS.quote
                    +:+ " to stop recording") ;;;
       setenv "SIM_CLI_RECORDING_PATH" outputPath ;;;
       setenv "SIM_CLI_RECORDING_PID" (JS.String_of_number (pid recordingProcess)) ;;;
       when_json (Logger.json (JObj [("success", JBool true); ("recording", JBool true);
                                     ("path", JStr outputPath);
                                     ("pid", JNum (pid recordingProcess));
                                     ("device", JStr deviceId)])))
      stop_and_rethrow.

(** What [recordStop] does once [killProcess] has returned and the grace
    period of one second is over. *)
Definition report_stopped : M unit :=
  recordingPath <- getenv "SIM_CLI_RECORDING_PATH" ;;
  match JS.if_truthy recordingPath with
  | Some saved =>
      if fileExists host saved then
        Logger.success ("Recording stopped. Video saved to: " +:+ saved) ;;;
        when_json (Logger.json (JObj [("success", JBool true); ("recording", JBool false);
                                      ("path", JStr saved)]))
      else
        Logger.success "Recording stopped" ;;;
        when_json (Logger.json (JObj [("success", JBool true); ("recording", JBool false)]))
  | None =>
      Logger.success "Recording stopped" ;;;
      when_json (Logger.json (JObj [("success", JBool true); ("recording", JBool false)]))
  end ;;;
  unsetenv "SIM_CLI_RECORDING_PATH" ;;;
  unsetenv "SIM_CLI_RECORDING_PID".

(** The [catch] block of [recordStop]. *)
Definition no_recording_or_rethrow (error : Thrown) : M unit :=
  Logger.stopSpinner false None ;;;
  match message_of error with
  | Some m =>
      if JS.includes m "No matching processes" then
        Logger.warn "No active recording found" ;;;
        when_json (Logger.json (JObj [("success", JBool false);
                                      ("message", JStr "No active recording found")]))
      else throw error
  | None => throw error
  end.

Definition recordStop : M unit :=
  Logger.startSpinner "Stopping video recording..." ;;;
  try_catch
    (killProcess host "simctl.*recordVideo" ;;; report_stopped)
    no_recording_or_rethrow.

End Media.

(** ** Vocabulary of the properties *)

(** The part of an argument vector behind its first ["--"]. *)
Fixpoint after_separator (args : list string) : list string :=
  match args with
  | [] => []
  | a :: rest => if String.eqb a "--" then rest else after_separator rest
  end.

(** [value] is an element of the vector and stands behind the separator. *)
Definition behind_separator (args : list string) (value : string) : bool :=
  JS.arr_includes (after_separator args) value.

(** Every code unit of [s] satisfies [p]. *)
Fixpoint all_units (p : ascii -> bool) (s : string) : bool :=
  match s with
  | EmptyString => true
  | String a s' => p a && all_units p s'
  end.

(** The code units 0x20 to 0x7E. *)
Definition printable : ascii -> bool := Regex.range 32 126.

(** No record of the device list is in state ['Booted']. *)
Definition none_booted (devices : list (string * list RawDevice)) : Prop :=
  Forall (fun entry => Forall (fun d => raw_state d <> "Booted") (snd entry)) devices.

(** No chunk of the schedule carries the confirmation of [simctl]. *)
Definition never_confirms (schedule : list LoopEvent) : Prop :=
  forall chunk, In (StderrData chunk) schedule ->
                JS.includes chunk "Recording started" = false.

Definition list_devices : Invocation :=
  foreground "xcrun" ["simctl"; "list"; "devices"; "--json"].

Definition pkill_recording : list string := ["-SIGINT"; "-f"; "simctl.*recordVideo"].

(** A computation that starts no external process. *)
Definition keeps_spawned {A} (m : M A) : Prop :=
  forall p, spawned (snd (m p)) = spawned p.

(** A computation that returns normally, starts no process and leaves the
    environment alone (it may write to the console). *)
Definition silent (m : M unit) : Prop :=
  forall p, fst (m p) = Returned tt /\ spawned (snd (m p)) = spawned p
            /\ env (snd (m p)) = env p.

(** A computation that starts exactly the processes [l], in that order. *)
Definition appends {A} (m : M A) (l : list Invocation) : Prop :=
  forall p, spawned (snd (m p)) = spawned p ++ l.

(** ** A sample host and sample processes, for the examples *)

Definition sampleUdid : string := "37A360EC-75F9-4AEC-8EFA-10F4A58D8CCA".

(** A stand-in for [path.extname]: the text from the last dot of the last
    segment of the path. *)
Fixpoint sample_extname_from (ext s : string) : string :=
  match s with
  | EmptyString => ext
  | String a s' =>
      if Ascii.eqb a "/" then sample_extname_from "" s'
      else if Ascii.eqb a "." then sample_extname_from "." s'
      else if String.eqb ext "" then sample_extname_from "" s'
      else sample_extname_from (ext +:+ String a EmptyString) s'
  end.

Definition shutdownPhone : RawDevice :=
  {| raw_name := "iPhone 15";
     raw_udid := "11111111-2222-3333-4444-555555555555";
     raw_state := "Shutdown";
     raw_isAvailable := Some true;
     raw_deviceTypeIdentifier := "com.apple.CoreSimulator.SimDeviceType.iPhone-15" |}.

(** A child of [simctl io recordVideo] that reports a failure on its error
    stream and exits, never confirming, well before the timeout. *)
Definition dyingChild : ChildBehaviour :=
  {| child_pid := 4242;
     child_events :=
       [IntervalTick; StderrData "Invalid device: boom"; ChildExit 1;
        IntervalTick; IntervalTick; TimeoutFired] |}.

(** A machine on which no simulator is booted and no recording runs: the
    external tools answer with empty output, [pkill] matches nothing (exit
    status 1), and the only file is a regular file named like a bundle. *)
Definition sampleHost : Host :=
  {| execFile := fun _ command _ =>
       if String.eqb command "pkill"
       then Failed "Command failed: pkill -SIGINT -f simctl.*recordVideo" (ExitCode 1)
       else Exited {| stdout := ""; stderr := "" |};
     spawn := fun _ _ _ => dyingChild;
     fileExists := fun path => String.eqb path "/path/to/MyApp.app";
     isDirectory := fun _ => false;
     path_isAbsolute := fun path => JS.startsWith path "/";
     path_resolve := fun path => "/work/" +:+ path;
     path_extname := sample_extname_from "";
     resolveFilePath := fun path =>
       if JS.startsWith path "/" then path else "/work/" +:+ path;
     generateTimestampedFilename := fun prefix extension =>
       prefix +:+ "_2024-01-15_10-30-45-123." +:+ extension;
     parse_device_list := fun _ =>
       Some [("com.apple.CoreSimulator.SimRuntime.iOS-17-0", [shutdownPhone])] |}.

(** The same machine while a recording runs: [pkill] finds it. *)
Definition recordingHost : Host :=
  {| execFile := fun _ _ _ => Exited {| stdout := ""; stderr := "" |};
     spawn := spawn sampleHost;
     fileExists := fileExists sampleHost;
     isDirectory := isDirectory sampleHost;
     path_isAbsolute := path_isAbsolute sampleHost;
     path_resolve := path_resolve sampleHost;
     path_extname := path_extname sampleHost;
     resolveFilePath := resolveFilePath sampleHost;
     generateTimestampedFilename := generateTimestampedFilename sampleHost;
     parse_device_list := parse_device_list sampleHost |}.

Definition fresh (variables : gmap string string) : Process :=
  {| env := variables; spawned := []; console := []; log_level := INFO; spinner := None |}.

(** A fresh process with nothing set, one with a default device, and one
    with a default device and JSON output. *)
Definition bare : Process := fresh ∅.

Definition human : Process := fresh {[ "SIM_CLI_DEVICE" := sampleUdid ]}.

Definition machine : Process :=
  fresh (<[ "SIM_CLI_FORMAT" := "json" ]> {[ "SIM_CLI_DEVICE" := sampleUdid ]}).

Definition no_record_options : RecordOptions :=
  {| rec_codec := None; rec_display := None; rec_mask := None;
     rec_force := None; rec_device := None |}.

(** ** Device listing (src/utils/device.ts) *)

Record ListOptions : Type :=
  { iosVersion : option string; deviceType : option string; bootedOnly : option bool }.

(** The object [listDevices] pushes for one record of one runtime. *)
Definition snapshot (runtime : string) (device : RawDevice) : SimulatorDevice :=
  {| name := raw_name device;
     udid := raw_udid device;
     state := raw_state device;
     isAvailable := default true (raw_isAvailable device);
     deviceTypeIdentifier := raw_deviceTypeIdentifier device;
     runtimeIdentifier := runtime |}.

(** [options?.iosVersion && !runtime.includes(options.iosVersion)] *)
Definition skips_runtime (options : ListOptions) (runtime : string) : bool :=
  match JS.if_truthy (iosVersion options) with
  | Some version => negb (JS.includes runtime version)
  | None => false
  end.

(** [options?.deviceType && !device.name.includes(options.deviceType)] *)
Definition skips_name (options : ListOptions) (device : RawDevice) : bool :=
  match JS.if_truthy (deviceType options) with
  | Some type => negb (JS.includes (raw_name device) type)
  | None => false
  end.

(** [options?.bootedOnly && device.state !== 'Booted'] *)
Definition skips_state (options : ListOptions) (device : RawDevice) : bool :=
  default false (bootedOnly options) && negb (String.eqb (raw_state device) "Booted").

(** The inner loop of [listDevices]. *)
Fixpoint collect_devices (options : ListOptions) (runtime : string)
         (deviceList : list RawDevice) : list SimulatorDevice :=
  match deviceList with
  | [] => []
  | device :: rest =>
      if skips_name options device then collect_devices options runtime rest
      else if skips_state options device then collect_devices options runtime rest
      else snapshot runtime device :: collect_devices options runtime rest
  end.

(** The outer loop of [listDevices]. *)
Fixpoint collect_runtimes (options : ListOptions) (devices : list (string * list RawDevice))
  : list SimulatorDevice :=
  match devices with
  | [] => []
  | (runtime, deviceList) :: rest =>
      if skips_runtime options runtime then collect_runtimes options rest
      else collect_devices options runtime deviceList ++ collect_runtimes options rest
  end.

Section Listing.
Variable host : Host.

Definition listDevices (options : ListOptions) : M (list SimulatorDevice) :=
  r <- run host "xcrun" ["simctl"; "list"; "devices"; "--json"] None ;;
  if JS.truthy (stderr r)
  then throw (SimulatorError ("Failed to list devices: " +:+ stderr r) GENERAL_ERROR None)
  else
    match parse_device_list host (stdout r) with
    | None => throw (SimulatorError "Failed to parse device list" GENERAL_ERROR None)
    | Some devices => ret (collect_runtimes options devices)
    end.

End Listing.

(** ** Simulator management (src/commands/simulator.ts) *)

Definition device_json (d : SimulatorDevice) : json :=
  JObj [("name", JStr (name d)); ("udid", JStr (udid d)); ("state", JStr (state d));
        ("isAvailable", JBool (isAvailable d));
        ("deviceTypeIdentifier", JStr (deviceTypeIdentifier d));
        ("runtimeIdentifier", JStr (runtimeIdentifier d))].

Section Simulator.
Variable host : Host.

Definition info : M unit :=
  Logger.startSpinner "Getting simulator information..." ;;;
  try_catch
    (device <- getBootedDevice host ;;
     fun p =>
       if Logger.format_json p then
         Logger.json (JObj [("success", JBool true); ("device", device_json device)]) p
       else
         (Logger.success ("Booted Simulator: " +:+ name device) ;;;
          Logger.info ("UDID: " +:+ udid device) ;;;
          Logger.info ("State: " +:+ state device) ;;;
          Logger.info ("Runtime: " +:+ runtimeIdentifier device)) p)
    stop_and_rethrow.

(** The first half of [open]: boot the first device that matches. *)
Definition boot_requested (ios type : option string) : M unit :=
  if JS.truthy_opt type || JS.truthy_opt ios then
    devices <- listDevices host {| iosVersion := JS.if_truthy ios;
                                   deviceType := JS.if_truthy type;
                                   bootedOnly := None |} ;;
    match devices with
    | [] =>
        throw (SimulatorError "No matching simulator found" SIMULATOR_NOT_FOUND
                 (Some ["Run: sim-cli list to see available devices"]))
    | device :: _ =>
        if negb (String.eqb (state device) "Booted") then
          Logger.updateSpinner ("Booting " +:+ name device +:+ "...") ;;;
          run host "xcrun" ["simctl"; "boot"; udid device] None ;;;
          ret tt
        else ret tt
    end
  else ret tt.

(** [open(options)], [options.ios] and [options.deviceType]. *)
Definition open (ios type : option string) : M unit :=
  Logger.startSpinner "Opening iOS Simulator..." ;;;
  try_catch
    (boot_requested ios type ;;;
     run host "open" ["-a"; "Simulator.app"] None ;;;
     Logger.success "iOS Simulator opened successfully" ;;;
     when_json (Logger.json (JObj [("success", JBool true);
                                   ("message", JStr "Simulator opened")])))
    stop_and_rethrow.

End Simulator.

(** ** Launching and removing apps (src/commands/app.ts) *)

(** The capture of [/^(\d+)/]: the digits the text starts with. *)
Fixpoint leading_digits (s : string) : string :=
  match s with
  | EmptyString => EmptyString
  | String a s' => if Regex.digit a then String a (leading_digits s') else EmptyString
  end.

(** [stdout.match(/^(\d+)/)], then [pidMatch ? pidMatch[1] : null]. *)
Definition match_pid (stdout : string) : option string :=
  match leading_digits stdout with
  | EmptyString => None
  | digits => Some digits
  end.

Definition json_of_option (o : option string) : json :=
  match o with
  | Some s => JStr s
  | None => JNull
  end.

(** The [catch] block of [launch] and of [uninstall]: an error whose
    message holds [marker] is replaced by "App not found". *)
Definition app_not_found (marker bundleId : string) (hints : list string) (error : Thrown)
  : M unit :=
  Logger.stopSpinner false None ;;;
  match message_of error with
  | Some m =>
      if JS.includes m marker
      then throw (SimulatorError ("App not found: " +:+ bundleId) GENERAL_ERROR (Some hints))
      else throw error
  | None => throw error
  end.

Section AppLifecycle.
Variable host : Host.

Definition launch_args (terminate : option bool) (deviceId bundleId : string) : list string :=
  let args := ["simctl"; "launch"] in
  let args := if default false terminate
              then args ++ ["--terminate-running-process"] else args in
  args ++ [deviceId; bundleId].

Definition launch (bundleId : string) (terminate : option bool) (device : option string)
  : M unit :=
  validatedBundleId <- parse (Validator.bundleIdSchema bundleId) ;;
  deviceId <- getDeviceId host device ;;
  Logger.startSpinner ("Launching app: " +:+ bundleId +:+ "...") ;;;
  try_catch
    (r <- run host "xcrun" (launch_args terminate deviceId validatedBundleId) None ;;
     if JS.truthy (stderr r) && negb (JS.includes (stderr r) "successfully")
     then throw (SimulatorError ("Launch failed: " +:+ stderr r) GENERAL_ERROR None)
     else
       let pid := match_pid (stdout r) in
       match JS.if_truthy pid with
       | Some n => Logger.success ("App " +:+ bundleId +:+ " launched with PID: " +:+ n)
       | None => Logger.success ("App " +:+ bundleId +:+ " launched successfully")
       end ;;;
       when_json (Logger.json (JObj [("success", JBool true); ("bundleId", JStr bundleId);
                                     ("pid", json_of_option pid);
                                     ("device", JStr deviceId)])))
    (app_not_found "Unable to find" bundleId
       ["Check the bundle ID is correct";
        "Ensure the app is installed: sim-cli install <app-path>";
        "List installed apps: sim-cli app-list"]).

Definition uninstall (bundleId : string) (device : option string) : M unit :=
  validatedBundleId <- parse (Validator.bundleIdSchema bundleId) ;;
  deviceId <- getDeviceId host device ;;
  Logger.startSpinner ("Uninstalling app: " +:+ bundleId +:+ "...") ;;;
  try_catch
    (r <- run host "xcrun" ["simctl"; "uninstall"; deviceId; validatedBundleId] None ;;
     if JS.truthy (stderr r) && negb (JS.includes (stderr r) "successfully")
     then throw (SimulatorError ("Uninstall failed: " +:+ stderr r) GENERAL_ERROR None)
     else
       Logger.success ("App " +:+ bundleId +:+ " uninstalled successfully") ;;;
       when_json (Logger.json (JObj [("success", JBool true); ("bundleId", JStr bundleId);
                                     ("device", JStr deviceId)])))
    (app_not_found "No such file or directory" bundleId
       ["Check the bundle ID is correct";
        "List installed apps: sim-cli app-list"]).

End AppLifecycle.

(** ** Screenshots (src/commands/media.ts) *)

Record ScreenshotOptions : Type :=
  { shot_type : option string;
    shot_display : option string;
    shot_mask : option string;
    shot_device : option string }.

Section Screenshot.
Variable host : Host.

Definition screenshot_args (deviceId outputPath : string) (options : ScreenshotOptions)
  : list string :=
  let args := ["simctl"; "io"; deviceId; "screenshot"] in
  let args := push_flag "--type=" (shot_type options) args in
  let args := push_flag "--display=" (shot_display options) args in
  let args := push_flag "--mask=" (shot_mask options) args in
  args ++ ["--"; outputPath].

(** [options.type || 'png'] *)
Definition file_type (options : ScreenshotOptions) : string :=
  default "png" (JS.if_truthy (shot_type options)).

(** [resolveFilePath(path || generateTimestampedFilename('screenshot', fileType))] *)
Definition screenshot_path (path : option string) (options : ScreenshotOptions) : string :=
  resolveFilePath host
    (match JS.if_truthy path with
     | Some given => given
     | None => generateTimestampedFilename host "screenshot" (file_type options)
     end).

Definition screenshot (path : option string) (options : ScreenshotOptions) : M unit :=
  deviceId <- getDeviceId host (shot_device options) ;;
  let fileType := file_type options in
  let outputPath := screenshot_path path options in
  Logger.startSpinner "Taking screenshot..." ;;;
  try_catch
    (r <- run host "xcrun" (screenshot_args deviceId outputPath options) None ;;
     if JS.truthy (stderr r) && negb (JS.includes (stderr r) "Wrote screenshot to")
     then throw (SimulatorError ("Screenshot failed: " +:+ stderr r) GENERAL_ERROR None)
     else
       Logger.success ("Screenshot saved to: " +:+ outputPath) ;;;
       when_json (Logger.json (JObj [("success", JBool true); ("path", JStr outputPath);
                                     ("type", JStr fileType); ("device", JStr deviceId)])))
    stop_and_rethrow.

End Screenshot.

(** ** Command actions (src/cli.ts, src/utils/error-handler.ts) *)

(** How a command action leaves the process: the handler finished, the
    handler threw and [handleError] called [process.exit], or the handler
    waits for a promise that nothing settles. *)
Inductive Ending : Type :=
| Finished
| ExitedWith (status : Z)
| Waiting.

(** [try { await handler } catch (error) { handleError(error) }], the body
    of every [.action] and of [withErrorHandling]. *)
Definition action (handler : M unit) (p : Process) : Ending * Process :=
  match handler p with
  | (Returned _, p') => (Finished, p')
  | (Threw e, p') => (ExitedWith (fst (handleError e p')), snd (handleError e p'))
  | (Pending, p') => (Waiting, p')
  end.

(** ** More vocabulary *)

(** [s] is made of the code units that satisfy [p], and of [n] of them. *)
Definition block (p : ascii -> bool) (n : nat) (s : string) : Prop :=
  String.length s = n /\ all_units p s = true.

(** A non-empty run of decimal digits. *)
Definition digits (s : string) : Prop :=
  s <> "" /\ all_units Regex.digit s = true.

(** A device of the list passes the three filters of [listDevices]. *)
Definition passes (options : ListOptions) (runtime : string) (device : RawDevice) : bool :=
  negb (skips_runtime options runtime) && negb (skips_name options device)
  && negb (skips_state options device).

(** The records of a device list with their runtimes, in document order. *)
Definition flatten (devices : list (string * list RawDevice)) : list (string * RawDevice) :=
  flat_map (fun entry => map (pair (fst entry)) (snd entry)) devices.

(** A machine with one booted and one shut-down simulator. *)
Definition bootedPhone : RawDevice :=
  {| raw_name := "iPhone 15 Pro";
     raw_udid := "AAAAAAAA-BBBB-CCCC-DDDD-EEEEEEEEEEEE";
     raw_state := "Booted";
     raw_isAvailable := None;
     raw_deviceTypeIdentifier := "com.apple.CoreSimulator.SimDeviceType.iPhone-15-Pro" |}.

Definition twoRuntimes : list (string * list RawDevice) :=
  [("com.apple.CoreSimulator.SimRuntime.iOS-16-4", [shutdownPhone]);
   ("com.apple.CoreSimulator.SimRuntime.iOS-17-0", [shutdownPhone; bootedPhone])].

Definition bootedHost : Host :=
  {| execFile := fun _ command args =>
       if String.eqb command "pkill" then Failed "Command failed: pkill" (ExitCode 2)
       else if JS.arr_includes args "launch"
       then Exited {| stdout := "12345: com.example.app
"; stderr := "" |}
       else Exited {| stdout := ""; stderr := "" |};
     spawn := fun _ _ _ =>
       {| child_pid := 777;
          child_events := [IntervalTick; StderrData "Recording started"; IntervalTick;
                           TimeoutFired] |};
     fileExists := fun path => String.eqb path "/tmp/demo.mp4";
     isDirectory := fun _ => false;
     path_isAbsolute := fun path => JS.startsWith path "/";
     path_resolve := fun path => "/work/" +:+ path;
     path_extname := sample_extname_from "";
     resolveFilePath := fun path =>
       if JS.startsWith path "/" then path else "/work/" +:+ path;
     generateTimestampedFilename := fun prefix extension =>
       prefix +:+ "_2024-01-15_10-30-45-123." +:+ extension;
     parse_device_list := fun _ => Some twoRuntimes |}.

(** Five blocks of hexadecimal digits, of 8, 4, 4, 4 and 12, with dashes. *)
Definition udid_shape (s : string) : Prop :=
  exists a b c d e,
    s = a +:+ "-" +:+ b +:+ "-" +:+ c +:+ "-" +:+ d +:+ "-" +:+ e
    /\ block Validator.hex 8 a /\ block Validator.hex 4 b /\ block Validator.hex 4 c
    /\ block Validator.hex 4 d /\ block Validator.hex 12 e.

(** Digits, or digits, a dot and digits. *)
Definition duration_shape (s : string) : Prop :=
  digits s \/ exists a b, s = a +:+ "." +:+ b /\ digits a /\ digits b.

(** What [run] throws, under the default timeout, when [execFile] fails. *)
Definition failure_of (message : string) (code : NodeCode) : Thrown :=
  match code with
  | SysCode name =>
      if String.eqb name "ETIMEDOUT"
      then NodeError "Command timed out after 30 seconds" NoCode
      else NodeError message code
  | _ => NodeError message code
  end.

(** What [run] returns when the process exits. *)
Definition trimmed (raw : ExecutorResult) : ExecutorResult :=
  {| stdout := JS.trim (stdout raw); stderr := JS.trim (stderr raw) |}.

(** The state after one more foreground process was started. *)
Definition started (command : string) (args : list string) (p : Process) : Process :=
  snd (record_spawn (foreground command args) p).

Definition booted_only : ListOptions :=
  {| iosVersion := None; deviceType := None; bootedOnly := Some true |}.

(** The line [handleError] prints for one suggestion. *)
Definition bulleted (s : string) : ConsoleEvent :=
  Line Err Plain (if JS.startsWith s bullet then s else bullet +:+ " " +:+ s).

(** A machine whose external tools never answer in time. *)
Definition slowHost : Host :=
  {| execFile := fun _ _ _ => Failed "Command failed: xcrun" (SysCode "ETIMEDOUT");
     spawn := spawn sampleHost;
     fileExists := fileExists sampleHost;
     isDirectory := isDirectory sampleHost;
     path_isAbsolute := path_isAbsolute sampleHost;
     path_resolve := path_resolve sampleHost;
     path_extname := path_extname sampleHost;
     resolveFilePath := resolveFilePath sampleHost;
     generateTimestampedFilename := generateTimestampedFilename sampleHost;
     parse_device_list := parse_device_list sampleHost |}.

(** A machine on which the app asked for is not installed. *)
Definition emptyDeviceHost : Host :=
  {| execFile := fun _ _ _ =>
       Failed "Command failed: Unable to find bundle: No such file or directory" (ExitCode 4);
     spawn := spawn sampleHost;
     fileExists := fileExists sampleHost;
     isDirectory := isDirectory sampleHost;
     path_isAbsolute := path_isAbsolute sampleHost;
     path_resolve := path_resolve sampleHost;
     path_extname := path_extname sampleHost;
     resolveFilePath := resolveFilePath sampleHost;
     generateTimestampedFilename := generateTimestampedFilename sampleHost;
     parse_device_list := parse_device_list sampleHost |}.

(** A machine whose recorder confirms between the last tick of the
    interval and the timeout. *)
Definition lateHost : Host :=
  {| execFile := execFile sampleHost;
     spawn := fun _ _ _ =>
       {| child_pid := 888;
          child_events := [IntervalTick; StderrData "Recording started"; TimeoutFired] |};
     fileExists := fileExists sampleHost;
     isDirectory := isDirectory sampleHost;
     path_isAbsolute := path_isAbsolute sampleHost;
     path_resolve := path_resolve sampleHost;
     path_extname := path_extname sampleHost;
     resolveFilePath := resolveFilePath sampleHost;
     generateTimestampedFilename := generateTimestampedFilename sampleHost;
     parse_device_list := parse_device_list sampleHost |}.

(** ["text"], as a JSON document writes a string. *)
Definition quoted (text : string) : string := JS.quote +:+ text +:+ JS.quote.

(** The document of a machine with one simulator, which is shut down. *)
Definition shutdownDocument : string :=
  "{" +:+ quoted "devices" +:+ ":{"
  +:+ quoted "com.apple.CoreSimulator.SimRuntime.iOS-17-0" +:+ ":[{"
  +:+ quoted "name" +:+ ":" +:+ quoted "iPhone 15" +:+ ","
  +:+ quoted "udid" +:+ ":" +:+ quoted "11111111-2222-3333-4444-555555555555" +:+ ","
  +:+ quoted "state" +:+ ":" +:+ quoted "Shutdown" +:+ ","
  +:+ quoted "isAvailable" +:+ ":true,"
  +:+ quoted "deviceTypeIdentifier" +:+ ":"
  +:+ quoted "com.apple.CoreSimulator.SimDeviceType.iPhone-15" +:+ "}]}}".

(** A machine with that one simulator, on which the list query prints its
    document and also a warning on its error stream. *)
Definition noisyHost : Host :=
  {| execFile := fun _ _ _ =>
       Exited {| stdout := shutdownDocument;
                 stderr := "warning: unable to locate CoreSimulator" |};
     spawn := spawn sampleHost;
     fileExists := fileExists sampleHost;
     isDirectory := isDirectory sampleHost;
     path_isAbsolute := path_isAbsolute sampleHost;
     path_resolve := path_resolve sampleHost;
     path_extname := path_extname sampleHost;
     resolveFilePath := resolveFilePath sampleHost;
     generateTimestampedFilename := generateTimestampedFilename sampleHost;
     parse_device_list := fun text =>
       if String.eqb text shutdownDocument
       then Some [("com.apple.CoreSimulator.SimRuntime.iOS-17-0", [shutdownPhone])]
       else None |}.

(** [Number.isSafeInteger(n)]: the whole numbers a double holds exactly,
    which [String] writes in plain decimal. *)
Definition safe_integer (n : Z) : Prop := - 2 ^ 53 < n < 2 ^ 53.

(** A step size that is a number is a safe integer. *)
Definition safe_delta (delta : option Delta) : Prop :=
  match delta with
  | Some (DeltaNumber n) => safe_integer n
  | _ => True
  end.

(** The options object [open] hands to [listDevices]. *)
Definition requested (ios type : option string) : ListOptions :=
  {| iosVersion := JS.if_truthy ios; deviceType := JS.if_truthy type; bootedOnly := None |}.

Definition open_simulator : Invocation := foreground "open" ["-a"; "Simulator.app"].

Definition boot_of (device : SimulatorDevice) : Invocation :=
  foreground "xcrun" ["simctl"; "boot"; udid device].

(** * Properties *)

(** ** Strings *)

Lemma append_cons (x : ascii) (a b : string) : String x a +:+ b = String x (a +:+ b).
Proof. reflexivity. Qed.

Lemma append_empty (b : string) : "" +:+ b = b.
Proof. reflexivity. Qed.

Lemma append_assoc3 (a b c : string) : (a +:+ b) +:+ c = a +:+ (b +:+ c).
Proof.
  induction a as [| x a IH]; [reflexivity |].
  now rewrite !append_cons, IH.
Qed.

Lemma startsWith_spec (s p : string) :
  JS.startsWith s p = true <-> exists t, s = p +:+ t.
Proof.
  revert s. induction p as [| a p IH]; intros s; simpl.
  - split; [intros _; now exists s | reflexivity].
  - destruct s as [| b s].
    + split; [discriminate | intros [t Ht]; discriminate].
    + rewrite andb_true_iff, Ascii.eqb_eq, IH. split.
      * intros [-> [t ->]]. now exists t.
      * intros [t Ht]. rewrite append_cons in Ht. injection Ht as -> ->.
        split; [reflexivity | now exists t].
Qed.

Lemma includes_spec (s sub : string) :
  JS.includes s sub = true <-> exists pre post, s = pre +:+ sub +:+ post.
Proof.
  induction s as [| a s IH]; simpl.
  - rewrite orb_false_r, startsWith_spec. split.
    + intros [t Ht]. now exists "", t.
    + intros [pre [post H]]. destruct pre; [now exists post | discriminate H].
  - rewrite orb_true_iff, startsWith_spec, IH. split.
    + intros [[t Ht] | [pre [post H]]].
      * now exists "", t.
      * exists (String a pre), post. now rewrite append_cons, H.
    + intros [pre [post H]]. destruct pre as [| b pre].
      * left. now exists post.
      * right. rewrite append_cons in H. injection H as -> H. now exists pre, post.
Qed.

(** A text that includes [a +:+ b] includes [b]. *)
Lemma includes_tail (s a b : string) :
  JS.includes s (a +:+ b) = true -> JS.includes s b = true.
Proof.
  rewrite !includes_spec. intros [pre [post H]].
  exists (pre +:+ a), post. now rewrite H, !append_assoc3.
Qed.

(** ** The validators on the inputs of the test suite *)

Example udid_example :
  Zod.success (Validator.udidSchema "37A360EC-75F9-4AEC-8EFA-10F4A58D8CCA") = true.
Proof. vm_compute. reflexivity. Qed.

Example udid_short_example :
  Zod.success (Validator.udidSchema "37A360EC-75F9-4AEC-8EFA") = false.
Proof. vm_compute. reflexivity. Qed.

Example duration_examples :
  map (fun s => Zod.success (Validator.durationSchema s))
      ["1"; "0.5"; "10.25"; "-1"; "1.2.3"; "abc"; "1,5"; ""]
  = [true; true; true; false; false; false; false; false].
Proof. vm_compute. reflexivity. Qed.

Example text_examples :
  map (fun s => Zod.success (Validator.textInputSchema s))
      ["Hello World"; "user@example.com"; "Special chars: !@#$%^&*()"]
  = [true; true; true].
Proof. vm_compute. reflexivity. Qed.

(** ** Regular expressions *)

Section RegexFacts.
Import Regex.

Lemma test_Void s : test Void s = false.
Proof. induction s; simpl; auto. Qed.

Lemma test_Alt r1 r2 s : test (Alt r1 r2) s = test r1 s || test r2 s.
Proof. revert r1 r2. induction s as [| c s IH]; intros; simpl; [reflexivity | apply IH]. Qed.

Lemma test_Cat_Void r s : test (Cat Void r) s = false.
Proof. induction s as [| c s IH]; simpl; [reflexivity | exact IH]. Qed.

Lemma test_Cat_Eps r s : test (Cat Eps r) s = test r s.
Proof.
  destruct s as [| c s]; simpl; [reflexivity |].
  now rewrite test_Alt, test_Cat_Void.
Qed.

Lemma test_Star_Cls p s : test (Star (Cls p)) s = all_units p s.
Proof.
  induction s as [| c s IH]; simpl; [reflexivity |].
  destruct (p c); simpl.
  - now rewrite test_Cat_Eps.
  - apply test_Cat_Void.
Qed.

Lemma test_Plus_Cls p s :
  test (Plus (Cls p)) s = negb (String.eqb s "") && all_units p s.
Proof.
  destruct s as [| c s]; simpl; [reflexivity |].
  destruct (p c); simpl.
  - now rewrite test_Cat_Eps, test_Star_Cls.
  - apply test_Cat_Void.
Qed.

End RegexFacts.

(** ** Computations that start no process *)

Create HintDb quiet.

Lemma bind_returned {A B} (m : M A) (k : A -> M B) p a p' :
  m p = (Returned a, p') -> bind m k p = k a p'.
Proof. intros H. unfold bind. now rewrite H. Qed.

Lemma bind_threw {A B} (m : M A) (k : A -> M B) p e p' :
  m p = (Threw e, p') -> bind m k p = (Threw e, p').
Proof. intros H. unfold bind. now rewrite H. Qed.

Lemma run_exited host command args t p raw :
  execFile host (spawned p) command args = Exited raw ->
  run host command args t p
  = (Returned {| stdout := JS.trim (stdout raw); stderr := JS.trim (stderr raw) |},
     snd (record_spawn (foreground command args) p)).
Proof. intros H. unfold run. now rewrite H. Qed.

Lemma run_failed host command args t p message code :
  execFile host (spawned p) command args = Failed message code ->
  exists message' code',
    run host command args t p
    = (Threw (NodeError message' code'), snd (record_spawn (foreground command args) p)).
Proof.
  intros H. unfold run. rewrite H. destruct code as [| n | name]; [eauto | eauto |].
  destruct (String.eqb name "ETIMEDOUT"); eauto.
Qed.

Lemma bind_silent {B} (m : M unit) (k : unit -> M B) p :
  silent m -> bind m k p = k tt (snd (m p)).
Proof.
  intros H. destruct (H p) as [Hr _]. unfold bind.
  destruct (m p) as [o p']. simpl in *. now rewrite Hr.
Qed.

Lemma silent_ret : silent (ret tt).
Proof. intros p. now repeat split. Qed.

Lemma silent_emit e : silent (emit e).
Proof. intros p. now repeat split. Qed.

Lemma silent_set_spinner s : silent (set_spinner s).
Proof. intros p. now repeat split. Qed.

Lemma silent_seq (m k : M unit) : silent m -> silent k -> silent (m ;;; k).
Proof.
  intros Hm Hk p. rewrite bind_silent by assumption.
  destruct (Hm p) as [_ [Hs He]]. destruct (Hk (snd (m p))) as [Hr [Hs' He']].
  repeat split; congruence.
Qed.

Lemma silent_when b m : silent m -> silent (when b m).
Proof. destruct b; simpl; auto using silent_ret. Qed.

#[local] Hint Resolve silent_ret silent_emit silent_set_spinner silent_seq silent_when : quiet.

Ltac by_quiet :=
  match goal with
  | |- fst (?m ?p) = Returned tt /\ _ =>
      let H := fresh in assert (H : silent m) by auto with quiet; exact (H p)
  end.

Lemma silent_error msg : silent (Logger.error msg).
Proof. intros p. unfold Logger.error. destruct (spinner p); by_quiet. Qed.

Lemma silent_warn msg : silent (Logger.warn msg).
Proof. intros p. unfold Logger.warn. by_quiet. Qed.

Lemma silent_info msg : silent (Logger.info msg).
Proof. intros p. unfold Logger.info. by_quiet. Qed.

Lemma silent_success msg : silent (Logger.success msg).
Proof. intros p. unfold Logger.success. destruct (spinner p); by_quiet. Qed.

Lemma silent_startSpinner msg : silent (Logger.startSpinner msg).
Proof. intros p. unfold Logger.startSpinner. by_quiet. Qed.

Lemma silent_stopSpinner ok msg : silent (Logger.stopSpinner ok msg).
Proof. intros p. unfold Logger.stopSpinner. destruct (spinner p); by_quiet. Qed.

Lemma silent_json data : silent (Logger.json data).
Proof. intros p. unfold Logger.json. by_quiet. Qed.

Lemma silent_when_json m : silent m -> silent (when_json m).
Proof.
  intros H p. unfold when_json. destruct (Logger.format_json p); by_quiet.
Qed.

#[local] Hint Resolve silent_error silent_warn silent_info silent_success silent_startSpinner
  silent_stopSpinner silent_json silent_when_json : quiet.

Lemma keeps_silent m : silent m -> keeps_spawned m.
Proof. intros H p. apply H. Qed.

Lemma keeps_ret {A} (a : A) : keeps_spawned (ret a).
Proof. intros p. reflexivity. Qed.

Lemma keeps_throw {A} e : keeps_spawned (@throw A e).
Proof. intros p. reflexivity. Qed.

Lemma keeps_bind {A B} (m : M A) (k : A -> M B) :
  keeps_spawned m -> (forall a, keeps_spawned (k a)) -> keeps_spawned (bind m k).
Proof.
  intros Hm Hk p. unfold bind. specialize (Hm p).
  destruct (m p) as [[a | e |] p']; simpl in *; try assumption.
  now rewrite Hk.
Qed.

Lemma keeps_if {A} (b : bool) (m1 m2 : M A) :
  keeps_spawned m1 -> keeps_spawned m2 -> keeps_spawned (if b then m1 else m2).
Proof. destruct b; auto. Qed.

Lemma keeps_stop_and_rethrow {A} e : keeps_spawned (@stop_and_rethrow A e).
Proof.
  apply keeps_bind; [apply keeps_silent; auto with quiet | intros; apply keeps_throw].
Qed.

#[local] Hint Resolve keeps_ret keeps_throw keeps_bind keeps_if keeps_stop_and_rethrow : quiet.
#[local] Hint Extern 3 (keeps_spawned _) => apply keeps_silent : quiet.

Lemma appends_run host command args t :
  appends (run host command args t) [foreground command args].
Proof.
  intros p. unfold run, record_spawn.
  destruct (execFile host (spawned p) command args) as [raw | msg code].
  - reflexivity.
  - destruct code as [| n | name]; try reflexivity.
    destruct (String.eqb name "ETIMEDOUT"); reflexivity.
Qed.

Lemma appends_bind_keeps {A B} (m : M A) (k : A -> M B) l :
  appends m l -> (forall a, keeps_spawned (k a)) -> appends (bind m k) l.
Proof.
  intros Hm Hk p. unfold bind. specialize (Hm p).
  destruct (m p) as [[a | e |] p']; simpl in *; try assumption.
  now rewrite Hk.
Qed.

Lemma appends_silent_seq {B} (m : M unit) (k : M B) l :
  silent m -> appends k l -> appends (m ;;; k) l.
Proof.
  intros Hm Hk p. rewrite bind_silent by assumption. rewrite Hk.
  now destruct (Hm p) as [_ [-> _]].
Qed.

Lemma appends_try_catch {A} (m : M A) h l :
  appends m l -> (forall e, keeps_spawned (h e)) -> appends (try_catch m h) l.
Proof.
  intros Hm Hh p. unfold try_catch. specialize (Hm p).
  destruct (m p) as [[a | e |] p']; simpl in *; try assumption.
  now rewrite Hh.
Qed.

(** The shape of a command handler: spinner, then a guarded block. *)
Lemma appends_handler {A} msg (body : M A) l :
  appends body l ->
  appends (Logger.startSpinner msg ;;; try_catch body stop_and_rethrow) l.
Proof.
  intros H. apply appends_silent_seq; [auto with quiet |].
  apply appends_try_catch; [assumption | auto with quiet].
Qed.

Lemma fst_handler {A} msg (body : M A) p :
  fst ((Logger.startSpinner msg ;;; try_catch body stop_and_rethrow) p)
  = fst (body (snd (Logger.startSpinner msg p))).
Proof.
  rewrite bind_silent by auto with quiet. unfold try_catch.
  destruct (body _) as [[a | e |] q]; try reflexivity.
  unfold stop_and_rethrow. now rewrite bind_silent by auto with quiet.
Qed.

Lemma parse_success {A B} (r : Zod.SafeParse A) (a : A) (k : A -> M B) p :
  r = Zod.Success a -> bind (parse r) k p = k a p.
Proof. intros ->. reflexivity. Qed.

Lemma parse_failure {A B} (r : Zod.SafeParse A) issues (k : A -> M B) p :
  r = Zod.Failure issues -> bind (parse r) k p = (Threw (ZodError issues), p).
Proof. intros ->. reflexivity. Qed.

(** ** Device resolution *)

Lemma first_booted_none runtime deviceList :
  Forall (fun d => raw_state d <> "Booted") deviceList ->
  first_booted runtime deviceList = None.
Proof.
  induction 1 as [| d l Hd _ IH]; [reflexivity |].
  simpl. apply String.eqb_neq in Hd. now rewrite Hd.
Qed.

Lemma search_runtimes_none devices :
  none_booted devices -> search_runtimes devices = None.
Proof.
  induction 1 as [| [runtime l] rest Hl _ IH]; [reflexivity |].
  simpl in *. now rewrite first_booted_none.
Qed.

Lemma nonempty_is_truthy (id : string) : id <> "" -> JS.if_truthy (Some id) = Some id.
Proof. destruct id; [contradiction | reflexivity]. Qed.

Lemma udid_is_truthy (id : string) :
  Regex.test Validator.UDID_REGEX id = true -> JS.if_truthy (Some id) = Some id.
Proof. destruct id; [discriminate | reflexivity]. Qed.

Lemma udid_accepts (id : string) :
  Regex.test Validator.UDID_REGEX id = true -> Zod.success (Validator.udidSchema id) = true.
Proof.
  intros H. unfold Validator.udidSchema, Zod.z_string, Zod.z_regex. now rewrite H.
Qed.

Lemma udid_rejects (id : string) :
  Regex.test Validator.UDID_REGEX id = false -> Zod.success (Validator.udidSchema id) = false.
Proof.
  intros H. unfold Validator.udidSchema, Zod.z_string, Zod.z_regex. now rewrite H.
Qed.

Lemma getDeviceId_explicit (host : Host) (p : Process) (id : string) :
  Regex.test Validator.UDID_REGEX id = true ->
  getDeviceId host (Some id) p = (Returned id, p).
Proof.
  intros H. unfold getDeviceId. now rewrite (udid_is_truthy _ H), (udid_accepts _ H).
Qed.

Lemma getDeviceId_explicit_invalid (host : Host) (p : Process) (id : string) :
  id <> "" -> Regex.test Validator.UDID_REGEX id = false ->
  exists m s, getDeviceId host (Some id) p = (Threw (SimulatorError m INVALID_ARGUMENTS s), p).
Proof.
  intros Hne H. unfold getDeviceId.
  rewrite (nonempty_is_truthy _ Hne), (udid_rejects _ H). eauto.
Qed.

Lemma getDeviceId_default (host : Host) (p : Process) (provided : option string) (id : string) :
  JS.if_truthy provided = None ->
  env p !! "SIM_CLI_DEVICE" = Some id ->
  Regex.test Validator.UDID_REGEX id = true ->
  getDeviceId host provided p = (Returned id, p).
Proof.
  intros Hp He Ht. unfold getDeviceId. rewrite Hp.
  unfold bind, getenv. rewrite He, (udid_is_truthy _ Ht), (udid_accepts _ Ht). reflexivity.
Qed.

Lemma getDeviceId_default_invalid (host : Host) (p : Process) (provided : option string)
      (id : string) :
  JS.if_truthy provided = None ->
  env p !! "SIM_CLI_DEVICE" = Some id ->
  id <> "" -> Regex.test Validator.UDID_REGEX id = false ->
  exists m s, getDeviceId host provided p = (Threw (SimulatorError m INVALID_ARGUMENTS s), p).
Proof.
  intros Hp He Hne Ht. unfold getDeviceId. rewrite Hp.
  unfold bind, getenv. rewrite He, (nonempty_is_truthy _ Hne), (udid_rejects _ Ht). eauto.
Qed.

Lemma getBootedDevice_none (host : Host) (p : Process) raw devices :
  execFile host (spawned p) "xcrun" ["simctl"; "list"; "devices"; "--json"] = Exited raw ->
  JS.trim (stderr raw) = "" ->
  parse_device_list host (JS.trim (stdout raw)) = Some devices ->
  none_booted devices ->
  getBootedDevice host p
  = (Threw (SimulatorError "No simulator is currently booted" SIMULATOR_NOT_FOUND
              (Some ["Open Simulator.app"; "Run: sim-cli open";
                     "Specify a device with --device <udid>"])),
     snd (record_spawn list_devices p)).
Proof.
  intros Hx He Hp Hn. unfold getBootedDevice, bind, run.
  rewrite Hx. cbn [stderr stdout record_spawn]. rewrite He, Hp.
  change (JS.truthy "") with false. cbv iota.
  now rewrite (search_runtimes_none _ Hn).
Qed.

Lemma getDeviceId_none_booted (host : Host) (p : Process) provided raw devices :
  JS.if_truthy provided = None ->
  JS.if_truthy (env p !! "SIM_CLI_DEVICE") = None ->
  execFile host (spawned p) "xcrun" ["simctl"; "list"; "devices"; "--json"] = Exited raw ->
  JS.trim (stderr raw) = "" ->
  parse_device_list host (JS.trim (stdout raw)) = Some devices ->
  none_booted devices ->
  getDeviceId host provided p
  = (Threw (SimulatorError "No simulator is currently booted" SIMULATOR_NOT_FOUND
              (Some ["Open Simulator.app"; "Run: sim-cli open";
                     "Specify a device with --device <udid>"])),
     snd (record_spawn list_devices p)).
Proof.
  intros Hp He Hx Hs Hd Hn. unfold getDeviceId. rewrite Hp.
  unfold bind at 1. unfold getenv. rewrite He.
  unfold bind. now rewrite (getBootedDevice_none host p raw devices Hx Hs Hd Hn).
Qed.

(** What [getDeviceId] does on [noisyHost]: the list query exits and its
    document holds no booted device, but it wrote to its error stream, and
    that is tested first. The call fails with a general error that quotes
    the stream, without hints, and the command exits with status 1. *)
Lemma noisy_list_query_is_a_general_error :
  getDeviceId noisyHost None bare
  = (Threw (SimulatorError "Failed to list devices: warning: unable to locate CoreSimulator"
              GENERAL_ERROR None),
     snd (record_spawn list_devices bare))
  /\ forall q,
       fst (handleError
              (SimulatorError "Failed to list devices: warning: unable to locate CoreSimulator"
                 GENERAL_ERROR None) q) = 1.
Proof. split; reflexivity. Qed.

(** The last part of the claim C5 as the specification states it, with
    neither an argument nor a default and no record in state "Booted",
    fails on [noisyHost]: the error is GENERAL_ERROR, not
    SIMULATOR_NOT_FOUND. *)
Lemma device_resolution_as_stated_fails :
  ~ (forall (host : Host) (p : Process) raw devices,
       JS.if_truthy (env p !! "SIM_CLI_DEVICE") = None ->
       execFile host (spawned p) "xcrun" ["simctl"; "list"; "devices"; "--json"]
       = Exited raw ->
       parse_device_list host (JS.trim (stdout raw)) = Some devices ->
       none_booted devices ->
       exists message hints p',
         getDeviceId host None p
         = (Threw (SimulatorError message SIMULATOR_NOT_FOUND hints), p')).
Proof.
  intros H.
  destruct (H noisyHost bare
              {| stdout := shutdownDocument;
                 stderr := "warning: unable to locate CoreSimulator" |}
              [("com.apple.CoreSimulator.SimRuntime.iOS-17-0", [shutdownPhone])]
              eq_refl eq_refl eq_refl)
    as [message [hints [p' E]]].
  - repeat constructor. discriminate.
  - rewrite (proj1 noisy_list_query_is_a_general_error) in E. discriminate E.
Qed.

(** C5 (amended). Device resolution follows a fixed order. A format-valid
    explicit UDID is returned as it is and the process state is untouched,
    so no device list is queried and resolving twice gives the same
    identifier twice. Without an explicit argument the value of
    SIM_CLI_DEVICE is used, checked by the same schema (a malformed value
    is an INVALID_ARGUMENTS error in both places). With neither, the device
    list is queried once, and when that query exits with an empty error
    stream and a well-formed document in which no record is in state
    "Booted", the call fails with SIMULATOR_NOT_FOUND, which carries
    remediation hints and exits with status 3. *)
Theorem device_resolution_order (host : Host) (p : Process) :
  (forall id, Regex.test Validator.UDID_REGEX id = true ->
     getDeviceId host (Some id) p = (Returned id, p)
     /\ (a <- getDeviceId host (Some id) ;;
         b <- getDeviceId host (Some id) ;;
         ret (a, b)) p = (Returned (id, id), p))
  /\ (forall id, env p !! "SIM_CLI_DEVICE" = Some id ->
        Regex.test Validator.UDID_REGEX id = true ->
        getDeviceId host None p = (Returned id, p))
  /\ (forall id, id <> "" -> Regex.test Validator.UDID_REGEX id = false ->
        (exists m s, getDeviceId host (Some id) p
                     = (Threw (SimulatorError m INVALID_ARGUMENTS s), p))
        /\ (env p !! "SIM_CLI_DEVICE" = Some id ->
            exists m s, getDeviceId host None p
                        = (Threw (SimulatorError m INVALID_ARGUMENTS s), p)))
  /\ (forall raw devices,
        JS.if_truthy (env p !! "SIM_CLI_DEVICE") = None ->
        execFile host (spawned p) "xcrun" ["simctl"; "list"; "devices"; "--json"]
        = Exited raw ->
        JS.trim (stderr raw) = "" ->
        parse_device_list host (JS.trim (stdout raw)) = Some devices ->
        none_booted devices ->
        exists message hints p',
          getDeviceId host None p
          = (Threw (SimulatorError message SIMULATOR_NOT_FOUND (Some hints)), p')
          /\ hints <> []
          /\ spawned p' = spawned p ++ [list_devices]
          /\ forall q, fst (handleError
                              (SimulatorError message SIMULATOR_NOT_FOUND (Some hints)) q) = 3).
Proof.
  split; [| split; [| split]].
  - intros id H. split; [now apply getDeviceId_explicit |].
    unfold bind. now rewrite !(getDeviceId_explicit host p id H).
  - intros id He Ht. now apply getDeviceId_default.
  - intros id Hne Ht. split; [now apply getDeviceId_explicit_invalid |].
    intros He. now apply (getDeviceId_default_invalid host p None id).
  - intros raw devices He Hx Hs Hd Hn.
    eexists _, _, _. split; [| split; [| split]].
    + now apply (getDeviceId_none_booted host p None raw devices).
    + discriminate.
    + reflexivity.
    + reflexivity.
Qed.

Lemma device_resolution_order_witness :
  (Regex.test Validator.UDID_REGEX sampleUdid = true
   /\ getDeviceId sampleHost (Some sampleUdid) bare = (Returned sampleUdid, bare))
  /\ (env human !! "SIM_CLI_DEVICE" = Some sampleUdid
      /\ getDeviceId sampleHost None human = (Returned sampleUdid, human))
  /\ (Regex.test Validator.UDID_REGEX "iPhone" = false
      /\ exists m s, getDeviceId sampleHost (Some "iPhone") bare
                     = (Threw (SimulatorError m INVALID_ARGUMENTS s), bare))
  /\ (none_booted [("com.apple.CoreSimulator.SimRuntime.iOS-17-0", [shutdownPhone])]
      /\ exists message hints p',
        getDeviceId sampleHost None bare
        = (Threw (SimulatorError message SIMULATOR_NOT_FOUND (Some hints)), p')
        /\ hints <> []
        /\ spawned p' = spawned bare ++ [list_devices]
        /\ forall q, fst (handleError
                            (SimulatorError message SIMULATOR_NOT_FOUND (Some hints)) q) = 3).
Proof.
  assert (Hn : none_booted [("com.apple.CoreSimulator.SimRuntime.iOS-17-0", [shutdownPhone])]).
  { repeat constructor. discriminate. }
  destruct (device_resolution_order sampleHost bare) as [Ha [_ [Hc Hd]]].
  destruct (device_resolution_order sampleHost human) as [_ [Hb _]].
  split; [| split; [| split]].
  - split; [reflexivity |]. apply Ha. reflexivity.
  - split; [reflexivity |]. apply Hb; reflexivity.
  - split; [reflexivity |]. apply (Hc "iPhone"); [discriminate | reflexivity].
  - split; [exact Hn |].
    apply (Hd {| stdout := ""; stderr := "" |}
              [("com.apple.CoreSimulator.SimRuntime.iOS-17-0", [shutdownPhone])]);
      [reflexivity | reflexivity | reflexivity | reflexivity | exact Hn].
Defined.

(** ** Pointer tap *)

(** C6. For every resolved device identifier D, tap at (100, 200) without
    options starts the UI bridge [idb] with exactly the vector
    ui tap --udid D --json -- 100 200, and nothing else after the device
    was resolved. *)
Theorem tap_100_200_vector (host : Host) (p p1 : Process) (D : string) :
  getDeviceId host None p = (Returned D, p1) ->
  spawned (snd (tap host 100 200 no_tap_options p))
  = spawned p1 ++ [foreground "idb" ["ui"; "tap"; "--udid"; D; "--json"; "--"; "100"; "200"]].
Proof.
  intros H. unfold tap. rewrite (bind_returned _ _ _ _ _ H).
  apply appends_handler.
  apply (appends_bind_keeps (run host "idb"
           ["ui"; "tap"; "--udid"; D; "--json"; "--"; "100"; "200"] None)).
  - apply appends_run.
  - intros r. auto 8 with quiet.
Qed.

Lemma tap_100_200_vector_witness :
  getDeviceId sampleHost None human = (Returned sampleUdid, human)
  /\ spawned (snd (tap sampleHost 100 200 no_tap_options human))
     = [foreground "idb" ["ui"; "tap"; "--udid"; sampleUdid; "--json"; "--"; "100"; "200"]].
Proof.
  assert (H : getDeviceId sampleHost None human = (Returned sampleUdid, human))
    by (apply getDeviceId_default; reflexivity).
  split; [exact H |].
  exact (tap_100_200_vector sampleHost human human sampleUdid H).
Defined.

(** ** Free text *)

Lemma text_schema_spec (s : string) :
  Zod.success (Validator.textInputSchema s)
  = (String.length s <=? 500)%nat && (negb (String.eqb s "") && all_units printable s).
Proof.
  unfold Validator.textInputSchema, Zod.z_string, Zod.z_max, Zod.z_regex, Validator.TEXT_REGEX.
  rewrite test_Plus_Cls. fold printable.
  destruct (String.length s <=? 500)%nat;
    destruct (negb (String.eqb s "") && all_units printable s); reflexivity.
Qed.

Lemma text_schema_data (s t : string) :
  Validator.textInputSchema s = Zod.Success t -> t = s.
Proof.
  unfold Validator.textInputSchema, Zod.z_string.
  destruct (_ ++ _); [now intros [= ->] | discriminate].
Qed.

(** The claim C7 as the specification states it fails at the empty string:
    all of its (zero) characters are printable and it is not longer than
    500, yet the schema rejects it, because the pattern asks for one
    character at least. *)
Lemma text_validation_as_stated_fails :
  ~ (forall s : string,
       all_units printable s = true -> (String.length s <= 500)%nat ->
       Validator.textInputSchema s = Zod.Success s).
Proof.
  intros H. specialize (H "" eq_refl (Nat.le_0_l 500)). discriminate H.
Qed.

(** C7 (amended). Free-text validation succeeds, returning the string
    unchanged, when the string is not empty, every character lies in
    0x20-0x7E and there are at most 500 characters; it fails for every
    string that is empty, has a character outside 0x20-0x7E, or is longer
    than 500 characters. *)
Theorem text_validation (s : string) :
  (s <> "" -> all_units printable s = true -> (String.length s <= 500)%nat ->
   Validator.textInputSchema s = Zod.Success s)
  /\ (s = "" \/ all_units printable s = false \/ (500 < String.length s)%nat ->
      Zod.success (Validator.textInputSchema s) = false).
Proof.
  split.
  - intros Hne Hall Hlen.
    assert (Hs : Zod.success (Validator.textInputSchema s) = true).
    { rewrite text_schema_spec, Hall.
      apply Nat.leb_le in Hlen. rewrite Hlen.
      apply String.eqb_neq in Hne. now rewrite Hne. }
    destruct (Validator.textInputSchema s) as [t |] eqn:E; [| discriminate Hs].
    now rewrite (text_schema_data _ _ E).
  - rewrite text_schema_spec. intros [-> | [Hall | Hlen]].
    + reflexivity.
    + rewrite Hall. now rewrite !andb_false_r.
    + apply Nat.leb_gt in Hlen. now rewrite Hlen.
Qed.

Lemma text_validation_witness :
  ("Hello World" <> "" /\ all_units printable "Hello World" = true
   /\ (String.length "Hello World" <= 500)%nat
   /\ Validator.textInputSchema "Hello World" = Zod.Success "Hello World")
  /\ (all_units printable (String (ascii_of_N 9) "Tab") = false
      /\ Zod.success (Validator.textInputSchema (String (ascii_of_N 9) "Tab")) = false).
Proof.
  split.
  - assert (H1 : "Hello World" <> "") by discriminate.
    assert (H2 : all_units printable "Hello World" = true) by reflexivity.
    assert (H3 : (String.length "Hello World" <= 500)%nat) by (vm_compute; lia).
    split; [exact H1 | split; [exact H2 | split; [exact H3 |]]].
    exact (proj1 (text_validation "Hello World") H1 H2 H3).
  - split; [reflexivity |].
    apply (proj2 (text_validation (String (ascii_of_N 9) "Tab"))).
    right. left. reflexivity.
Defined.

(** ** Hardware buttons *)

Lemma press_single (host : Host) (button canonical : string) (args : list string)
      (device : option string) (p p1 : Process) (D : string) :
  Validator.hardwareButtonSchema (JS.toLowerCase button) = Zod.Success canonical ->
  JS.includes canonical "+" = false ->
  assoc canonical (buttonMap D) = Some args ->
  getDeviceId host device p = (Returned D, p1) ->
  spawned (snd (press host button device p)) = spawned p1 ++ [foreground "idb" args].
Proof.
  intros Hv Hplus Hmap Hd. unfold press.
  rewrite (parse_success _ _ _ _ Hv), (bind_returned _ _ _ _ _ Hd).
  apply appends_handler. rewrite Hplus, Hmap.
  apply appends_bind_keeps; [| auto with quiet].
  apply appends_bind_keeps; [apply appends_run | auto with quiet].
Qed.

Lemma press_compound (host : Host) (button canonical : string)
      (device : option string) (p p1 : Process) (D : string) :
  Validator.hardwareButtonSchema (JS.toLowerCase button) = Zod.Success canonical ->
  JS.includes canonical "+" = true ->
  JS.arr_includes (JS.split "+" canonical) "home"
  && JS.arr_includes (JS.split "+" canonical) "lock" = true ->
  getDeviceId host device p = (Returned D, p1) ->
  spawned (snd (press host button device p))
  = spawned p1 ++ [foreground "xcrun" ["simctl"; "io"; D; "screenshot"; "--type=png"]].
Proof.
  intros Hv Hplus Hboth Hd. unfold press.
  rewrite (parse_success _ _ _ _ Hv), (bind_returned _ _ _ _ _ Hd).
  apply appends_handler. rewrite Hplus. cbv zeta. rewrite Hboth.
  apply appends_bind_keeps; [| auto with quiet].
  apply appends_bind_keeps; [apply appends_run | auto with quiet].
Qed.

Lemma enum_rejects (options : list string) (s : string) :
  JS.arr_includes options s = false -> exists issues, Zod.z_enum options s = Zod.Failure issues.
Proof. intros H. unfold Zod.z_enum. rewrite H. eauto. Qed.

(** C8. A button name whose lowercase form is "home+lock" makes [press]
    start the screenshot action of the device-control utility
    (xcrun simctl io D screenshot) and not the UI bridge; a name whose
    lowercase form is outside the fixed set fails validation with the
    process state untouched, so before any process is started. *)
Theorem press_compound_and_unknown (host : Host) (p : Process) :
  (forall button device D p1,
     JS.toLowerCase button = "home+lock" ->
     getDeviceId host device p = (Returned D, p1) ->
     spawned (snd (press host button device p))
     = spawned p1 ++ [foreground "xcrun" ["simctl"; "io"; D; "screenshot"; "--type=png"]])
  /\ (forall button device,
        JS.arr_includes Validator.hardwareButtons (JS.toLowerCase button) = false ->
        exists issues, press host button device p = (Threw (ZodError issues), p)).
Proof.
  split.
  - intros button device D p1 Hlow Hd.
    apply (press_compound host button "home+lock" device p p1 D);
      [now rewrite Hlow | reflexivity | reflexivity | exact Hd].
  - intros button device Hout.
    destruct (enum_rejects _ _ Hout) as [issues Hi].
    exists issues. unfold press. now apply parse_failure.
Qed.

Lemma press_compound_and_unknown_witness :
  (JS.toLowerCase "Home+LOCK" = "home+lock"
   /\ getDeviceId sampleHost None human = (Returned sampleUdid, human)
   /\ spawned (snd (press sampleHost "Home+LOCK" None human))
      = [foreground "xcrun" ["simctl"; "io"; sampleUdid; "screenshot"; "--type=png"]])
  /\ (JS.arr_includes Validator.hardwareButtons (JS.toLowerCase "back") = false
      /\ exists issues, press sampleHost "back" None human = (Threw (ZodError issues), human)).
Proof.
  assert (Hd : getDeviceId sampleHost None human = (Returned sampleUdid, human))
    by (apply getDeviceId_default; reflexivity).
  destruct (press_compound_and_unknown sampleHost human) as [Ha Hb].
  split.
  - split; [reflexivity |]. split; [exact Hd |].
    exact (Ha "Home+LOCK" None sampleUdid human eq_refl Hd).
  - split; [reflexivity |]. exact (Hb "back" None eq_refl).
Defined.

(** C10. For every resolved device identifier D, press("power") and
    press("lock") start the same external process: the UI bridge with the
    vector ui button --udid D -- LOCK. *)
Theorem press_power_is_press_lock (host : Host) (device : option string)
        (p p1 : Process) (D : string) :
  getDeviceId host device p = (Returned D, p1) ->
  spawned (snd (press host "power" device p))
  = spawned p1 ++ [foreground "idb" ["ui"; "button"; "--udid"; D; "--"; "LOCK"]]
  /\ spawned (snd (press host "lock" device p))
     = spawned (snd (press host "power" device p)).
Proof.
  intros Hd.
  assert (Hp : spawned (snd (press host "power" device p))
               = spawned p1 ++ [foreground "idb" ["ui"; "button"; "--udid"; D; "--"; "LOCK"]]).
  { apply (press_single host "power" "power" _ device p p1 D);
      [reflexivity | reflexivity | reflexivity | exact Hd]. }
  split; [exact Hp |]. rewrite Hp.
  apply (press_single host "lock" "lock" _ device p p1 D);
    [reflexivity | reflexivity | reflexivity | exact Hd].
Qed.

Lemma press_power_is_press_lock_witness :
  getDeviceId sampleHost None human = (Returned sampleUdid, human)
  /\ spawned (snd (press sampleHost "power" None human))
     = [foreground "idb" ["ui"; "button"; "--udid"; sampleUdid; "--"; "LOCK"]]
  /\ spawned (snd (press sampleHost "lock" None human))
     = spawned (snd (press sampleHost "power" None human)).
Proof.
  assert (Hd : getDeviceId sampleHost None human = (Returned sampleUdid, human))
    by (apply getDeviceId_default; reflexivity).
  split; [exact Hd |].
  exact (press_power_is_press_lock sampleHost None human human sampleUdid Hd).
Defined.

(** ** App installation *)

Lemma check_bundle_app (host : Host) (absolutePath : string) :
  JS.toLowerCase (path_extname host absolutePath) = ".app" ->
  check_bundle host absolutePath = ret tt.
Proof. intros H. unfold check_bundle. now rewrite H. Qed.

Lemma check_bundle_ipa (host : Host) (absolutePath : string) :
  JS.toLowerCase (path_extname host absolutePath) = ".ipa" ->
  check_bundle host absolutePath = ret tt.
Proof. intros H. unfold check_bundle. now rewrite H. Qed.

(** The first test of [check_bundle] can never fire: it sits under a guard
    that excludes the extension it asks for. *)
Lemma check_bundle_never_asks_for_directory (host : Host) (absolutePath : string) (p : Process) :
  fst (check_bundle host absolutePath p)
  <> Threw (SimulatorError "Invalid app bundle: .app should be a directory"
              INVALID_ARGUMENTS None).
Proof.
  unfold check_bundle.
  destruct (String.eqb (JS.toLowerCase (path_extname host absolutePath)) ".app");
    destruct (String.eqb (JS.toLowerCase (path_extname host absolutePath)) ".ipa");
    discriminate.
Qed.

Lemma install_spawns (host : Host) (appPath : string) (device : option string)
      (p p1 : Process) (D : string) :
  getDeviceId host device p = (Returned D, p1) ->
  fileExists host (absolute_path host appPath) = true ->
  check_bundle host (absolute_path host appPath) = ret tt ->
  spawned (snd (install host appPath device p))
  = spawned p1 ++ [foreground "xcrun" ["simctl"; "install"; D; absolute_path host appPath]].
Proof.
  intros Hd He Hc. unfold install. rewrite (bind_returned _ _ _ _ _ Hd). cbv zeta.
  apply appends_handler. rewrite He, Hc. cbv iota beta delta [negb].
  apply (appends_bind_keeps (run host "xcrun" (install_args D (absolute_path host appPath)) None)).
  - apply appends_run.
  - intros r. auto 8 with quiet.
Qed.

Lemma install_missing_path (host : Host) (appPath : string) (device : option string)
      (p p1 : Process) (D : string) :
  getDeviceId host device p = (Returned D, p1) ->
  fileExists host (absolute_path host appPath) = false ->
  exists message hints,
    fst (install host appPath device p) = Threw (SimulatorError message FILE_NOT_FOUND hints)
    /\ spawned (snd (install host appPath device p)) = spawned p1.
Proof.
  intros Hd He. unfold install. rewrite (bind_returned _ _ _ _ _ Hd). cbv zeta.
  rewrite He. cbv iota beta delta [negb].
  eexists _, _. split.
  - rewrite fst_handler. reflexivity.
  - rewrite <- (app_nil_r (spawned p1)). apply appends_handler.
    intros q. now rewrite app_nil_r.
Qed.

Lemma fst_silent (m : M unit) (p : Process) : silent m -> fst (m p) = Returned tt.
Proof. intros H. apply H. Qed.

(** What [install] can end with once the bundle checks are passed. *)
Lemma install_outcome (host : Host) (appPath : string) (device : option string)
      (p p1 : Process) (D : string) :
  getDeviceId host device p = (Returned D, p1) ->
  fileExists host (absolute_path host appPath) = true ->
  check_bundle host (absolute_path host appPath) = ret tt ->
  fst (install host appPath device p) = Returned tt
  \/ (exists message, fst (install host appPath device p)
                      = Threw (SimulatorError message GENERAL_ERROR None))
  \/ (exists message code, fst (install host appPath device p)
                           = Threw (NodeError message code)).
Proof.
  intros Hd He Hc. unfold install. rewrite (bind_returned _ _ _ _ _ Hd). cbv zeta.
  rewrite fst_handler, He, Hc. cbv iota beta delta [negb].
  set (q := snd (Logger.startSpinner _ p1)).
  rewrite (bind_returned (ret tt) _ q tt q eq_refl).
  destruct (execFile host (spawned q) "xcrun"
              (install_args D (absolute_path host appPath))) as [raw | message code] eqn:E.
  - rewrite (bind_returned _ _ _ _ _ (run_exited host _ _ None q raw E)).
    cbn [stderr]. destruct (JS.truthy (JS.trim (stderr raw)) && _).
    + right. left. eexists. reflexivity.
    + left. apply fst_silent. auto with quiet.
  - right. right.
    destruct (run_failed host _ _ None q message code E) as [m [c Hr]].
    rewrite (bind_threw _ _ _ _ _ Hr). eauto.
Qed.

(** C1 (the code departs from the claim). [install] hands the path the
    user gave to [xcrun simctl install] in a vector that holds no "--": the
    path does not stand behind an end-of-options separator. *)
Theorem install_path_not_behind_separator (host : Host) (appPath : string)
        (device : option string) (p p1 : Process) (D : string) :
  getDeviceId host device p = (Returned D, p1) ->
  fileExists host (absolute_path host appPath) = true ->
  JS.toLowerCase (path_extname host (absolute_path host appPath)) = ".app"
  \/ JS.toLowerCase (path_extname host (absolute_path host appPath)) = ".ipa" ->
  D <> "--" ->
  spawned (snd (install host appPath device p))
  = spawned p1 ++ [foreground "xcrun" ["simctl"; "install"; D; absolute_path host appPath]]
  /\ behind_separator ["simctl"; "install"; D; absolute_path host appPath]
                      (absolute_path host appPath) = false.
Proof.
  intros Hd He Hext HD. split.
  - apply install_spawns; [exact Hd | exact He |].
    destruct Hext; [now apply check_bundle_app | now apply check_bundle_ipa].
  - unfold behind_separator. cbn [after_separator].
    change (String.eqb "simctl" "--") with false.
    change (String.eqb "install" "--") with false.
    apply String.eqb_neq in HD. rewrite HD. cbv iota.
    now destruct (String.eqb (absolute_path host appPath) "--").
Qed.

Lemma install_path_not_behind_separator_witness :
  getDeviceId sampleHost None human = (Returned sampleUdid, human)
  /\ spawned (snd (install sampleHost "/path/to/MyApp.app" None human))
     = [foreground "xcrun" ["simctl"; "install"; sampleUdid; "/path/to/MyApp.app"]]
  /\ behind_separator ["simctl"; "install"; sampleUdid; "/path/to/MyApp.app"]
                      "/path/to/MyApp.app" = false.
Proof.
  assert (Hd : getDeviceId sampleHost None human = (Returned sampleUdid, human))
    by (apply getDeviceId_default; reflexivity).
  split; [exact Hd |].
  apply (install_path_not_behind_separator sampleHost "/path/to/MyApp.app" None
           human human sampleUdid Hd);
    [reflexivity | left; reflexivity | discriminate].
Defined.

(** The sibling handler [tap] does put its coordinates behind "--". *)
Lemma tap_coordinates_behind_separator (D : string) (x y : Z) :
  D <> "--" ->
  after_separator ["ui"; "tap"; "--udid"; D; "--json"; "--";
                   JS.String_of_number x; JS.String_of_number y]
  = [JS.String_of_number x; JS.String_of_number y].
Proof.
  intros HD. cbn [after_separator].
  change (String.eqb "ui" "--") with false. change (String.eqb "tap" "--") with false.
  change (String.eqb "--udid" "--") with false. change (String.eqb "--json" "--") with false.
  apply String.eqb_neq in HD. now rewrite HD.
Qed.

(** C3 (the code departs from the claim). A path that exists, ends in
    ".app" and is not a directory is not refused: [install] goes on to
    start [xcrun simctl install] with it, and whatever that process
    answers, the call never ends with an INVALID_ARGUMENTS error. *)
Theorem install_app_file_is_not_refused (host : Host) (appPath : string)
        (device : option string) (p p1 : Process) (D : string) :
  getDeviceId host device p = (Returned D, p1) ->
  fileExists host (absolute_path host appPath) = true ->
  JS.toLowerCase (path_extname host (absolute_path host appPath)) = ".app" ->
  isDirectory host (absolute_path host appPath) = false ->
  spawned (snd (install host appPath device p))
  = spawned p1 ++ [foreground "xcrun" ["simctl"; "install"; D; absolute_path host appPath]]
  /\ forall message hints,
       fst (install host appPath device p)
       <> Threw (SimulatorError message INVALID_ARGUMENTS hints).
Proof.
  intros Hd He Hext _.
  pose proof (check_bundle_app host _ Hext) as Hc. split.
  - now apply install_spawns.
  - intros message hints.
    destruct (install_outcome host appPath device p p1 D Hd He Hc)
      as [-> | [[m ->] | [m [c ->]]]]; discriminate.
Qed.

Lemma install_app_file_is_not_refused_witness :
  (getDeviceId sampleHost None human = (Returned sampleUdid, human)
   /\ fileExists sampleHost "/path/to/MyApp.app" = true
   /\ isDirectory sampleHost "/path/to/MyApp.app" = false)
  /\ spawned (snd (install sampleHost "/path/to/MyApp.app" None human))
     = [foreground "xcrun" ["simctl"; "install"; sampleUdid; "/path/to/MyApp.app"]]
  /\ forall message hints,
       fst (install sampleHost "/path/to/MyApp.app" None human)
       <> Threw (SimulatorError message INVALID_ARGUMENTS hints).
Proof.
  assert (Hd : getDeviceId sampleHost None human = (Returned sampleUdid, human))
    by (apply getDeviceId_default; reflexivity).
  split; [split; [exact Hd | split; reflexivity] |].
  apply (install_app_file_is_not_refused sampleHost "/path/to/MyApp.app" None
           human human sampleUdid Hd); reflexivity.
Defined.

(** On the sample host the installation of the regular file goes through. *)
Example install_app_file_succeeds :
  fst (install sampleHost "/path/to/MyApp.app" None human) = Returned tt.
Proof. vm_compute. reflexivity. Qed.

(** ** Error classification *)

Lemma command_not_found_includes_not_found (m : string) :
  JS.includes m "command not found" = true -> JS.includes m "not found" = true.
Proof. apply (includes_tail m "command " "not found"). Qed.

(** The last test of the chain in [handleError] is shadowed by the test
    before it: no error at all is classified as COMMAND_NOT_FOUND. *)
Lemma classify_never_command_not_found (m : string) (code : NodeCode) :
  exitCode (classify (NodeError m code)) <> COMMAND_NOT_FOUND.
Proof.
  unfold classify.
  destruct (JS.includes m "No booted simulator"); [discriminate |].
  destruct (JS.includes m "timed out"); [discriminate |].
  destruct (JS.includes m "EACCES" || JS.includes m "permission denied"); [discriminate |].
  destruct (JS.includes m "ENOENT" || JS.includes m "not found") eqn:E; [discriminate |].
  destruct (JS.includes m "command not found") eqn:C; [| discriminate].
  apply command_not_found_includes_not_found in C.
  rewrite C, orb_true_r in E. discriminate E.
Qed.

(** C2 (the code departs from the claim). An error whose message contains
    "command not found" is never reported with exit status 127: its message
    contains "not found" as well, which the chain tests first, so unless an
    earlier test matches, the exit status is FileNotFound (6). *)
Theorem command_not_found_exits_with_6 (m : string) (code : NodeCode) (p : Process) :
  JS.includes m "command not found" = true ->
  fst (handleError (NodeError m code) p) <> 127
  /\ (JS.includes m "No booted simulator" = false ->
      JS.includes m "timed out" = false ->
      JS.includes m "EACCES" = false ->
      JS.includes m "permission denied" = false ->
      fst (handleError (NodeError m code) p) = 6).
Proof.
  intros C. split.
  - unfold handleError. cbn [fst].
    pose proof (classify_never_command_not_found m code) as H.
    destruct (exitCode (classify (NodeError m code))); try discriminate. contradiction.
  - intros H1 H2 H3 H4. unfold handleError, classify. cbn [fst].
    rewrite H1, H2, H3, H4, (command_not_found_includes_not_found m C), orb_true_r.
    reflexivity.
Qed.

Lemma command_not_found_exits_with_6_witness :
  JS.includes "/bin/sh: idb: command not found" "command not found" = true
  /\ fst (handleError (NodeError "/bin/sh: idb: command not found" (ExitCode 127)) human) <> 127
  /\ fst (handleError (NodeError "/bin/sh: idb: command not found" (ExitCode 127)) human) = 6.
Proof.
  destruct (command_not_found_exits_with_6 "/bin/sh: idb: command not found"
              (ExitCode 127) human eq_refl) as [Ha Hb].
  split; [reflexivity |]. split; [exact Ha |].
  apply Hb; reflexivity.
Defined.

(** The other rows of the table, on messages that match one pattern only. *)
Example classification_examples :
  map (fun m => exit_status (exitCode (classify (NodeError m NoCode))))
      ["No booted simulator"; "Command timed out after 30 seconds";
       "EACCES: open"; "permission denied"; "spawn idb ENOENT"; "file not found";
       "something else"]
  = [3; 4; 5; 5; 6; 6; 1].
Proof. vm_compute. reflexivity. Qed.

(** ** Stopping a recording *)

Lemma killProcess_no_match (host : Host) (pattern message : string) (p : Process) :
  execFile host (spawned p) "pkill" ["-SIGINT"; "-f"; pattern] = Failed message (ExitCode 1) ->
  killProcess host pattern p
  = (Returned tt, snd (record_spawn (foreground "pkill" ["-SIGINT"; "-f"; pattern]) p)).
Proof. intros H. unfold killProcess, try_catch, bind, run. now rewrite H. Qed.

Lemma killProcess_matched (host : Host) (pattern : string) (p : Process) raw :
  execFile host (spawned p) "pkill" ["-SIGINT"; "-f"; pattern] = Exited raw ->
  killProcess host pattern p
  = (Returned tt, snd (record_spawn (foreground "pkill" ["-SIGINT"; "-f"; pattern]) p)).
Proof. intros H. unfold killProcess, try_catch, bind, run. now rewrite H. Qed.

Lemma report_stopped_returns (host : Host) (p : Process) :
  fst (report_stopped host p) = Returned tt.
Proof.
  unfold report_stopped.
  rewrite (bind_returned (getenv _) _ p (env p !! "SIM_CLI_RECORDING_PATH") p eq_refl).
  assert (H : forall m : M unit, silent m ->
            fst ((m ;;; unsetenv "SIM_CLI_RECORDING_PATH" ;;;
                  unsetenv "SIM_CLI_RECORDING_PID") p) = Returned tt).
  { intros m Hm. now rewrite bind_silent by assumption. }
  destruct (JS.if_truthy _) as [saved |]; [destruct (fileExists host saved) |];
    apply H; auto with quiet.
Qed.

Lemma report_stopped_ext (host host' : Host) (p : Process) :
  (forall path, fileExists host' path = fileExists host path) ->
  report_stopped host' p = report_stopped host p.
Proof.
  intros H. unfold report_stopped.
  rewrite !(bind_returned (getenv _) _ p (env p !! "SIM_CLI_RECORDING_PATH") p eq_refl).
  destruct (JS.if_truthy _) as [saved |]; [rewrite H |]; reflexivity.
Qed.

Lemma recordStop_after_kill (host : Host) (p q : Process) :
  killProcess host "simctl.*recordVideo"
              (snd (Logger.startSpinner "Stopping video recording..." p)) = (Returned tt, q) ->
  recordStop host p = report_stopped host q.
Proof.
  intros H. unfold recordStop. rewrite bind_silent by auto with quiet.
  unfold try_catch. rewrite (bind_returned _ _ _ _ _ H).
  pose proof (report_stopped_returns host q) as Hr.
  destruct (report_stopped host q) as [[[] | e |] r]; [reflexivity | discriminate Hr | discriminate Hr].
Qed.

(** C4 (the code departs from the claim). When [pkill] matches no process
    (exit status 1), [recordStop] returns without an error, but what it
    prints and leaves behind is exactly what it prints and leaves behind
    on a machine where [pkill] did stop a recording: the two outcomes are
    reported alike, in every output mode. *)
Theorem recordStop_without_recording (host : Host) (p : Process) (message : string) :
  execFile host (spawned p) "pkill" pkill_recording = Failed message (ExitCode 1) ->
  fst (recordStop host p) = Returned tt
  /\ forall host' raw,
       execFile host' (spawned p) "pkill" pkill_recording = Exited raw ->
       (forall path, fileExists host' path = fileExists host path) ->
       recordStop host' p = recordStop host p.
Proof.
  intros Hx.
  destruct (silent_startSpinner "Stopping video recording..." p) as [_ [Hs _]].
  unfold pkill_recording in *. rewrite <- Hs in Hx.
  pose proof (killProcess_no_match host _ _ _ Hx) as Hk.
  split.
  - rewrite (recordStop_after_kill host p _ Hk). apply report_stopped_returns.
  - intros host' raw Hx' Hf. rewrite <- Hs in Hx'.
    pose proof (killProcess_matched host' _ _ _ Hx') as Hk'.
    rewrite (recordStop_after_kill host p _ Hk), (recordStop_after_kill host' p _ Hk').
    now apply report_stopped_ext.
Qed.

Lemma recordStop_without_recording_witness :
  execFile sampleHost (spawned machine) "pkill" pkill_recording
  = Failed "Command failed: pkill -SIGINT -f simctl.*recordVideo" (ExitCode 1)
  /\ fst (recordStop sampleHost machine) = Returned tt
  /\ recordStop recordingHost machine = recordStop sampleHost machine
  /\ recordStop recordingHost human = recordStop sampleHost human.
Proof.
  destruct (recordStop_without_recording sampleHost machine _ eq_refl) as [Ha Hb].
  destruct (recordStop_without_recording sampleHost human _ eq_refl) as [_ Hc].
  split; [reflexivity |]. split; [exact Ha |]. split.
  - apply (Hb recordingHost {| stdout := ""; stderr := "" |}); reflexivity.
  - apply (Hc recordingHost {| stdout := ""; stderr := "" |}); reflexivity.
Defined.

(** What is printed when nothing was recording: the success line in human
    mode, the success object in JSON mode. *)
Example recordStop_without_recording_human :
  console (snd (recordStop sampleHost human))
  = [SpinnerStart "Stopping video recording..."; SpinnerSucceed (Some "Recording stopped")].
Proof. vm_compute. reflexivity. Qed.

Example recordStop_without_recording_json :
  console (snd (recordStop sampleHost machine))
  = [LineJson Log (JObj [("success", JBool true); ("recording", JBool false)])].
Proof. vm_compute. reflexivity. Qed.

(** ** Starting a recording *)

(** With [killed] unset, nothing in the schedule makes the promise reject. *)
Lemma await_start_never_rejects (schedule : list LoopEvent) (st : WaitState) (e : Thrown) :
  await_start false schedule st <> Some (Rejected e).
Proof.
  revert st. induction schedule as [| ev rest IH]; intros st; [discriminate |].
  destruct ev as [data | | |]; simpl.
  - destruct (JS.includes data "Recording started"); apply IH.
  - destruct (intervalActive st && recordingStarted st); [discriminate | apply IH].
  - destruct (timeoutArmed st); [| apply IH].
    destruct (recordingStarted st); simpl; [apply IH | discriminate].
  - apply IH.
Qed.

Lemma await_start_unconfirmed (schedule : list LoopEvent) (st : WaitState) :
  never_confirms schedule ->
  In TimeoutFired schedule ->
  recordingStarted st = false ->
  timeoutArmed st = true ->
  await_start false schedule st = Some Resolved.
Proof.
  revert st. induction schedule as [| ev rest IH]; intros st Hn Hin Hs Ha; [destruct Hin |].
  assert (Hn' : never_confirms rest).
  { intros chunk Hc. apply Hn. now right. }
  destruct ev as [data | | |]; simpl.
  - rewrite (Hn data (or_introl eq_refl)).
    destruct Hin as [Hin | Hin]; [discriminate Hin |]. now apply IH.
  - rewrite Hs, andb_false_r.
    destruct Hin as [Hin | Hin]; [discriminate Hin |]. now apply IH.
  - now rewrite Ha, Hs.
  - destruct Hin as [Hin | Hin]; [discriminate Hin |]. now apply IH.
Qed.

(** C9 (the code departs from the claim). Let the child of [record] never
    confirm on its error stream, and let it exit before the 3 second
    timeout fires. [record] registers no callback for the exit and tests
    [killed], which only this program's own [kill()] sets: the promise
    resolves at the timeout, no error is raised, and the session (output
    path and process identifier) is stored in the environment as if the
    recording had started. *)
Theorem record_survives_child_exit (host : Host) (path : option string)
        (options : RecordOptions) (p p1 : Process) (D : string) (status : Z) :
  getDeviceId host (rec_device options) p = (Returned D, p1) ->
  fileExists host (output_path host path) && negb (default false (rec_force options)) = false ->
  let child := spawn host (spawned p1) "xcrun"
                     (record_args D (output_path host path) options) in
  never_confirms (child_events child) ->
  In (ChildExit status) (child_events child) ->
  In TimeoutFired (child_events child) ->
  fst (record host path options p) = Returned tt
  /\ env (snd (record host path options p)) !! "SIM_CLI_RECORDING_PATH"
     = Some (output_path host path)
  /\ env (snd (record host path options p)) !! "SIM_CLI_RECORDING_PID"
     = Some (JS.String_of_number (child_pid child)).
Proof.
  intros Hd Hf child Hn _ Ht. unfold record.
  rewrite (bind_returned _ _ _ _ _ Hd). cbv zeta. rewrite Hf.
  rewrite bind_silent by auto with quiet.
  destruct (silent_startSpinner "Starting video recording..." p1) as [_ [Hs _]].
  set (q := snd (Logger.startSpinner "Starting video recording..." p1)) in *.
  unfold try_catch.
  rewrite (bind_returned (runBackground host "xcrun" _) _ q _ _ eq_refl).
  cbn [killed events pid]. rewrite Hs. fold child.
  rewrite (await_start_unconfirmed _ wait_init Hn Ht eq_refl eq_refl).
  rewrite (bind_returned (await_promise (Some Resolved)) _ _ tt _ eq_refl).
  rewrite bind_silent by auto with quiet.
  rewrite bind_silent by auto with quiet.
  rewrite (bind_returned (setenv _ _) _ _ tt _ eq_refl).
  rewrite (bind_returned (setenv _ _) _ _ tt _ eq_refl).
  match goal with
  | |- context [when_json ?m ?s] =>
      destruct (silent_when_json m ltac:(auto with quiet) s) as [Hr [_ He]];
      destruct (when_json m s) as [o final]
  end.
  cbn [fst snd] in *. subst o. cbn [fst snd]. rewrite He. cbn [setenv snd env].
  split; [reflexivity |]. split.
  - rewrite lookup_insert_ne by discriminate. apply lookup_insert_eq.
  - apply lookup_insert_eq.
Qed.

Lemma record_survives_child_exit_witness :
  (getDeviceId sampleHost None human = (Returned sampleUdid, human)
   /\ never_confirms (child_events dyingChild)
   /\ In (ChildExit 1) (child_events dyingChild)
   /\ In TimeoutFired (child_events dyingChild))
  /\ fst (record sampleHost (Some "/tmp/demo.mp4") no_record_options human) = Returned tt
  /\ env (snd (record sampleHost (Some "/tmp/demo.mp4") no_record_options human))
       !! "SIM_CLI_RECORDING_PATH" = Some "/tmp/demo.mp4"
  /\ env (snd (record sampleHost (Some "/tmp/demo.mp4") no_record_options human))
       !! "SIM_CLI_RECORDING_PID" = Some "4242".
Proof.
  assert (Hd : getDeviceId sampleHost None human = (Returned sampleUdid, human))
    by (apply getDeviceId_default; reflexivity).
  assert (Hn : never_confirms (child_events dyingChild)).
  { intros chunk [H | [H | [H | [H | [H | [H | []]]]]]]; try discriminate H.
    injection H as <-. reflexivity. }
  assert (Hx : In (ChildExit 1) (child_events dyingChild)) by (simpl; tauto).
  assert (Ht : In TimeoutFired (child_events dyingChild)) by (simpl; tauto).
  split; [repeat split; assumption |].
  exact (record_survives_child_exit sampleHost (Some "/tmp/demo.mp4") no_record_options
           human human sampleUdid 1 Hd eq_refl Hn Hx Ht).
Defined.

(** What the user sees in that case: the success line. *)
Example record_after_child_exit_console :
  console (snd (record sampleHost (Some "/tmp/demo.mp4") no_record_options human))
  = [SpinnerStart "Starting video recording...";
     SpinnerSucceed (Some "Recording started. Video will be saved to: /tmp/demo.mp4");
     Line Log Note ("Run " +:+ JS.quote +:+ "sim-cli record-stop" +:+ JS.quote
                     +:+ " to stop recording")].
Proof. vm_compute. reflexivity. Qed.

(** * Further properties of the command layer *)

(** ** Concatenation and repetition of regular expressions *)

Section RegexSemantics.
Import Regex.

Lemma append_empty_r (s : string) : s +:+ "" = s.
Proof. induction s as [| a s IH]; [reflexivity |]. now rewrite append_cons, IH. Qed.

Lemma length_append (a b : string) :
  String.length (a +:+ b) = (String.length a + String.length b)%nat.
Proof. induction a as [| x a IH]; [reflexivity |]. rewrite append_cons. simpl. now rewrite IH. Qed.

Lemma test_Eps s : test Eps s = true <-> s = "".
Proof.
  destruct s as [| c s]; simpl; [tauto |].
  rewrite test_Void. split; discriminate.
Qed.

Lemma test_Cls p s : test (Cls p) s = true <-> exists c, s = String c "" /\ p c = true.
Proof.
  destruct s as [| c s]; simpl.
  - split; [discriminate | intros [c [H _]]; discriminate H].
  - destruct (p c) eqn:E.
    + rewrite test_Eps. split.
      * intros ->. now exists c.
      * intros [c' [H _]]. now injection H as _ ->.
    + rewrite test_Void. split; [discriminate |].
      intros [c' [H Hp]]. injection H as -> _. congruence.
Qed.

Lemma test_Chr a s : test (Chr a) s = true <-> s = String a "".
Proof.
  unfold Chr. rewrite test_Cls. split.
  - intros [c [-> H]]. apply Ascii.eqb_eq in H. now subst.
  - intros ->. exists a. split; [reflexivity | apply Ascii.eqb_refl].
Qed.

(** A text matches [r1 r2] when it splits into a match of each. *)
Lemma test_Cat r1 r2 s :
  test (Cat r1 r2) s = true
  <-> exists s1 s2, s = s1 +:+ s2 /\ test r1 s1 = true /\ test r2 s2 = true.
Proof.
  revert r1 r2. induction s as [| c s IH]; intros r1 r2.
  - simpl. rewrite andb_true_iff. split.
    + intros [H1 H2]. now exists "", "".
    + intros [s1 [s2 [H [H1 H2]]]].
      destruct s1; [| discriminate H]. destruct s2; [| discriminate H]. now split.
  - simpl. destruct (nullable r1) eqn:N.
    + rewrite test_Alt, orb_true_iff, IH. split.
      * intros [[s1 [s2 [-> [H1 H2]]]] | H].
        -- now exists (String c s1), s2.
        -- exists "", (String c s). now repeat split.
      * intros [s1 [s2 [H [H1 H2]]]]. destruct s1 as [| c1 s1].
        -- right. rewrite append_empty in H. now subst s2.
        -- left. rewrite append_cons in H. injection H as <- ->. now exists s1, s2.
    + rewrite IH. split.
      * intros [s1 [s2 [-> [H1 H2]]]]. now exists (String c s1), s2.
      * intros [s1 [s2 [H [H1 H2]]]]. destruct s1 as [| c1 s1].
        -- simpl in H1. congruence.
        -- rewrite append_cons in H. injection H as <- ->. now exists s1, s2.
Qed.

Lemma test_Rep_Cls p n s :
  test (Rep n (Cls p)) s = true <-> block p n s.
Proof.
  unfold block. revert s. induction n as [| n IH]; intros s.
  - simpl Rep. rewrite test_Eps. split.
    + now intros ->.
    + intros [H _]. now destruct s.
  - destruct s as [| c s]; simpl.
    + split; [discriminate | intros [H _]; discriminate H].
    + destruct (p c); simpl.
      * rewrite test_Cat_Eps, IH. split; intros [H1 H2]; split; congruence.
      * rewrite test_Cat_Void. split; [discriminate | intros [_ H]; discriminate H].
Qed.

End RegexSemantics.

(** ** The identifier, duration and bundle schemas *)

Lemma z_string_data (checks : string -> list Zod.ZodIssue) (s t : string) :
  Zod.z_string checks s = Zod.Success t -> t = s.
Proof. unfold Zod.z_string. destruct (checks s); [now intros [= ->] | discriminate]. Qed.

Lemma z_string_success (checks : string -> list Zod.ZodIssue) (s : string) :
  Zod.success (Zod.z_string checks s) = true -> Zod.z_string checks s = Zod.Success s.
Proof. unfold Zod.z_string. destruct (checks s); [reflexivity | discriminate]. Qed.

Lemma udid_regex_shape (s : string) :
  Regex.test Validator.UDID_REGEX s = true <-> udid_shape s.
Proof.
  unfold Validator.UDID_REGEX, udid_shape. rewrite test_Cat. split.
  - intros [a [r1 [-> [Ha H]]]]. apply test_Cat in H. destruct H as [x1 [r2 [-> [Hx1 H]]]].
    apply test_Cat in H. destruct H as [b [r3 [-> [Hb H]]]].
    apply test_Cat in H. destruct H as [x2 [r4 [-> [Hx2 H]]]].
    apply test_Cat in H. destruct H as [c [r5 [-> [Hc H]]]].
    apply test_Cat in H. destruct H as [x3 [r6 [-> [Hx3 H]]]].
    apply test_Cat in H. destruct H as [d [r7 [-> [Hd H]]]].
    apply test_Cat in H. destruct H as [x4 [e [-> [Hx4 He]]]].
    apply test_Chr in Hx1, Hx2, Hx3, Hx4. subst.
    apply test_Rep_Cls in Ha, Hb, Hc, Hd, He.
    now exists a, b, c, d, e.
  - intros [a [b [c [d [e [-> [Ha [Hb [Hc [Hd He]]]]]]]]]].
    apply test_Rep_Cls in Ha, Hb, Hc, Hd, He.
    exists a, ("-" +:+ b +:+ "-" +:+ c +:+ "-" +:+ d +:+ "-" +:+ e).
    split; [reflexivity |]. split; [exact Ha |].
    apply test_Cat. exists "-", (b +:+ "-" +:+ c +:+ "-" +:+ d +:+ "-" +:+ e).
    split; [reflexivity |]. split; [now apply test_Chr |].
    apply test_Cat. exists b, ("-" +:+ c +:+ "-" +:+ d +:+ "-" +:+ e).
    split; [reflexivity |]. split; [exact Hb |].
    apply test_Cat. exists "-", (c +:+ "-" +:+ d +:+ "-" +:+ e).
    split; [reflexivity |]. split; [now apply test_Chr |].
    apply test_Cat. exists c, ("-" +:+ d +:+ "-" +:+ e).
    split; [reflexivity |]. split; [exact Hc |].
    apply test_Cat. exists "-", (d +:+ "-" +:+ e).
    split; [reflexivity |]. split; [now apply test_Chr |].
    apply test_Cat. exists d, ("-" +:+ e).
    split; [reflexivity |]. split; [exact Hd |].
    apply test_Cat. exists "-", e.
    split; [reflexivity |]. split; [now apply test_Chr | exact He].
Qed.

(** X1. The identifier schema accepts exactly the texts of five blocks of
    hexadecimal digits (8, 4, 4, 4 and 12 of them, either case) joined by
    dashes; what it accepts has 36 characters and is returned unchanged. *)
Theorem udid_schema_accepts_the_shape (s : string) :
  (udid_shape s -> Validator.udidSchema s = Zod.Success s /\ String.length s = 36%nat)
  /\ (~ udid_shape s -> Zod.success (Validator.udidSchema s) = false).
Proof.
  split.
  - intros H. split.
    + apply z_string_success, udid_accepts. now apply udid_regex_shape.
    + destruct H as [a [b [c [d [e [-> [[Ha _] [[Hb _] [[Hc _] [[Hd _] [He _]]]]]]]]]]].
      rewrite !length_append, Ha, Hb, Hc, Hd, He. reflexivity.
  - intros H. apply udid_rejects.
    destruct (Regex.test Validator.UDID_REGEX s) eqn:E; [| reflexivity].
    apply udid_regex_shape in E. contradiction.
Qed.

Lemma udid_schema_accepts_the_shape_witness :
  udid_shape sampleUdid
  /\ Validator.udidSchema sampleUdid = Zod.Success sampleUdid
  /\ String.length sampleUdid = 36%nat.
Proof.
  assert (H : udid_shape sampleUdid).
  { exists "37A360EC", "75F9", "4AEC", "8EFA", "10F4A58D8CCA".
    repeat split. }
  split; [exact H |].
  exact (proj1 (udid_schema_accepts_the_shape sampleUdid) H).
Defined.

Lemma digits_spec (s : string) :
  Regex.test (Regex.Plus (Regex.Cls Regex.digit)) s = true <-> digits s.
Proof.
  rewrite test_Plus_Cls, andb_true_iff, negb_true_iff. unfold digits.
  split; intros [H1 H2]; split; try assumption.
  - now apply String.eqb_neq.
  - now apply String.eqb_neq.
Qed.

Lemma duration_regex_shape (s : string) :
  Regex.test Validator.DURATION_REGEX s = true <-> duration_shape s.
Proof.
  unfold Validator.DURATION_REGEX, duration_shape, Regex.Opt. rewrite test_Cat. split.
  - intros [a [r [-> [Ha H]]]]. apply digits_spec in Ha.
    rewrite test_Alt, orb_true_iff in H. destruct H as [H | H].
    + apply test_Eps in H. subst r. rewrite append_empty_r. now left.
    + apply test_Cat in H. destruct H as [x [b [-> [Hx Hb]]]].
      apply test_Chr in Hx. subst x. apply digits_spec in Hb.
      right. now exists a, b.
  - intros [H | [a [b [-> [Ha Hb]]]]].
    + exists s, "". rewrite append_empty_r. split; [reflexivity |].
      split; [now apply digits_spec | reflexivity].
    + exists a, ("." +:+ b). split; [reflexivity |]. split; [now apply digits_spec |].
      rewrite test_Alt. apply orb_true_iff. right.
      apply test_Cat. exists ".", b. split; [reflexivity |].
      split; [now apply test_Chr | now apply digits_spec].
Qed.

(** X2. The duration schema accepts exactly a non-empty run of decimal
    digits, optionally followed by a dot and another non-empty run of
    digits, and returns the text unchanged; the empty text, a sign, a
    second dot or a dot at either end are refused. *)
Theorem duration_schema_accepts_the_shape (s : string) :
  (duration_shape s -> Validator.durationSchema s = Zod.Success s)
  /\ (~ duration_shape s -> Zod.success (Validator.durationSchema s) = false).
Proof.
  unfold Validator.durationSchema, Zod.z_string, Zod.z_regex.
  pose proof (duration_regex_shape s) as H.
  destruct (Regex.test Validator.DURATION_REGEX s); simpl.
  - split; [reflexivity |]. intros Hn. exfalso. apply Hn, H. reflexivity.
  - split; [| reflexivity]. intros Hs. apply H in Hs. discriminate Hs.
Qed.

Lemma duration_schema_accepts_the_shape_witness :
  (duration_shape "10.25" /\ Validator.durationSchema "10.25" = Zod.Success "10.25")
  /\ (~ duration_shape "" /\ Zod.success (Validator.durationSchema "") = false).
Proof.
  assert (H : duration_shape "10.25").
  { right. exists "10", "25". repeat split; discriminate. }
  assert (N : ~ duration_shape "").
  { intros [[Hn _] | [a [b [Hs [[Ha _] _]]]]]; [now apply Hn |].
    destruct a; [now apply Ha | discriminate Hs]. }
  split; split; try assumption.
  - exact (proj1 (duration_schema_accepts_the_shape "10.25") H).
  - exact (proj2 (duration_schema_accepts_the_shape "") N).
Defined.

Lemma bundle_schema_spec (s : string) :
  Zod.success (Validator.bundleIdSchema s)
  = (String.length s <=? 256)%nat
    && (negb (String.eqb s "") && all_units Validator.bundle_char s).
Proof.
  unfold Validator.bundleIdSchema, Zod.z_string, Zod.z_max, Zod.z_regex, Validator.BUNDLE_REGEX.
  rewrite test_Plus_Cls.
  destruct (String.length s <=? 256)%nat;
    destruct (negb (String.eqb s "") && all_units Validator.bundle_char s); reflexivity.
Qed.

(** X3. The bundle-identifier schema accepts a text, and returns it
    unchanged, exactly when it has between 1 and 256 characters, all of
    them letters, digits, dots or hyphens. *)
Theorem bundle_schema_accepts (s : string) :
  Validator.bundleIdSchema s = Zod.Success s
  <-> s <> "" /\ (String.length s <= 256)%nat /\ all_units Validator.bundle_char s = true.
Proof.
  split.
  - intros H. assert (Hs : Zod.success (Validator.bundleIdSchema s) = true) by now rewrite H.
    rewrite bundle_schema_spec, !andb_true_iff, negb_true_iff in Hs.
    destruct Hs as [Hl [Hn Ha]]. repeat split.
    + now apply String.eqb_neq.
    + now apply Nat.leb_le.
    + exact Ha.
  - intros [Hn [Hl Ha]]. apply z_string_success.
    rewrite bundle_schema_spec, Ha. apply Nat.leb_le in Hl. rewrite Hl.
    apply String.eqb_neq in Hn. now rewrite Hn.
Qed.

Lemma bundle_schema_accepts_witness :
  ("com.company.app-name" <> "" /\ (String.length "com.company.app-name" <= 256)%nat
   /\ all_units Validator.bundle_char "com.company.app-name" = true)
  /\ Validator.bundleIdSchema "com.company.app-name" = Zod.Success "com.company.app-name".
Proof.
  assert (H : "com.company.app-name" <> ""
              /\ (String.length "com.company.app-name" <= 256)%nat
              /\ all_units Validator.bundle_char "com.company.app-name" = true).
  { split; [discriminate |]. split; [vm_compute; lia | reflexivity]. }
  split; [exact H |].
  exact (proj2 (bundle_schema_accepts "com.company.app-name") H).
Defined.

(** ** The executor *)

Lemma run_returns host command args p raw :
  execFile host (spawned p) command args = Exited raw ->
  run host command args None p = (Returned (trimmed raw), started command args p).
Proof. intros H. unfold run. now rewrite H. Qed.

Lemma run_throws host command args p message code :
  execFile host (spawned p) command args = Failed message code ->
  run host command args None p = (Threw (failure_of message code), started command args p).
Proof.
  intros H. unfold run, failure_of. rewrite H.
  destruct code as [| n | name]; try reflexivity.
  destruct (String.eqb name "ETIMEDOUT"); reflexivity.
Qed.

Lemma fst_run_bind {B} host command args (k : ExecutorResult -> M B) p :
  fst (bind (run host command args None) k p)
  = match execFile host (spawned p) command args with
    | Exited raw => fst (k (trimmed raw) (started command args p))
    | Failed message code => Threw (failure_of message code)
    end.
Proof.
  destruct (execFile host (spawned p) command args) as [raw | message code] eqn:E.
  - now rewrite (bind_returned _ _ _ _ _ (run_returns _ _ _ _ _ E)).
  - now rewrite (bind_threw _ _ _ _ _ (run_throws _ _ _ _ _ _ E)).
Qed.

(** X4. [killProcess] starts exactly one process, [pkill -SIGINT -f
    pattern]. It returns normally when [pkill] exits, and when it fails
    with exit status 1 (nothing matched); every other failure is thrown
    on to the caller. *)
Theorem killProcess_outcome (host : Host) (pattern : string) (p : Process) :
  spawned (snd (killProcess host pattern p))
  = spawned p ++ [foreground "pkill" ["-SIGINT"; "-f"; pattern]]
  /\ (fst (killProcess host pattern p) = Returned tt
      <-> (exists raw, execFile host (spawned p) "pkill" ["-SIGINT"; "-f"; pattern] = Exited raw)
          \/ (exists message, execFile host (spawned p) "pkill" ["-SIGINT"; "-f"; pattern]
                              = Failed message (ExitCode 1)))
  /\ (forall message code,
        execFile host (spawned p) "pkill" ["-SIGINT"; "-f"; pattern] = Failed message code ->
        code <> ExitCode 1 ->
        fst (killProcess host pattern p) = Threw (failure_of message code)).
Proof.
  unfold killProcess, try_catch.
  destruct (execFile host (spawned p) "pkill" ["-SIGINT"; "-f"; pattern])
    as [raw | message code] eqn:E.
  - rewrite (bind_returned _ _ _ _ _ (run_returns _ _ _ _ _ E)).
    split; [reflexivity |]. split; [| discriminate].
    split; [intros _; left; now exists raw | reflexivity].
  - rewrite (bind_threw _ _ _ _ _ (run_throws _ _ _ _ _ _ E)).
    destruct code as [| n | name].
    + split; [reflexivity |]. split.
      * split; [discriminate | intros [[raw H] | [m H]]; discriminate H].
      * intros m c [= <- <-] _. reflexivity.
    + cbn [failure_of code_of code_is_1]. destruct (n =? 1) eqn:N.
      * apply Z.eqb_eq in N. subst n. split; [reflexivity |]. split.
        -- split; [intros _; right; now exists message | reflexivity].
        -- intros m c [= <- <-] H. now contradiction H.
      * split; [reflexivity |]. split.
        -- split; [discriminate |]. intros [[raw H] | [m H]]; [discriminate H |].
           injection H as _ ->. discriminate N.
        -- intros m c [= <- <-] _. reflexivity.
    + assert (Hc : code_is_1 (code_of (failure_of message (SysCode name))) = false).
      { unfold failure_of. destruct (String.eqb name "ETIMEDOUT"); reflexivity. }
      rewrite Hc. split; [reflexivity |]. split.
      * split; [discriminate | intros [[raw H] | [m H]]; discriminate H].
      * intros m c [= <- <-] _. reflexivity.
Qed.

Lemma killProcess_outcome_witness :
  execFile bootedHost (spawned bare) "pkill" ["-SIGINT"; "-f"; "simctl.*recordVideo"]
  = Failed "Command failed: pkill" (ExitCode 2)
  /\ fst (killProcess bootedHost "simctl.*recordVideo" bare)
     = Threw (NodeError "Command failed: pkill" (ExitCode 2)).
Proof.
  split; [reflexivity |].
  apply (proj2 (proj2 (killProcess_outcome bootedHost "simctl.*recordVideo" bare))
           "Command failed: pkill" (ExitCode 2)); [reflexivity | discriminate].
Defined.

(** X5. A call of [run] that [execFile] ends with ETIMEDOUT throws an
    error that names the default bound of 30 seconds, and the reporter
    turns that error into exit status 4 (Timeout). *)
Theorem timed_out_run_exits_with_4 (host : Host) (command : string) (args : list string)
        (p : Process) (message : string) :
  execFile host (spawned p) command args = Failed message (SysCode "ETIMEDOUT") ->
  exists e,
    run host command args None p = (Threw e, started command args p)
    /\ message_of e = Some "Command timed out after 30 seconds"
    /\ forall q, fst (handleError e q) = 4.
Proof.
  intros H. exists (NodeError "Command timed out after 30 seconds" NoCode).
  split; [| split; [reflexivity | reflexivity]].
  now rewrite (run_throws _ _ _ _ _ _ H).
Qed.

Lemma timed_out_run_exits_with_4_witness :
  execFile slowHost (spawned human) "idb" ["ui"; "tap"] = Failed "Command failed: xcrun"
                                                                 (SysCode "ETIMEDOUT")
  /\ exists e,
       run slowHost "idb" ["ui"; "tap"] None human = (Threw e, started "idb" ["ui"; "tap"] human)
       /\ message_of e = Some "Command timed out after 30 seconds"
       /\ forall q, fst (handleError e q) = 4.
Proof.
  split; [reflexivity |].
  exact (timed_out_run_exits_with_4 slowHost "idb" ["ui"; "tap"] human _ eq_refl).
Defined.

(** ** Listing and resolving devices *)

Lemma collect_devices_spec (options : ListOptions) (runtime : string) (l : list RawDevice) :
  collect_devices options runtime l
  = map (snapshot runtime)
        (List.filter (fun d => negb (skips_name options d) && negb (skips_state options d)) l).
Proof.
  induction l as [| d l IH]; [reflexivity |]. simpl.
  destruct (skips_name options d); simpl; [exact IH |].
  destruct (skips_state options d); simpl; [exact IH | now rewrite IH].
Qed.

Lemma filter_pairs (options : ListOptions) (runtime : string) (l : list RawDevice) :
  List.filter (fun x => passes options (fst x) (snd x)) (map (pair runtime) l)
  = map (pair runtime) (List.filter (passes options runtime) l).
Proof.
  induction l as [| d l IH]; [reflexivity |]. cbn [map List.filter fst snd].
  destruct (passes options runtime d); cbn [map]; now rewrite IH.
Qed.

Lemma collect_runtimes_spec (options : ListOptions) (devices : list (string * list RawDevice)) :
  collect_runtimes options devices
  = map (fun x => snapshot (fst x) (snd x))
        (List.filter (fun x => passes options (fst x) (snd x)) (flatten devices)).
Proof.
  induction devices as [| [runtime l] rest IH]; [reflexivity |].
  unfold flatten in *. cbn [collect_runtimes flat_map fst snd].
  rewrite List.filter_app, map_app, <- IH, filter_pairs, map_map. cbn [fst snd].
  unfold passes. destruct (skips_runtime options runtime); cbn [negb andb].
  - replace (List.filter (fun _ => false) l) with (@nil RawDevice); [reflexivity |].
    clear. induction l as [| d l IH]; [reflexivity | exact IH].
  - f_equal. apply collect_devices_spec.
Qed.

Lemma listDevices_result (host : Host) (options : ListOptions) (p : Process) raw devices :
  execFile host (spawned p) "xcrun" ["simctl"; "list"; "devices"; "--json"] = Exited raw ->
  JS.trim (stderr raw) = "" ->
  parse_device_list host (JS.trim (stdout raw)) = Some devices ->
  listDevices host options p
  = (Returned (collect_runtimes options devices), snd (record_spawn list_devices p)).
Proof.
  intros Hx He Hp. unfold listDevices.
  rewrite (bind_returned _ _ _ _ _ (run_returns _ _ _ _ _ Hx)).
  cbn [trimmed stderr stdout]. now rewrite He, Hp.
Qed.

(** X6. [listDevices] returns the records of the device list that pass all
    of the given filters at once (runtime contains the iOS version, name
    contains the device type, state is Booted), each with its runtime
    attached, in the order of the document; an absent or empty filter lets
    everything pass. It starts the list query and nothing else. *)
Theorem listDevices_filters (host : Host) (options : ListOptions) (p : Process)
        raw devices :
  execFile host (spawned p) "xcrun" ["simctl"; "list"; "devices"; "--json"] = Exited raw ->
  JS.trim (stderr raw) = "" ->
  parse_device_list host (JS.trim (stdout raw)) = Some devices ->
  listDevices host options p
  = (Returned (map (fun x => snapshot (fst x) (snd x))
                   (List.filter (fun x => passes options (fst x) (snd x)) (flatten devices))),
     snd (record_spawn list_devices p)).
Proof.
  intros Hx He Hp. rewrite (listDevices_result host options p raw devices Hx He Hp).
  now rewrite collect_runtimes_spec.
Qed.

Lemma listDevices_filters_witness :
  (execFile bootedHost (spawned bare) "xcrun" ["simctl"; "list"; "devices"; "--json"]
   = Exited {| stdout := ""; stderr := "" |}
   /\ parse_device_list bootedHost "" = Some twoRuntimes)
  /\ fst (listDevices bootedHost
            {| iosVersion := Some "iOS-17"; deviceType := Some "iPhone"; bootedOnly := None |}
            bare)
     = Returned [snapshot "com.apple.CoreSimulator.SimRuntime.iOS-17-0" shutdownPhone;
                 snapshot "com.apple.CoreSimulator.SimRuntime.iOS-17-0" bootedPhone].
Proof.
  split; [split; reflexivity |].
  rewrite (listDevices_filters bootedHost _ bare {| stdout := ""; stderr := "" |} twoRuntimes
             eq_refl eq_refl eq_refl).
  reflexivity.
Defined.

Lemma first_booted_is_head (runtime : string) (l : list RawDevice) :
  first_booted runtime l = head (collect_devices booted_only runtime l).
Proof.
  induction l as [| d l IH]; [reflexivity |].
  cbn [first_booted collect_devices]. unfold skips_name, skips_state. cbn.
  destruct (String.eqb (raw_state d) "Booted"); [reflexivity | exact IH].
Qed.

Lemma search_runtimes_is_head (devices : list (string * list RawDevice)) :
  search_runtimes devices = head (collect_runtimes booted_only devices).
Proof.
  induction devices as [| [runtime l] rest IH]; [reflexivity |].
  cbn [search_runtimes collect_runtimes]. unfold skips_runtime. cbn.
  rewrite first_booted_is_head, IH.
  now destruct (collect_devices booted_only runtime l).
Qed.

(** X7. On a well-formed device list [getBootedDevice] and [listDevices]
    agree: when the list query exits with an empty error stream and a
    document that parses and maps every runtime to an array of device
    records, the device [getBootedDevice] returns is the first entry of
    [listDevices({bootedOnly: true})] and is in state "Booted", and
    [getBootedDevice] fails with SIMULATOR_NOT_FOUND when that list is
    empty. A document that is malformed behind its first booted record is
    not covered: there [getBootedDevice] stops reading at that record and
    returns it, while [listDevices] reads on and fails. *)
Theorem booted_device_heads_the_booted_list (host : Host) (p : Process) raw devices :
  execFile host (spawned p) "xcrun" ["simctl"; "list"; "devices"; "--json"] = Exited raw ->
  JS.trim (stderr raw) = "" ->
  parse_device_list host (JS.trim (stdout raw)) = Some devices ->
  exists listed,
    fst (listDevices host booted_only p) = Returned listed
    /\ match listed with
       | d :: _ => fst (getBootedDevice host p) = Returned d /\ state d = "Booted"
       | [] => exists message hints,
                 fst (getBootedDevice host p)
                 = Threw (SimulatorError message SIMULATOR_NOT_FOUND hints)
       end.
Proof.
  intros Hx He Hp. exists (collect_runtimes booted_only devices). split.
  - unfold listDevices. rewrite (bind_returned _ _ _ _ _ (run_returns _ _ _ _ _ Hx)).
    cbn [trimmed stderr stdout]. rewrite He, Hp. reflexivity.
  - assert (Hg : fst (getBootedDevice host p)
                 = match search_runtimes devices with
                   | Some d => Returned d
                   | None => Threw (SimulatorError "No simulator is currently booted"
                                      SIMULATOR_NOT_FOUND
                                      (Some ["Open Simulator.app"; "Run: sim-cli open";
                                             "Specify a device with --device <udid>"]))
                   end).
    { unfold getBootedDevice. rewrite (bind_returned _ _ _ _ _ (run_returns _ _ _ _ _ Hx)).
      cbn [trimmed stderr stdout]. rewrite He, Hp.
      change (JS.truthy "") with false. cbv iota.
      now destruct (search_runtimes devices). }
    rewrite Hg, search_runtimes_is_head.
    pose proof (collect_runtimes_spec booted_only devices) as Hs.
    destruct (collect_runtimes booted_only devices) as [| d rest]; cbn [head].
    + eauto.
    + split; [reflexivity |].
      assert (Hin : In d (map (fun x => snapshot (fst x) (snd x))
                             (List.filter (fun x => passes booted_only (fst x) (snd x))
                                          (flatten devices))))
        by (rewrite <- Hs; now left).
      apply in_map_iff in Hin. destruct Hin as [[rt dev] [<- Hin]].
      apply List.filter_In in Hin. destruct Hin as [_ Hpass].
      unfold passes, skips_runtime, skips_name, skips_state in Hpass. cbn in Hpass.
      cbn [state snapshot].
      destruct (String.eqb (raw_state dev) "Booted") eqn:Hb;
        [now apply String.eqb_eq in Hb | discriminate Hpass].
Qed.

Lemma booted_device_heads_the_booted_list_witness :
  (execFile bootedHost (spawned bare) "xcrun" ["simctl"; "list"; "devices"; "--json"]
   = Exited {| stdout := ""; stderr := "" |}
   /\ parse_device_list bootedHost "" = Some twoRuntimes)
  /\ exists listed,
       fst (listDevices bootedHost booted_only bare) = Returned listed
       /\ match listed with
          | d :: _ => fst (getBootedDevice bootedHost bare) = Returned d /\ state d = "Booted"
          | [] => exists message hints,
                    fst (getBootedDevice bootedHost bare)
                    = Threw (SimulatorError message SIMULATOR_NOT_FOUND hints)
          end.
Proof.
  split; [split; reflexivity |].
  exact (booted_device_heads_the_booted_list bootedHost bare
           {| stdout := ""; stderr := "" |} twoRuntimes eq_refl eq_refl eq_refl).
Defined.

Lemma getBootedDevice_state (host : Host) (p : Process) :
  snd (getBootedDevice host p) = snd (record_spawn list_devices p).
Proof.
  unfold getBootedDevice.
  destruct (execFile host (spawned p) "xcrun" ["simctl"; "list"; "devices"; "--json"])
    as [raw | message code] eqn:E.
  - rewrite (bind_returned _ _ _ _ _ (run_returns _ _ _ _ _ E)).
    destruct (JS.truthy (stderr (trimmed raw))); [reflexivity |].
    destruct (parse_device_list host (stdout (trimmed raw))) as [devices |];
      [| reflexivity].
    now destruct (search_runtimes devices).
  - now rewrite (bind_threw _ _ _ _ _ (run_throws _ _ _ _ _ _ E)).
Qed.

(** X8. Resolving a device never writes to the console or to the
    environment: the process state after [getDeviceId] is the state before
    it, or that state with the one list query added. *)
Theorem getDeviceId_effects (host : Host) (provided : option string) (p : Process) :
  snd (getDeviceId host provided p) = p
  \/ snd (getDeviceId host provided p) = snd (record_spawn list_devices p).
Proof.
  unfold getDeviceId.
  destruct (JS.if_truthy provided) as [id |].
  - left. now destruct (Zod.success (Validator.udidSchema id)).
  - rewrite (bind_returned (getenv _) _ p (env p !! "SIM_CLI_DEVICE") p eq_refl).
    destruct (JS.if_truthy (env p !! "SIM_CLI_DEVICE")) as [id |].
    + left. now destruct (Zod.success (Validator.udidSchema id)).
    + right. rewrite <- (getBootedDevice_state host p). unfold bind.
      now destruct (getBootedDevice host p) as [[d | e |] q].
Qed.

(** ** The report of an error *)

Lemma for_each_emit {A} (f : A -> ConsoleEvent) (l : list A) (p : Process) :
  for_each (fun x => emit (f x)) l p
  = (Returned tt,
     {| env := env p; spawned := spawned p; console := console p ++ map f l;
        log_level := log_level p; spinner := spinner p |}).
Proof.
  revert p. induction l as [| x l IH]; intros p.
  - cbn [for_each map]. rewrite app_nil_r. now destruct p.
  - cbn [for_each map]. unfold bind, emit at 1. rewrite IH. cbn [env spawned console log_level spinner].
    now rewrite <- app_assoc.
Qed.

Lemma errors_are_logged (p : Process) :
  Logger.format_json p = false -> Logger.shouldLog ERROR p = true.
Proof.
  intros H. unfold Logger.shouldLog. rewrite H. now destruct (log_level p).
Qed.

(** X9. What [handleError] prints. In JSON mode it writes one JSON object
    to the error stream, whose [code] is the exit status, and nothing
    else. Otherwise it shows the message, through the running spinner or
    on the error stream, whatever the log level (also under
    SIM_CLI_QUIET); then the suggestions, one line each under a heading,
    when there are any; then the pointer to the help. *)
Theorem handleError_report (e : Thrown) (p : Process) :
  (Logger.format_json p = true ->
   console (snd (handleError e p))
   = console p ++ [LineJson Err
                     (JObj [("error", JBool true);
                            ("message", JStr (message (classify e)));
                            ("code", JNum (fst (handleError e p)));
                            ("suggestions", JArr (map JStr (suggestions (classify e))))])])
  /\ (Logger.format_json p = false ->
      console (snd (handleError e p))
      = console p
        ++ [match spinner p with
            | Some _ => SpinnerFail (Some (message (classify e)))
            | None => Line Err Cross (message (classify e))
            end]
        ++ match suggestions (classify e) with
           | [] => []
           | s :: rest =>
               Line Err Plain "Try one of the following:" :: map bulleted (s :: rest)
           end
        ++ [Line Err Plain "For more help, run: sim-cli --help"]).
Proof.
  unfold handleError. cbn [fst snd]. set (r := classify e). split; intros Hf.
  - unfold report. rewrite Hf. reflexivity.
  - unfold report. rewrite Hf.
    assert (He : exists q, Logger.error (message r) p = (Returned tt, q)
                           /\ console q = console p
                                ++ [match spinner p with
                                    | Some _ => SpinnerFail (Some (message r))
                                    | None => Line Err Cross (message r)
                                    end]).
    { unfold Logger.error. destruct (spinner p).
      - eexists. split; reflexivity.
      - rewrite (errors_are_logged p Hf). eexists. split; reflexivity. }
    destruct He as [q [He Hq]]. rewrite (bind_returned _ _ _ _ _ He).
    change (fun s : string => emit (Line Err Plain (if JS.startsWith s bullet then s
                                                    else bullet +:+ " " +:+ s)))
      with (fun s : string => emit (bulleted s)).
    destruct (suggestions r) as [| s rest].
    + change (0 <? Z.of_nat (List.length (@nil string))) with false. unfold when.
      rewrite (bind_returned (ret tt) _ q tt q eq_refl).
      unfold emit. cbn [snd console]. now rewrite Hq, <- app_assoc.
    + change (0 <? Z.of_nat (List.length (s :: rest))) with true.
      unfold when. unfold bind at 1. unfold bind at 1. unfold emit at 1.
      rewrite for_each_emit. cbn [console emit snd]. rewrite Hq.
      now rewrite <- !app_assoc.
Qed.

Lemma handleError_report_witness :
  (Logger.format_json machine = true
   /\ console (snd (handleError (NodeError "Command timed out after 30 seconds" NoCode) machine))
      = [LineJson Err
           (JObj [("error", JBool true);
                  ("message", JStr "Command timed out after 30 seconds");
                  ("code", JNum 4);
                  ("suggestions", JArr [JStr "Increase timeout with --timeout flag";
                                        JStr "Check if simulator is responsive"])])])
  /\ (Logger.format_json human = false
      /\ console (snd (handleError (NodeError "Command timed out after 30 seconds" NoCode) human))
         = [Line Err Cross "Command timed out after 30 seconds";
            Line Err Plain "Try one of the following:";
            bulleted "Increase timeout with --timeout flag";
            bulleted "Check if simulator is responsive";
            Line Err Plain "For more help, run: sim-cli --help"]).
Proof.
  split; (split; [reflexivity |]).
  - exact (proj1 (handleError_report (NodeError "Command timed out after 30 seconds" NoCode)
                    machine) eq_refl).
  - exact (proj2 (handleError_report (NodeError "Command timed out after 30 seconds" NoCode)
                    human) eq_refl).
Defined.

(** ** Text entry, swipes and taps *)

Lemma spawned_after_spinner (msg : string) (p : Process) :
  spawned (snd (Logger.startSpinner msg p)) = spawned p.
Proof. apply (silent_startSpinner msg p). Qed.

Lemma schema_failure (checks : string -> list Zod.ZodIssue) (s : string) :
  Zod.success (Zod.z_string checks s) = false ->
  exists issues, Zod.z_string checks s = Zod.Failure issues.
Proof. unfold Zod.z_string. destruct (checks s); [discriminate | eauto]. Qed.

(** X10. [type] validates before it does anything else: an empty text, a
    text with a character outside 0x20-0x7E or one of more than 500
    characters is refused with the process state untouched. A text that
    passes reaches the UI bridge unchanged, as the single argument behind
    the separator: ui text --udid D -- text. *)
Theorem type_text_vector (host : Host) (text : string) (device : option string)
        (p : Process) :
  (text <> "" -> all_units printable text = true -> (String.length text <= 500)%nat ->
   forall D p1,
     getDeviceId host device p = (Returned D, p1) ->
     spawned (snd (type_text host text device p))
     = spawned p1 ++ [foreground "idb" ["ui"; "text"; "--udid"; D; "--"; text]])
  /\ (text = "" \/ all_units printable text = false \/ (500 < String.length text)%nat ->
      exists issues, type_text host text device p = (Threw (ZodError issues), p)).
Proof.
  split.
  - intros Hne Hall Hlen D p1 Hd.
    assert (Hs : Validator.textInputSchema text = Zod.Success text).
    { apply z_string_success. fold Validator.textInputSchema.
      rewrite text_schema_spec, Hall.
      apply Nat.leb_le in Hlen. rewrite Hlen.
      apply String.eqb_neq in Hne. now rewrite Hne. }
    unfold type_text. rewrite (parse_success _ _ _ _ Hs), (bind_returned _ _ _ _ _ Hd).
    apply appends_handler.
    apply appends_bind_keeps; [apply appends_run | intros r; auto 8 with quiet].
  - intros H.
    assert (Hs : Zod.success (Validator.textInputSchema text) = false).
    { rewrite text_schema_spec. destruct H as [-> | [Hall | Hlen]].
      - reflexivity.
      - rewrite Hall. now rewrite !andb_false_r.
      - apply Nat.leb_gt in Hlen. now rewrite Hlen. }
    destruct (schema_failure _ _ Hs) as [issues Hi].
    exists issues. unfold type_text. now apply parse_failure.
Qed.

Lemma type_text_vector_witness :
  (getDeviceId sampleHost None human = (Returned sampleUdid, human)
   /\ spawned (snd (type_text sampleHost "user@example.com" None human))
      = [foreground "idb" ["ui"; "text"; "--udid"; sampleUdid; "--"; "user@example.com"]])
  /\ exists issues, type_text sampleHost "" None human = (Threw (ZodError issues), human).
Proof.
  assert (Hd : getDeviceId sampleHost None human = (Returned sampleUdid, human))
    by (apply getDeviceId_default; reflexivity).
  split; [split; [exact Hd |] |].
  - assert (H1 : "user@example.com" <> "") by discriminate.
    assert (H3 : (String.length "user@example.com" <= 500)%nat) by (vm_compute; lia).
    exact (proj1 (type_text_vector sampleHost "user@example.com" None human)
             H1 eq_refl H3 sampleUdid human Hd).
  - apply (proj2 (type_text_vector sampleHost "" None human)). now left.
Defined.

Lemma duration_shape_nonempty (d : string) : duration_shape d -> d <> "".
Proof.
  intros [[H _] | [a [b [-> [[Ha _] _]]]]]; [exact H |].
  destruct a; [now contradiction Ha | discriminate].
Qed.

Lemma duration_accepts (d : string) :
  duration_shape d -> Validator.durationSchema d = Zod.Success d.
Proof.
  intros H. apply duration_regex_shape in H.
  unfold Validator.durationSchema, Zod.z_string, Zod.z_regex. now rewrite H.
Qed.

Lemma duration_rejects (d : string) :
  ~ duration_shape d -> exists issues, Validator.durationSchema d = Zod.Failure issues.
Proof.
  intros H. apply schema_failure. unfold Zod.z_string, Zod.z_regex.
  destruct (Regex.test Validator.DURATION_REGEX d) eqn:E; [| reflexivity].
  apply duration_regex_shape in E. contradiction.
Qed.

(** X11. With a well-formed duration and whole-number coordinates that a
    double holds exactly (below 2^53 in size), [swipe] starts the UI bridge
    with ui swipe --udid D --json --duration d [--delta n] -- x1 y1 x2 y2.
    The step size is passed on as the caller gave it: the text the command
    line hands over stands in the vector unchanged whenever it is not
    empty, the text 0 included; a number is written in decimal; only the
    number 0 and the empty text are dropped, like an absent option. *)
Theorem swipe_vector (host : Host) (x1 y1 x2 y2 : Z) (d : string)
        (delta : option Delta) (device : option string) (p p1 : Process) (D : string) :
  duration_shape d ->
  safe_integer x1 -> safe_integer y1 -> safe_integer x2 -> safe_integer y2 ->
  safe_delta delta ->
  getDeviceId host device p = (Returned D, p1) ->
  spawned (snd (swipe host x1 y1 x2 y2
                  {| swipe_duration := Some d; swipe_delta := delta;
                     swipe_device := device |} p))
  = spawned p1
    ++ [foreground "idb"
          (["ui"; "swipe"; "--udid"; D; "--json"; "--duration"; d]
             ++ match delta with
                | Some (DeltaText text) =>
                    if String.eqb text "" then [] else ["--delta"; text]
                | Some (DeltaNumber n) =>
                    if n =? 0 then [] else ["--delta"; JS.String_of_number n]
                | None => []
                end
             ++ ["--"; JS.String_of_number x1; JS.String_of_number y1;
                 JS.String_of_number x2; JS.String_of_number y2])].
Proof.
  intros Hs _ _ _ _ _ Hd.
  pose proof (nonempty_is_truthy d (duration_shape_nonempty d Hs)) as Ht.
  pose proof (duration_accepts d Hs) as Ha.
  unfold swipe; cbn [swipe_device]. rewrite (bind_returned _ _ _ _ _ Hd).
  apply appends_handler. intros q.
  assert (Hargs : swipe_args D x1 y1 x2 y2
                    {| swipe_duration := Some d; swipe_delta := delta;
                       swipe_device := device |} q
                  = (Returned
                       (["ui"; "swipe"; "--udid"; D; "--json"; "--duration"; d]
                          ++ match delta with
                             | Some (DeltaText text) =>
                                 if String.eqb text "" then [] else ["--delta"; text]
                             | Some (DeltaNumber n) =>
                                 if n =? 0 then [] else ["--delta"; JS.String_of_number n]
                             | None => []
                             end
                          ++ ["--"; JS.String_of_number x1; JS.String_of_number y1;
                              JS.String_of_number x2; JS.String_of_number y2]), q)).
  { unfold swipe_args. cbn [swipe_duration swipe_delta]. rewrite Ht.
    unfold bind, parse. rewrite Ha. unfold ret.
    destruct delta as [[n | text] |]; cbn [delta_truthy String_of_delta].
    - now destruct (n =? 0).
    - unfold JS.truthy. now destruct (String.eqb text "").
    - reflexivity. }
  rewrite (bind_returned _ _ _ _ _ Hargs). clear Hargs. revert q.
  apply appends_bind_keeps; [apply appends_run | intros r; auto 8 with quiet].
Qed.

Lemma swipe_vector_witness :
  (duration_shape "0.5" /\ safe_integer 100 /\ safe_integer 500 /\ safe_integer 200
   /\ getDeviceId sampleHost None human = (Returned sampleUdid, human))
  /\ spawned (snd (swipe sampleHost 100 500 100 200
                     {| swipe_duration := Some "0.5"; swipe_delta := Some (DeltaText "0");
                        swipe_device := None |} human))
     = [foreground "idb"
          ["ui"; "swipe"; "--udid"; sampleUdid; "--json"; "--duration"; "0.5";
           "--delta"; "0"; "--"; "100"; "500"; "100"; "200"]]
  /\ spawned (snd (swipe sampleHost 100 500 100 200
                     {| swipe_duration := Some "0.5"; swipe_delta := Some (DeltaNumber 0);
                        swipe_device := None |} human))
     = [foreground "idb"
          ["ui"; "swipe"; "--udid"; sampleUdid; "--json"; "--duration"; "0.5";
           "--"; "100"; "500"; "100"; "200"]].
Proof.
  assert (Hs : duration_shape "0.5").
  { right. exists "0", "5". repeat split; discriminate. }
  assert (Hd : getDeviceId sampleHost None human = (Returned sampleUdid, human))
    by (apply getDeviceId_default; reflexivity).
  assert (H100 : safe_integer 100) by (unfold safe_integer; lia).
  assert (H500 : safe_integer 500) by (unfold safe_integer; lia).
  assert (H200 : safe_integer 200) by (unfold safe_integer; lia).
  split; [tauto |]. split.
  - exact (swipe_vector sampleHost 100 500 100 200 "0.5" (Some (DeltaText "0")) None
             human human sampleUdid Hs H100 H500 H100 H200 I Hd).
  - assert (H0 : safe_delta (Some (DeltaNumber 0))) by (unfold safe_delta, safe_integer; lia).
    exact (swipe_vector sampleHost 100 500 100 200 "0.5" (Some (DeltaNumber 0)) None
             human human sampleUdid Hs H100 H500 H100 H200 H0 Hd).
Defined.

(** X12. A duration that the schema refuses stops [tap] after the device
    was resolved and before the UI bridge is started: the call throws the
    validation error and starts no process of its own. *)
Theorem tap_invalid_duration (host : Host) (x y : Z) (d : string) (device : option string)
        (p p1 : Process) (D : string) :
  d <> "" ->
  ~ duration_shape d ->
  getDeviceId host device p = (Returned D, p1) ->
  (exists issues,
     fst (tap host x y {| tap_duration := Some d; tap_device := device |} p)
     = Threw (ZodError issues))
  /\ spawned (snd (tap host x y {| tap_duration := Some d; tap_device := device |} p))
     = spawned p1.
Proof.
  intros Hne Hs Hd. destruct (duration_rejects d Hs) as [issues Hi].
  assert (Hargs : forall q,
            tap_args D x y {| tap_duration := Some d; tap_device := device |} q
            = (Threw (ZodError issues), q)).
  { intros q. unfold tap_args. cbn [tap_duration].
    rewrite (nonempty_is_truthy d Hne). unfold bind, parse. now rewrite Hi. }
  unfold tap. cbn [tap_device]. rewrite (bind_returned _ _ _ _ _ Hd). split.
  - exists issues. rewrite fst_handler. now rewrite (bind_threw _ _ _ _ _ (Hargs _)).
  - rewrite <- (app_nil_r (spawned p1)). apply appends_handler.
    intros q. now rewrite (bind_threw _ _ _ _ _ (Hargs q)), app_nil_r.
Qed.

Lemma tap_invalid_duration_witness :
  ("-1" <> "" /\ ~ duration_shape "-1"
   /\ getDeviceId sampleHost None human = (Returned sampleUdid, human))
  /\ (exists issues,
        fst (tap sampleHost 10 20 {| tap_duration := Some "-1"; tap_device := None |} human)
        = Threw (ZodError issues))
  /\ spawned (snd (tap sampleHost 10 20
                     {| tap_duration := Some "-1"; tap_device := None |} human))
     = spawned human.
Proof.
  assert (Hne : "-1" <> "") by discriminate.
  assert (Hs : ~ duration_shape "-1").
  { intros H. apply duration_regex_shape in H. discriminate H. }
  assert (Hd : getDeviceId sampleHost None human = (Returned sampleUdid, human))
    by (apply getDeviceId_default; reflexivity).
  split; [repeat split; assumption |].
  exact (tap_invalid_duration sampleHost 10 20 "-1" None human human sampleUdid Hne Hs Hd).
Defined.



(** ** Every accepted button *)

Lemma fst_run_then_silent (host : Host) (command : string) (args : list string)
      (k1 k2 : M unit) (q : Process) :
  silent k1 -> silent k2 ->
  fst (((run host command args None ;;; k1) ;;; k2) q)
  = match execFile host (spawned q) command args with
    | Exited _ => Returned tt
    | Failed message code => Threw (failure_of message code)
    end.
Proof.
  intros H1 H2. unfold bind at 1.
  destruct (execFile host (spawned q) command args) as [raw | message code] eqn:E.
  - rewrite (bind_returned _ _ _ _ _ (run_returns _ _ _ _ _ E)).
    destruct (H1 (started command args q)) as [Hr _].
    destruct (k1 (started command args q)) as [o q']. cbn [fst] in Hr. subst o.
    now apply fst_silent.
  - now rewrite (bind_threw _ _ _ _ _ (run_throws _ _ _ _ _ _ E)).
Qed.

Lemma press_single_outcome (host : Host) (button canonical : string) (args : list string)
      (device : option string) (p p1 : Process) (D : string) :
  Validator.hardwareButtonSchema (JS.toLowerCase button) = Zod.Success canonical ->
  JS.includes canonical "+" = false ->
  assoc canonical (buttonMap D) = Some args ->
  getDeviceId host device p = (Returned D, p1) ->
  fst (press host button device p)
  = match execFile host (spawned p1) "idb" args with
    | Exited _ => Returned tt
    | Failed message code => Threw (failure_of message code)
    end.
Proof.
  intros Hv Hplus Hmap Hd. unfold press.
  rewrite (parse_success _ _ _ _ Hv), (bind_returned _ _ _ _ _ Hd).
  rewrite fst_handler, Hplus, Hmap.
  rewrite fst_run_then_silent by auto with quiet.
  now rewrite spawned_after_spinner.
Qed.

Lemma press_compound_outcome (host : Host) (button canonical : string)
      (device : option string) (p p1 : Process) (D : string) :
  Validator.hardwareButtonSchema (JS.toLowerCase button) = Zod.Success canonical ->
  JS.includes canonical "+" = true ->
  JS.arr_includes (JS.split "+" canonical) "home"
  && JS.arr_includes (JS.split "+" canonical) "lock" = true ->
  getDeviceId host device p = (Returned D, p1) ->
  fst (press host button device p)
  = match execFile host (spawned p1) "xcrun"
                   ["simctl"; "io"; D; "screenshot"; "--type=png"] with
    | Exited _ => Returned tt
    | Failed message code => Threw (failure_of message code)
    end.
Proof.
  intros Hv Hplus Hboth Hd. unfold press.
  rewrite (parse_success _ _ _ _ Hv), (bind_returned _ _ _ _ _ Hd).
  rewrite fst_handler, Hplus. cbv zeta. rewrite Hboth.
  rewrite fst_run_then_silent by auto with quiet.
  now rewrite spawned_after_spinner.
Qed.

Lemma hardware_button_cases (s : string) :
  JS.arr_includes Validator.hardwareButtons s = true ->
  s = "home" \/ s = "lock" \/ s = "volume-up" \/ s = "volume-down" \/ s = "ringer"
  \/ s = "power" \/ s = "home+lock".
Proof.
  unfold JS.arr_includes, Validator.hardwareButtons. cbn [existsb].
  rewrite !orb_true_iff, !String.eqb_eq. intuition congruence.
Qed.

(** X14. For every button name the schema accepts, in any letter case,
    [press] starts exactly one process once the device is resolved, and
    it fails only if that process fails: the two "Unsupported button"
    errors of [press] cannot occur. *)
Theorem press_starts_one_process (host : Host) (button : string) (device : option string)
        (p p1 : Process) (D : string) :
  JS.arr_includes Validator.hardwareButtons (JS.toLowerCase button) = true ->
  getDeviceId host device p = (Returned D, p1) ->
  exists command args,
    spawned (snd (press host button device p)) = spawned p1 ++ [foreground command args]
    /\ fst (press host button device p)
       = match execFile host (spawned p1) command args with
         | Exited _ => Returned tt
         | Failed message code => Threw (failure_of message code)
         end.
Proof.
  intros Hin Hd.
  destruct (hardware_button_cases _ Hin) as [H | [H | [H | [H | [H | [H | H]]]]]].
  7: { assert (Hv : Validator.hardwareButtonSchema (JS.toLowerCase button)
                    = Zod.Success "home+lock") by now rewrite H.
       exists "xcrun", ["simctl"; "io"; D; "screenshot"; "--type=png"]. split.
       - now apply (press_compound host button "home+lock" device p p1 D).
       - now apply (press_compound_outcome host button "home+lock" device p p1 D). }
  all: match type of H with
       | _ = ?name =>
           assert (Hv : Validator.hardwareButtonSchema (JS.toLowerCase button)
                        = Zod.Success name) by now rewrite H
       end;
    eexists "idb", _; split;
    [ eapply (press_single host button _ _ device p p1 D); [exact Hv | | | exact Hd]
    | eapply (press_single_outcome host button _ _ device p p1 D); [exact Hv | | | exact Hd] ];
    reflexivity.
Qed.

Lemma press_starts_one_process_witness :
  (JS.arr_includes Validator.hardwareButtons (JS.toLowerCase "Volume-UP") = true
   /\ getDeviceId sampleHost None human = (Returned sampleUdid, human))
  /\ exists command args,
       spawned (snd (press sampleHost "Volume-UP" None human))
       = spawned human ++ [foreground command args]
       /\ fst (press sampleHost "Volume-UP" None human)
          = match execFile sampleHost (spawned human) command args with
            | Exited _ => Returned tt
            | Failed message code => Threw (failure_of message code)
            end.
Proof.
  assert (Hd : getDeviceId sampleHost None human = (Returned sampleUdid, human))
    by (apply getDeviceId_default; reflexivity).
  split; [split; [reflexivity | exact Hd] |].
  exact (press_starts_one_process sampleHost "Volume-UP" None human human sampleUdid
           eq_refl Hd).
Defined.

(** ** Installing, launching and removing apps *)

Lemma spawned_handler_quiet {A} msg (body : M A) (p : Process) :
  keeps_spawned body ->
  spawned (snd ((Logger.startSpinner msg ;;; try_catch body stop_and_rethrow) p)) = spawned p.
Proof.
  intros H. transitivity (spawned p ++ []); [| apply app_nil_r].
  apply appends_handler. intros q. now rewrite app_nil_r.
Qed.

(** X15. [install] refuses, without starting the install process, a path
    that does not exist (FILE_NOT_FOUND, with two hints) and an existing
    path whose extension, compared without regard to case, is neither
    .app nor .ipa (INVALID_ARGUMENTS). *)
Theorem install_refuses (host : Host) (appPath : string) (device : option string)
        (p p1 : Process) (D : string) :
  getDeviceId host device p = (Returned D, p1) ->
  (fileExists host (absolute_path host appPath) = false ->
   fst (install host appPath device p)
   = Threw (SimulatorError ("App bundle not found: " +:+ absolute_path host appPath)
              FILE_NOT_FOUND
              (Some ["Check the file path is correct"; "Ensure the .app or .ipa file exists"]))
   /\ spawned (snd (install host appPath device p)) = spawned p1)
  /\ (fileExists host (absolute_path host appPath) = true ->
      JS.toLowerCase (path_extname host (absolute_path host appPath)) <> ".app" ->
      JS.toLowerCase (path_extname host (absolute_path host appPath)) <> ".ipa" ->
      fst (install host appPath device p)
      = Threw (SimulatorError "Invalid app bundle: must be .app directory or .ipa file"
                 INVALID_ARGUMENTS None)
      /\ spawned (snd (install host appPath device p)) = spawned p1).
Proof.
  intros Hd. unfold install. rewrite (bind_returned _ _ _ _ _ Hd). cbv zeta. split.
  - intros He. rewrite He. cbv iota beta delta [negb]. split.
    + now rewrite fst_handler.
    + apply spawned_handler_quiet. auto with quiet.
  - intros He Happ Hipa. rewrite He. cbv iota beta delta [negb].
    assert (Hc : forall q,
              check_bundle host (absolute_path host appPath) q
              = (Threw (SimulatorError
                          "Invalid app bundle: must be .app directory or .ipa file"
                          INVALID_ARGUMENTS None), q)).
    { intros q. unfold check_bundle.
      apply String.eqb_neq in Happ, Hipa. now rewrite Happ, Hipa. }
    split.
    + rewrite fst_handler. now rewrite (bind_threw _ _ _ _ _ (Hc _)).
    + apply spawned_handler_quiet. intros q. now rewrite (bind_threw _ _ _ _ _ (Hc q)).
Qed.

Lemma install_refuses_witness :
  (getDeviceId sampleHost None human = (Returned sampleUdid, human)
   /\ fileExists sampleHost (absolute_path sampleHost "/nonexistent/MyApp.app") = false)
  /\ fst (install sampleHost "/nonexistent/MyApp.app" None human)
     = Threw (SimulatorError "App bundle not found: /nonexistent/MyApp.app" FILE_NOT_FOUND
                (Some ["Check the file path is correct";
                       "Ensure the .app or .ipa file exists"]))
  /\ spawned (snd (install sampleHost "/nonexistent/MyApp.app" None human)) = spawned human.
Proof.
  assert (Hd : getDeviceId sampleHost None human = (Returned sampleUdid, human))
    by (apply getDeviceId_default; reflexivity).
  split; [split; [exact Hd | reflexivity] |].
  exact (proj1 (install_refuses sampleHost "/nonexistent/MyApp.app" None human human
                  sampleUdid Hd) eq_refl).
Defined.

(** X16. Once the checks are passed, the answer of [simctl install]
    decides: [install] succeeds when the trimmed error stream is empty or
    contains "successfully", and fails with a general error quoting it
    otherwise. *)
Theorem install_outcome_by_stderr (host : Host) (appPath : string) (device : option string)
        (p p1 : Process) (D : string) (raw : ExecutorResult) :
  getDeviceId host device p = (Returned D, p1) ->
  fileExists host (absolute_path host appPath) = true ->
  check_bundle host (absolute_path host appPath) = ret tt ->
  execFile host (spawned p1) "xcrun" ["simctl"; "install"; D; absolute_path host appPath]
  = Exited raw ->
  fst (install host appPath device p)
  = if JS.truthy (JS.trim (stderr raw))
       && negb (JS.includes (JS.trim (stderr raw)) "successfully")
    then Threw (SimulatorError ("Installation failed: " +:+ JS.trim (stderr raw))
                  GENERAL_ERROR None)
    else Returned tt.
Proof.
  intros Hd He Hc Hx. unfold install. rewrite (bind_returned _ _ _ _ _ Hd). cbv zeta.
  rewrite fst_handler, He, Hc. cbv iota beta delta [negb].
  rewrite (bind_returned (ret tt) _ _ tt _ eq_refl).
  unfold install_args. rewrite fst_run_bind, spawned_after_spinner, Hx.
  cbn [stderr trimmed].
  destruct (JS.truthy (JS.trim (stderr raw)) && _); [reflexivity |].
  apply fst_silent. auto with quiet.
Qed.

Lemma install_outcome_by_stderr_witness :
  (getDeviceId sampleHost None human = (Returned sampleUdid, human)
   /\ fileExists sampleHost (absolute_path sampleHost "/path/to/MyApp.app") = true
   /\ execFile sampleHost (spawned human) "xcrun"
               ["simctl"; "install"; sampleUdid; "/path/to/MyApp.app"]
      = Exited {| stdout := ""; stderr := "" |})
  /\ fst (install sampleHost "/path/to/MyApp.app" None human) = Returned tt.
Proof.
  assert (Hd : getDeviceId sampleHost None human = (Returned sampleUdid, human))
    by (apply getDeviceId_default; reflexivity).
  split; [split; [exact Hd | split; reflexivity] |].
  exact (install_outcome_by_stderr sampleHost "/path/to/MyApp.app" None human human
           sampleUdid {| stdout := ""; stderr := "" |} Hd eq_refl eq_refl eq_refl).
Defined.

Lemma leading_digits_split (s : string) :
  all_units Regex.digit (leading_digits s) = true
  /\ exists rest, s = leading_digits s +:+ rest
                  /\ match rest with
                     | EmptyString => True
                     | String a _ => Regex.digit a = false
                     end.
Proof.
  induction s as [| a s [IH1 [rest [IH2 IH3]]]].
  - split; [reflexivity |]. now exists "".
  - cbn [leading_digits]. destruct (Regex.digit a) eqn:E.
    + split; [cbn [all_units]; now rewrite E |].
      exists rest. split; [| exact IH3]. rewrite append_cons. now f_equal.
    + split; [reflexivity |]. now exists (String a s).
Qed.

Lemma success_state (text : string) (q : Process) :
  Logger.success text q
  = (Returned tt,
     {| env := env q; spawned := spawned q;
        console := console q
                   ++ match spinner q with
                      | Some _ => [SpinnerSucceed (Some text)]
                      | None => if Logger.shouldLog INFO q then [Line Log Tick text] else []
                      end;
        log_level := log_level q; spinner := None |}).
Proof.
  destruct q as [e sp co lv [running |]]; unfold Logger.success; cbn [spinner];
    [reflexivity |].
  destruct (Logger.shouldLog INFO _); cbn [when env spawned console log_level];
    [reflexivity | now rewrite app_nil_r].
Qed.

Lemma json_state (data : json) (q : Process) :
  when_json (Logger.json data) q
  = (Returned tt,
     {| env := env q; spawned := spawned q;
        console := console q ++ (if Logger.format_json q then [LineJson Log data] else []);
        log_level := log_level q; spinner := spinner q |}).
Proof.
  destruct q as [e sp co lv spn]. unfold when_json, Logger.json.
  destruct (Logger.format_json _); cbn [when env spawned console log_level spinner];
    [reflexivity | now rewrite app_nil_r].
Qed.

Lemma format_json_env (q q' : Process) :
  env q' = env q -> Logger.format_json q' = Logger.format_json q.
Proof. unfold Logger.format_json, Logger.env_is. now intros ->. Qed.

Lemma success_then_json (text : string) (data : json) (q : Process) :
  (Logger.success text ;;; when_json (Logger.json data)) q
  = (Returned tt,
     {| env := env q; spawned := spawned q;
        console := console q
                   ++ match spinner q with
                      | Some _ => [SpinnerSucceed (Some text)]
                      | None => if Logger.shouldLog INFO q then [Line Log Tick text] else []
                      end
                   ++ (if Logger.format_json q then [LineJson Log data] else []);
        log_level := log_level q; spinner := None |}).
Proof.
  rewrite (bind_returned _ _ _ _ _ (success_state text q)), json_state.
  cbn [env spawned console log_level spinner].
  unfold Logger.format_json, Logger.env_is. cbn [env]. now rewrite <- app_assoc.
Qed.

Lemma startSpinner_state (text : string) (p : Process) :
  snd (Logger.startSpinner text p)
  = if negb (Logger.format_json p) && negb (JS.truthy_opt (env p !! "SIM_CLI_QUIET"))
    then {| env := env p; spawned := spawned p; console := console p ++ [SpinnerStart text];
            log_level := log_level p; spinner := Some text |}
    else p.
Proof.
  unfold Logger.startSpinner.
  now destruct (negb (Logger.format_json p) && negb (JS.truthy_opt (env p !! "SIM_CLI_QUIET"))).
Qed.

Lemma leading_digits_unique (n rest : string) :
  all_units Regex.digit n = true ->
  match rest with
  | EmptyString => True
  | String a _ => Regex.digit a = false
  end ->
  leading_digits (n +:+ rest) = n.
Proof.
  intros Hn Hr. induction n as [| a n IH].
  - rewrite append_empty. destruct rest as [| b rest]; [reflexivity |].
    cbn [leading_digits]. now rewrite Hr.
  - rewrite append_cons. cbn [all_units] in Hn. apply andb_true_iff in Hn as [Ha Hn].
    cbn [leading_digits]. rewrite Ha. now rewrite (IH Hn).
Qed.

(** X17. What [launch] reports after a launch that went through. The
    process identifier is the run of decimal digits at the start of the
    trimmed output of [simctl launch], up to the first other character. In
    JSON mode [launch] prints one object, whose [pid] is that run as a
    string, or null when the output does not start with a digit. Otherwise
    the success message names the PID, or says "launched successfully"
    when there is none; it ends the spinner, or under SIM_CLI_QUIET is a
    line of its own at log level INFO and above. *)
Theorem launch_reports_the_leading_number (host : Host) (bundleId : string)
        (terminate : option bool) (device : option string) (p p1 : Process) (D : string)
        (raw : ExecutorResult) (n rest : string) :
  Validator.bundleIdSchema bundleId = Zod.Success bundleId ->
  getDeviceId host device p = (Returned D, p1) ->
  spinner p1 = None ->
  execFile host (spawned p1) "xcrun" (launch_args terminate D bundleId) = Exited raw ->
  JS.truthy (JS.trim (stderr raw))
  && negb (JS.includes (JS.trim (stderr raw)) "successfully") = false ->
  JS.trim (stdout raw) = n +:+ rest ->
  all_units Regex.digit n = true ->
  match rest with
  | EmptyString => True
  | String a _ => Regex.digit a = false
  end ->
  let message :=
    if String.eqb n "" then "App " +:+ bundleId +:+ " launched successfully"
    else "App " +:+ bundleId +:+ " launched with PID: " +:+ n in
  fst (launch host bundleId terminate device p) = Returned tt
  /\ console (snd (launch host bundleId terminate device p))
     = console p1
       ++ if Logger.format_json p1
          then [LineJson Log (JObj [("success", JBool true); ("bundleId", JStr bundleId);
                                    ("pid", if String.eqb n "" then JNull else JStr n);
                                    ("device", JStr D)])]
          else if JS.truthy_opt (env p1 !! "SIM_CLI_QUIET")
               then if level_number INFO <=? level_number (log_level p1)
                    then [Line Log Tick message] else []
               else [SpinnerStart ("Launching app: " +:+ bundleId +:+ "...");
                     SpinnerSucceed (Some message)].
Proof.
  intros Hv Hd Hs Hx He Hsplit Hdig Hrest.
  pose proof (leading_digits_unique n rest Hdig Hrest) as Hn. rewrite <- Hsplit in Hn.
  cbv zeta. unfold launch.
  rewrite (parse_success _ _ _ _ Hv), (bind_returned _ _ _ _ _ Hd).
  rewrite (bind_silent _ _ p1 (silent_startSpinner _)).
  set (q := snd (Logger.startSpinner ("Launching app: " +:+ bundleId +:+ "...") p1)).
  assert (Hq : spawned q = spawned p1) by apply spawned_after_spinner.
  rewrite <- Hq in Hx. unfold try_catch.
  rewrite (bind_returned _ _ _ _ _ (run_returns _ _ _ _ _ Hx)).
  cbn [trimmed stderr stdout]. rewrite He.
  assert (Hm : forall data,
             (match JS.if_truthy (match_pid (JS.trim (stdout raw))) with
              | Some n0 => Logger.success ("App " +:+ bundleId +:+ " launched with PID: " +:+ n0)
              | None => Logger.success ("App " +:+ bundleId +:+ " launched successfully")
              end ;;; when_json (Logger.json data))
             = (Logger.success (if String.eqb n ""
                                then "App " +:+ bundleId +:+ " launched successfully"
                                else "App " +:+ bundleId +:+ " launched with PID: " +:+ n) ;;;
                when_json (Logger.json data))).
  { intros data. unfold match_pid. rewrite Hn. now destruct n. }
  rewrite Hm, success_then_json. clear Hm.
  assert (Hj : json_of_option (match_pid (JS.trim (stdout raw)))
               = if String.eqb n "" then JNull else JStr n).
  { unfold match_pid. rewrite Hn. now destruct n. }
  rewrite Hj. clear Hj Hx Hq. split; [reflexivity |].
  cbn [snd console started record_spawn spinner env log_level].
  unfold Logger.shouldLog. cbn [log_level].
  match goal with
  | |- context [Logger.format_json ?r] =>
      rewrite (format_json_env q r eq_refl)
  end.
  assert (Hfq : Logger.format_json q = Logger.format_json p1)
    by (apply format_json_env, (silent_startSpinner _ p1)).
  rewrite Hfq. subst q. rewrite startSpinner_state.
  destruct (Logger.format_json p1); cbn [negb andb].
  - rewrite Hs, andb_false_r. reflexivity.
  - destruct (JS.truthy_opt (env p1 !! "SIM_CLI_QUIET")); cbn [negb andb].
    + rewrite Hs, andb_true_r, app_nil_r. reflexivity.
    + cbn [console spinner]. now rewrite app_nil_r, <- app_assoc.
Qed.

Lemma launch_reports_the_leading_number_witness :
  (Validator.bundleIdSchema "com.example.app" = Zod.Success "com.example.app"
   /\ getDeviceId bootedHost None machine = (Returned sampleUdid, machine)
   /\ execFile bootedHost (spawned machine) "xcrun"
               ["simctl"; "launch"; sampleUdid; "com.example.app"]
      = Exited {| stdout := "12345: com.example.app
"; stderr := "" |}
   /\ JS.trim "12345: com.example.app
" = "12345" +:+ ": com.example.app")
  /\ console (snd (launch bootedHost "com.example.app" None None machine))
     = [LineJson Log (JObj [("success", JBool true); ("bundleId", JStr "com.example.app");
                            ("pid", JStr "12345"); ("device", JStr sampleUdid)])]
  /\ console (snd (launch bootedHost "com.example.app" None None human))
     = [SpinnerStart "Launching app: com.example.app...";
        SpinnerSucceed (Some "App com.example.app launched with PID: 12345")].
Proof.
  assert (Hm : getDeviceId bootedHost None machine = (Returned sampleUdid, machine))
    by (apply getDeviceId_default; reflexivity).
  assert (Hh : getDeviceId bootedHost None human = (Returned sampleUdid, human))
    by (apply getDeviceId_default; reflexivity).
  split; [repeat split; (exact Hm || reflexivity) |]. split.
  - exact (proj2 (launch_reports_the_leading_number bootedHost "com.example.app" None None
                    machine machine sampleUdid
                    {| stdout := "12345: com.example.app
"; stderr := "" |} "12345" ": com.example.app"
                    eq_refl Hm eq_refl eq_refl eq_refl eq_refl eq_refl eq_refl)).
  - exact (proj2 (launch_reports_the_leading_number bootedHost "com.example.app" None None
                    human human sampleUdid
                    {| stdout := "12345: com.example.app
"; stderr := "" |} "12345" ": com.example.app"
                    eq_refl Hh eq_refl eq_refl eq_refl eq_refl eq_refl eq_refl)).
Defined.

Lemma keeps_app_not_found marker bundleId hints e :
  keeps_spawned (app_not_found marker bundleId hints e).
Proof.
  unfold app_not_found. apply keeps_bind; [auto with quiet |]. intros _.
  destruct (message_of e) as [m |]; [destruct (JS.includes m marker) |]; auto with quiet.
Qed.

Lemma fst_app_not_found marker bundleId hints e q :
  fst (app_not_found marker bundleId hints e q)
  = Threw (match message_of e with
           | Some m =>
               if JS.includes m marker
               then SimulatorError ("App not found: " +:+ bundleId) GENERAL_ERROR (Some hints)
               else e
           | None => e
           end).
Proof.
  unfold app_not_found. rewrite bind_silent by auto with quiet.
  destruct (message_of e) as [m |]; [destruct (JS.includes m marker) |]; reflexivity.
Qed.

Lemma includes_append_l (pre s sub : string) :
  JS.includes s sub = true -> JS.includes (pre +:+ s) sub = true.
Proof.
  rewrite !includes_spec. intros [a [b ->]].
  exists (pre +:+ a), b. now rewrite append_assoc3.
Qed.

Lemma includes_nonempty (s sub : string) :
  sub <> "" -> JS.includes s sub = true -> JS.truthy s = true.
Proof.
  intros Hn H. destruct s as [| a s]; [| reflexivity].
  destruct sub; [contradiction | discriminate H].
Qed.

(** X18. [launch] checks the bundle identifier before anything else: one
    the schema refuses is thrown back with the process state untouched.
    An accepted one is passed on last in the vector
    simctl launch [--terminate-running-process] D bundleId, the flag being
    there exactly when termination was asked for. *)
Theorem launch_vector (host : Host) (bundleId : string) (terminate : option bool)
        (device : option string) (p : Process) :
  (Validator.bundleIdSchema bundleId = Zod.Success bundleId ->
   forall D p1,
     getDeviceId host device p = (Returned D, p1) ->
     spawned (snd (launch host bundleId terminate device p))
     = spawned p1
       ++ [foreground "xcrun"
             (["simctl"; "launch"]
                ++ (if default false terminate then ["--terminate-running-process"] else [])
                ++ [D; bundleId])])
  /\ (Zod.success (Validator.bundleIdSchema bundleId) = false ->
      exists issues, launch host bundleId terminate device p = (Threw (ZodError issues), p)).
Proof.
  split.
  - intros Hv D p1 Hd. unfold launch.
    rewrite (parse_success _ _ _ _ Hv), (bind_returned _ _ _ _ _ Hd).
    apply appends_silent_seq; [auto with quiet |].
    apply appends_try_catch; [| intros e; apply keeps_app_not_found].
    replace (["simctl"; "launch"]
               ++ (if default false terminate then ["--terminate-running-process"] else [])
               ++ [D; bundleId])
      with (launch_args terminate D bundleId)
      by (unfold launch_args; now destruct (default false terminate)).
    apply appends_bind_keeps; [apply appends_run |].
    intros r. apply keeps_if; [auto with quiet |].
    destruct (JS.if_truthy (match_pid (stdout r))); auto 8 with quiet.
  - intros Hs. destruct (schema_failure _ _ Hs) as [issues Hi].
    exists issues. unfold launch. now apply parse_failure.
Qed.

Lemma launch_vector_witness :
  (Validator.bundleIdSchema "com.example.app" = Zod.Success "com.example.app"
   /\ getDeviceId sampleHost None human = (Returned sampleUdid, human))
  /\ spawned (snd (launch sampleHost "com.example.app" (Some true) None human))
     = [foreground "xcrun" ["simctl"; "launch"; "--terminate-running-process";
                            sampleUdid; "com.example.app"]].
Proof.
  assert (Hd : getDeviceId sampleHost None human = (Returned sampleUdid, human))
    by (apply getDeviceId_default; reflexivity).
  split; [split; [reflexivity | exact Hd] |].
  exact (proj1 (launch_vector sampleHost "com.example.app" (Some true) None human)
           eq_refl sampleUdid human Hd).
Defined.

(** X19. A launch that ends with an error whose message contains "Unable
    to find" is reported as "App not found: bundleId", a general error
    with three hints; this covers both a failed process and an exited
    one that wrote the phrase to its error stream. *)
Theorem launch_app_not_found (host : Host) (bundleId : string) (terminate : option bool)
        (device : option string) (p p1 : Process) (D : string) :
  Validator.bundleIdSchema bundleId = Zod.Success bundleId ->
  getDeviceId host device p = (Returned D, p1) ->
  let not_found :=
    Threw (SimulatorError ("App not found: " +:+ bundleId) GENERAL_ERROR
             (Some ["Check the bundle ID is correct";
                    "Ensure the app is installed: sim-cli install <app-path>";
                    "List installed apps: sim-cli app-list"])) in
  (forall message code,
     execFile host (spawned p1) "xcrun" (launch_args terminate D bundleId)
     = Failed message code ->
     code <> SysCode "ETIMEDOUT" ->
     JS.includes message "Unable to find" = true ->
     fst (launch host bundleId terminate device p) = not_found)
  /\ (forall raw,
        execFile host (spawned p1) "xcrun" (launch_args terminate D bundleId) = Exited raw ->
        JS.includes (JS.trim (stderr raw)) "Unable to find" = true ->
        JS.includes (JS.trim (stderr raw)) "successfully" = false ->
        fst (launch host bundleId terminate device p) = not_found).
Proof.
  intros Hv Hd not_found. subst not_found.
  assert (Hl : forall o q,
            (r <- run host "xcrun" (launch_args terminate D bundleId) None ;;
             if JS.truthy (stderr r) && negb (JS.includes (stderr r) "successfully")
             then throw (SimulatorError ("Launch failed: " +:+ stderr r) GENERAL_ERROR None)
             else
               match JS.if_truthy (match_pid (stdout r)) with
               | Some n => Logger.success ("App " +:+ bundleId +:+ " launched with PID: " +:+ n)
               | None => Logger.success ("App " +:+ bundleId +:+ " launched successfully")
               end ;;;
               when_json (Logger.json (JObj [("success", JBool true);
                                             ("bundleId", JStr bundleId);
                                             ("pid", json_of_option (match_pid (stdout r)));
                                             ("device", JStr D)])))
              (snd (Logger.startSpinner ("Launching app: " +:+ bundleId +:+ "...") p1))
            = (Threw o, q) ->
            (exists m, message_of o = Some m /\ JS.includes m "Unable to find" = true) ->
            fst (launch host bundleId terminate device p)
            = Threw (SimulatorError ("App not found: " +:+ bundleId) GENERAL_ERROR
                       (Some ["Check the bundle ID is correct";
                              "Ensure the app is installed: sim-cli install <app-path>";
                              "List installed apps: sim-cli app-list"]))).
  { intros o q Hb [m [Hm Hi]]. unfold launch.
    rewrite (parse_success _ _ _ _ Hv), (bind_returned _ _ _ _ _ Hd).
    rewrite bind_silent by auto with quiet. unfold try_catch. cbv zeta. rewrite Hb.
    now rewrite fst_app_not_found, Hm, Hi. }
  split.
  - intros message code Hx Hc Hi.
    eapply Hl.
    + apply bind_threw.
      rewrite <- (spawned_after_spinner ("Launching app: " +:+ bundleId +:+ "...") p1) in Hx.
      exact (run_throws _ _ _ _ _ _ Hx).
    + exists message. split; [| exact Hi]. unfold failure_of.
      destruct code as [| n | name]; try reflexivity.
      destruct (String.eqb name "ETIMEDOUT") eqn:E; [| reflexivity].
      apply String.eqb_eq in E. now subst name.
  - intros raw Hx Hi Hs.
    rewrite <- (spawned_after_spinner ("Launching app: " +:+ bundleId +:+ "...") p1) in Hx.
    eapply Hl.
    + rewrite (bind_returned _ _ _ _ _ (run_returns _ _ _ _ _ Hx)).
      cbn [stderr trimmed]. rewrite Hs.
      rewrite (includes_nonempty _ "Unable to find" ltac:(discriminate) Hi). reflexivity.
    + eexists. split; [reflexivity |]. now apply includes_append_l.
Qed.

Lemma launch_app_not_found_witness :
  (Validator.bundleIdSchema "com.nonexistent.app" = Zod.Success "com.nonexistent.app"
   /\ getDeviceId emptyDeviceHost None human = (Returned sampleUdid, human)
   /\ execFile emptyDeviceHost (spawned human) "xcrun"
               (launch_args None sampleUdid "com.nonexistent.app")
      = Failed "Command failed: Unable to find bundle: No such file or directory" (ExitCode 4))
  /\ fst (launch emptyDeviceHost "com.nonexistent.app" None None human)
     = Threw (SimulatorError "App not found: com.nonexistent.app" GENERAL_ERROR
                (Some ["Check the bundle ID is correct";
                       "Ensure the app is installed: sim-cli install <app-path>";
                       "List installed apps: sim-cli app-list"])).
Proof.
  assert (Hd : getDeviceId emptyDeviceHost None human = (Returned sampleUdid, human))
    by (apply getDeviceId_default; reflexivity).
  split; [split; [reflexivity | split; [exact Hd | reflexivity]] |].
  refine (proj1 (launch_app_not_found emptyDeviceHost "com.nonexistent.app" None None
                   human human sampleUdid eq_refl Hd) _ (ExitCode 4) eq_refl _ eq_refl).
  discriminate.
Defined.

(** X20. [uninstall] starts simctl uninstall D bundleId for an accepted
    bundle identifier. When that process fails, a message containing "No
    such file or directory" is replaced by "App not found: bundleId" with
    two hints, and any other failure is thrown on unchanged. *)
Theorem uninstall_behaviour (host : Host) (bundleId : string) (device : option string)
        (p p1 : Process) (D : string) :
  Validator.bundleIdSchema bundleId = Zod.Success bundleId ->
  getDeviceId host device p = (Returned D, p1) ->
  spawned (snd (uninstall host bundleId device p))
  = spawned p1 ++ [foreground "xcrun" ["simctl"; "uninstall"; D; bundleId]]
  /\ forall message code,
       execFile host (spawned p1) "xcrun" ["simctl"; "uninstall"; D; bundleId]
       = Failed message code ->
       code <> SysCode "ETIMEDOUT" ->
       fst (uninstall host bundleId device p)
       = if JS.includes message "No such file or directory"
         then Threw (SimulatorError ("App not found: " +:+ bundleId) GENERAL_ERROR
                       (Some ["Check the bundle ID is correct";
                              "List installed apps: sim-cli app-list"]))
         else Threw (NodeError message code).
Proof.
  intros Hv Hd. split.
  - unfold uninstall. rewrite (parse_success _ _ _ _ Hv), (bind_returned _ _ _ _ _ Hd).
    apply appends_silent_seq; [auto with quiet |].
    apply appends_try_catch; [| intros e; apply keeps_app_not_found].
    apply appends_bind_keeps; [apply appends_run | intros r; auto 8 with quiet].
  - intros message code Hx Hc. unfold uninstall.
    rewrite (parse_success _ _ _ _ Hv), (bind_returned _ _ _ _ _ Hd).
    rewrite bind_silent by auto with quiet. unfold try_catch.
    rewrite <- (spawned_after_spinner ("Uninstalling app: " +:+ bundleId +:+ "...") p1) in Hx.
    rewrite (bind_threw _ _ _ _ _ (run_throws _ _ _ _ _ _ Hx)).
    rewrite fst_app_not_found.
    assert (Hf : failure_of message code = NodeError message code).
    { unfold failure_of. destruct code as [| n | name]; try reflexivity.
      destruct (String.eqb name "ETIMEDOUT") eqn:E; [| reflexivity].
      apply String.eqb_eq in E. now subst name. }
    rewrite Hf. cbn [message_of].
    now destruct (JS.includes message "No such file or directory").
Qed.

Lemma uninstall_behaviour_witness :
  (Validator.bundleIdSchema "com.nonexistent.app" = Zod.Success "com.nonexistent.app"
   /\ getDeviceId emptyDeviceHost None human = (Returned sampleUdid, human)
   /\ execFile emptyDeviceHost (spawned human) "xcrun"
               ["simctl"; "uninstall"; sampleUdid; "com.nonexistent.app"]
      = Failed "Command failed: Unable to find bundle: No such file or directory" (ExitCode 4))
  /\ spawned (snd (uninstall emptyDeviceHost "com.nonexistent.app" None human))
     = [foreground "xcrun" ["simctl"; "uninstall"; sampleUdid; "com.nonexistent.app"]]
  /\ fst (uninstall emptyDeviceHost "com.nonexistent.app" None human)
     = Threw (SimulatorError "App not found: com.nonexistent.app" GENERAL_ERROR
                (Some ["Check the bundle ID is correct";
                       "List installed apps: sim-cli app-list"])).
Proof.
  assert (Hd : getDeviceId emptyDeviceHost None human = (Returned sampleUdid, human))
    by (apply getDeviceId_default; reflexivity).
  split; [split; [reflexivity | split; [exact Hd | reflexivity]] |].
  destruct (uninstall_behaviour emptyDeviceHost "com.nonexistent.app" None human human
              sampleUdid eq_refl Hd) as [Ha Hb].
  split; [exact Ha |].
  refine (Hb _ (ExitCode 4) eq_refl _). discriminate.
Defined.

(** ** Recording and screenshots *)

(** X21. [record] does not overwrite: when the output file exists and
    [force] is not set, it fails with a general error that names the file
    and suggests --force, and the process state is the one device
    resolution left, so nothing was started, printed or stored. *)
Theorem record_refuses_overwrite (host : Host) (path : option string)
        (options : RecordOptions) (p p1 : Process) (D : string) :
  getDeviceId host (rec_device options) p = (Returned D, p1) ->
  fileExists host (output_path host path) = true ->
  default false (rec_force options) = false ->
  record host path options p
  = (Threw (SimulatorError ("File already exists: " +:+ output_path host path) GENERAL_ERROR
              (Some ["Use --force to overwrite the existing file"])), p1).
Proof.
  intros Hd He Hf. unfold record. rewrite (bind_returned _ _ _ _ _ Hd). cbv zeta.
  now rewrite He, Hf.
Qed.

Lemma record_refuses_overwrite_witness :
  (getDeviceId bootedHost None human = (Returned sampleUdid, human)
   /\ fileExists bootedHost (output_path bootedHost (Some "/tmp/demo.mp4")) = true)
  /\ record bootedHost (Some "/tmp/demo.mp4") no_record_options human
     = (Threw (SimulatorError "File already exists: /tmp/demo.mp4" GENERAL_ERROR
                 (Some ["Use --force to overwrite the existing file"])), human).
Proof.
  assert (Hd : getDeviceId bootedHost None human = (Returned sampleUdid, human))
    by (apply getDeviceId_default; reflexivity).
  split; [split; [exact Hd | reflexivity] |].
  exact (record_refuses_overwrite bootedHost (Some "/tmp/demo.mp4") no_record_options
           human human sampleUdid Hd eq_refl eq_refl).
Defined.

Lemma after_separator_app (pre rest : list string) :
  Forall (fun x => x <> "--") pre ->
  after_separator (pre ++ "--" :: rest) = rest.
Proof.
  induction 1 as [| x pre Hx _ IH]; [reflexivity |].
  cbn [app after_separator]. apply String.eqb_neq in Hx. now rewrite Hx.
Qed.

Lemma push_flag_keeps (flag : string) (value : option string) (args : list string) :
  (2 < String.length flag)%nat ->
  Forall (fun x => x <> "--") args ->
  Forall (fun x => x <> "--") (push_flag flag value args).
Proof.
  intros Hl Ha. unfold push_flag. destruct (JS.if_truthy value) as [v |]; [| exact Ha].
  apply Forall_app. split; [exact Ha |]. constructor; [| constructor].
  intros H. apply (f_equal String.length) in H. rewrite length_append in H.
  cbn in H. lia.
Qed.

(** X22. In the vectors of [record] and of [screenshot] the output path is
    the one and only element behind the "--" separator: every option the
    user chose stands before it. *)
Theorem output_path_alone_behind_separator (D outputPath : string)
        (recording : RecordOptions) (shot : ScreenshotOptions) :
  D <> "--" ->
  after_separator (record_args D outputPath recording) = [outputPath]
  /\ after_separator (screenshot_args D outputPath shot) = [outputPath].
Proof.
  intros HD.
  assert (Hb : forall verb, verb <> "--" ->
            Forall (fun x => x <> "--") ["simctl"; "io"; D; verb]).
  { intros verb Hv. repeat constructor; (discriminate || assumption). }
  split.
  - unfold record_args. apply after_separator_app.
    assert (Hp : Forall (fun x => x <> "--")
                   (push_flag "--mask=" (rec_mask recording)
                      (push_flag "--display=" (rec_display recording)
                         (push_flag "--codec=" (rec_codec recording)
                            ["simctl"; "io"; D; "recordVideo"])))).
    { repeat (apply push_flag_keeps; [cbn; lia |]). apply Hb. discriminate. }
    destruct (default false (rec_force recording)); [| exact Hp].
    apply Forall_app. split; [exact Hp |]. repeat constructor. discriminate.
  - unfold screenshot_args. apply after_separator_app.
    repeat (apply push_flag_keeps; [cbn; lia |]). apply Hb. discriminate.
Qed.

Lemma output_path_alone_behind_separator_witness :
  sampleUdid <> "--"
  /\ after_separator (record_args sampleUdid "/tmp/demo.mp4"
                        {| rec_codec := Some "h264"; rec_display := None;
                           rec_mask := Some "black"; rec_force := Some true;
                           rec_device := None |})
     = ["/tmp/demo.mp4"]
  /\ after_separator (screenshot_args sampleUdid "/tmp/shot.png"
                        {| shot_type := Some "png"; shot_display := None;
                           shot_mask := None; shot_device := None |})
     = ["/tmp/shot.png"].
Proof.
  assert (H : sampleUdid <> "--") by discriminate.
  split; [exact H |]. split.
  - exact (proj1 (output_path_alone_behind_separator sampleUdid "/tmp/demo.mp4" _
                    {| shot_type := None; shot_display := None; shot_mask := None;
                       shot_device := None |} H)).
  - exact (proj2 (output_path_alone_behind_separator sampleUdid "/tmp/shot.png"
                    no_record_options _ H)).
Defined.

(** ** The start of a recording *)

Lemma await_resolves_on_tick (k : bool) (l post : list LoopEvent) (st : WaitState) :
  ~ In TimeoutFired l ->
  intervalActive st = true ->
  recordingStarted st = true ->
  await_start k (l ++ IntervalTick :: post) st = Some Resolved.
Proof.
  revert st. induction l as [| ev l IH]; intros st Hn Hi Hs.
  - cbn [app await_start]. now rewrite Hi, Hs.
  - assert (Hn' : ~ In TimeoutFired l) by (intros H; apply Hn; now right).
    destruct ev as [data | | |]; cbn [app await_start].
    + destruct (JS.includes data "Recording started"); now apply IH.
    + now rewrite Hi, Hs.
    + exfalso. apply Hn. now left.
    + now apply IH.
Qed.

Lemma await_resolves_after_confirmation (k : bool) (pre mid post : list LoopEvent)
      (chunk : string) (st : WaitState) :
  ~ In TimeoutFired pre ->
  ~ In TimeoutFired mid ->
  intervalActive st = true ->
  JS.includes chunk "Recording started" = true ->
  await_start k (pre ++ StderrData chunk :: mid ++ IntervalTick :: post) st = Some Resolved.
Proof.
  revert st. induction pre as [| ev pre IH]; intros st Hp Hm Hi Hc.
  - cbn [app await_start]. rewrite Hc. now apply await_resolves_on_tick.
  - assert (Hp' : ~ In TimeoutFired pre) by (intros H; apply Hp; now right).
    destruct ev as [data | | |]; cbn [app await_start].
    + destruct (JS.includes data "Recording started"); now apply IH.
    + destruct (intervalActive st && recordingStarted st); [reflexivity | now apply IH].
    + exfalso. apply Hp. now left.
    + now apply IH.
Qed.

Lemma await_dead (k : bool) (l : list LoopEvent) (st : WaitState) :
  intervalActive st = false ->
  timeoutArmed st = false ->
  await_start k l st = None.
Proof.
  revert st. induction l as [| ev l IH]; intros st Hi Ha; [reflexivity |].
  destruct ev as [data | | |]; cbn [await_start].
  - destruct (JS.includes data "Recording started"); now apply IH.
  - rewrite Hi. now apply IH.
  - rewrite Ha. now apply IH.
  - now apply IH.
Qed.

Lemma await_late (k : bool) (mid rest : list LoopEvent) (st : WaitState) :
  ~ In IntervalTick mid ->
  ~ In TimeoutFired mid ->
  recordingStarted st = true ->
  timeoutArmed st = true ->
  await_start k (mid ++ TimeoutFired :: rest) st = None.
Proof.
  revert st. induction mid as [| ev mid IH]; intros st Hi Ht Hs Ha.
  - cbn [app await_start]. rewrite Ha, Hs. now apply await_dead.
  - assert (Hi' : ~ In IntervalTick mid) by (intros H; apply Hi; now right).
    assert (Ht' : ~ In TimeoutFired mid) by (intros H; apply Ht; now right).
    destruct ev as [data | | |]; cbn [app await_start].
    + destruct (JS.includes data "Recording started"); now apply IH.
    + exfalso. apply Hi. now left.
    + exfalso. apply Ht. now left.
    + now apply IH.
Qed.

Lemma await_confirmed_too_late (k : bool) (pre mid rest : list LoopEvent)
      (chunk : string) (st : WaitState) :
  never_confirms pre ->
  ~ In TimeoutFired pre ->
  ~ In IntervalTick mid ->
  ~ In TimeoutFired mid ->
  recordingStarted st = false ->
  timeoutArmed st = true ->
  JS.includes chunk "Recording started" = true ->
  await_start k (pre ++ StderrData chunk :: mid ++ TimeoutFired :: rest) st = None.
Proof.
  revert st. induction pre as [| ev pre IH]; intros st Hn Hp Hi Ht Hs Ha Hc.
  - cbn [app await_start]. rewrite Hc. now apply await_late.
  - assert (Hn' : never_confirms pre) by (intros c H; apply Hn; now right).
    assert (Hp' : ~ In TimeoutFired pre) by (intros H; apply Hp; now right).
    destruct ev as [data | | |]; cbn [app await_start].
    + rewrite (Hn data (or_introl eq_refl)). now apply IH.
    + rewrite Hs, andb_false_r. now apply IH.
    + exfalso. apply Hp. now left.
    + now apply IH.
Qed.

Lemma record_after_resolution (host : Host) (path : option string)
      (options : RecordOptions) (p p1 : Process) (D : string) :
  getDeviceId host (rec_device options) p = (Returned D, p1) ->
  fileExists host (output_path host path) && negb (default false (rec_force options)) = false ->
  await_start false
    (child_events (spawn host (spawned p1) "xcrun"
                     (record_args D (output_path host path) options)))
    wait_init = Some Resolved ->
  fst (record host path options p) = Returned tt
  /\ spawned (snd (record host path options p))
     = spawned p1 ++ [detached "xcrun" (record_args D (output_path host path) options)]
  /\ env (snd (record host path options p))
     = <["SIM_CLI_RECORDING_PID" :=
           JS.String_of_number
             (child_pid (spawn host (spawned p1) "xcrun"
                           (record_args D (output_path host path) options)))]>
         (<["SIM_CLI_RECORDING_PATH" := output_path host path]> (env p1)).
Proof.
  intros Hd Hf Hw. unfold record.
  rewrite (bind_returned _ _ _ _ _ Hd). cbv zeta. rewrite Hf.
  rewrite bind_silent by auto with quiet.
  destruct (silent_startSpinner "Starting video recording..." p1) as [_ [Hs He1]].
  set (q := snd (Logger.startSpinner "Starting video recording..." p1)) in *.
  unfold try_catch.
  rewrite (bind_returned (runBackground host "xcrun" _) _ q _ _ eq_refl).
  cbn [killed events pid]. rewrite Hs, Hw.
  rewrite (bind_returned (await_promise (Some Resolved)) _ _ tt _ eq_refl).
  rewrite bind_silent by auto with quiet.
  match goal with
  | |- context [Logger.success ?m ?s] =>
      destruct (silent_success m s) as [_ [Hs2 He2]]; set (q2 := snd (Logger.success m s)) in *
  end.
  rewrite bind_silent by auto with quiet.
  match goal with
  | |- context [Logger.info ?m ?s] =>
      destruct (silent_info m s) as [_ [Hs3 He3]]; set (q3 := snd (Logger.info m s)) in *
  end.
  rewrite (bind_returned (setenv _ _) _ _ tt _ eq_refl).
  rewrite (bind_returned (setenv _ _) _ _ tt _ eq_refl).
  match goal with
  | |- context [when_json ?m ?s] =>
      destruct (silent_when_json m ltac:(auto with quiet) s) as [Hr [Hs4 He4]];
      destruct (when_json m s) as [o final]
  end.
  cbn [fst snd] in *. subst o. cbn [fst snd]. rewrite Hs4, He4.
  cbn [setenv snd env spawned]. rewrite Hs3, Hs2, He3, He2.
  cbn [record_spawn snd spawned env]. rewrite He1. now repeat split.
Qed.

Lemma record_unsettled (host : Host) (path : option string)
      (options : RecordOptions) (p p1 : Process) (D : string) :
  getDeviceId host (rec_device options) p = (Returned D, p1) ->
  fileExists host (output_path host path) && negb (default false (rec_force options)) = false ->
  await_start false
    (child_events (spawn host (spawned p1) "xcrun"
                     (record_args D (output_path host path) options)))
    wait_init = None ->
  fst (record host path options p) = Pending
  /\ env (snd (record host path options p)) = env p1.
Proof.
  intros Hd Hf Hw. unfold record.
  rewrite (bind_returned _ _ _ _ _ Hd). cbv zeta. rewrite Hf.
  rewrite bind_silent by auto with quiet.
  destruct (silent_startSpinner "Starting video recording..." p1) as [_ [Hs He1]].
  set (q := snd (Logger.startSpinner "Starting video recording..." p1)) in *.
  unfold try_catch.
  rewrite (bind_returned (runBackground host "xcrun" _) _ q _ _ eq_refl).
  cbn [killed events pid]. rewrite Hs, Hw.
  unfold bind, await_promise. cbn [fst snd record_spawn env]. now split.
Qed.

(** X23. When the recorder confirms ("Recording started" on its error
    stream) and a tick of the polling interval follows before the timeout,
    [record] returns, has started the one detached process, and leaves the
    session in the environment: the output path and the process
    identifier, added to what was there. *)
Theorem record_confirmed (host : Host) (path : option string) (options : RecordOptions)
        (p p1 : Process) (D : string) (pre mid post : list LoopEvent) (chunk : string) :
  getDeviceId host (rec_device options) p = (Returned D, p1) ->
  fileExists host (output_path host path) && negb (default false (rec_force options)) = false ->
  let child := spawn host (spawned p1) "xcrun"
                     (record_args D (output_path host path) options) in
  child_events child = pre ++ StderrData chunk :: mid ++ IntervalTick :: post ->
  JS.includes chunk "Recording started" = true ->
  ~ In TimeoutFired pre ->
  ~ In TimeoutFired mid ->
  fst (record host path options p) = Returned tt
  /\ spawned (snd (record host path options p))
     = spawned p1 ++ [detached "xcrun" (record_args D (output_path host path) options)]
  /\ env (snd (record host path options p))
     = <["SIM_CLI_RECORDING_PID" := JS.String_of_number (child_pid child)]>
         (<["SIM_CLI_RECORDING_PATH" := output_path host path]> (env p1)).
Proof.
  intros Hd Hf child He Hc Hp Hm.
  apply record_after_resolution; [exact Hd | exact Hf |].
  fold child. rewrite He. now apply await_resolves_after_confirmation.
Qed.

Lemma record_confirmed_witness :
  (getDeviceId bootedHost None human = (Returned sampleUdid, human)
   /\ child_events (spawn bootedHost [] "xcrun" [])
      = [IntervalTick] ++ StderrData "Recording started" :: [] ++ IntervalTick :: [TimeoutFired])
  /\ fst (record bootedHost (Some "/tmp/new.mp4") no_record_options human) = Returned tt
  /\ spawned (snd (record bootedHost (Some "/tmp/new.mp4") no_record_options human))
     = [detached "xcrun" ["simctl"; "io"; sampleUdid; "recordVideo"; "--"; "/tmp/new.mp4"]]
  /\ env (snd (record bootedHost (Some "/tmp/new.mp4") no_record_options human))
     = <["SIM_CLI_RECORDING_PID" := "777"]>
         (<["SIM_CLI_RECORDING_PATH" := "/tmp/new.mp4"]> (env human)).
Proof.
  assert (Hd : getDeviceId bootedHost None human = (Returned sampleUdid, human))
    by (apply getDeviceId_default; reflexivity).
  split; [split; [exact Hd | reflexivity] |].
  refine (record_confirmed bootedHost (Some "/tmp/new.mp4") no_record_options
            human human sampleUdid [IntervalTick] [] [TimeoutFired] "Recording started"
            Hd eq_refl eq_refl eq_refl _ _).
  - intros [H | []]. discriminate H.
  - intros [].
Defined.

(** X24. When the confirmation arrives after the last tick of the polling
    interval and before the timeout fires, the timeout callback stops the
    interval and settles nothing: the promise [record] awaits is never
    resolved or rejected, so [record] does not return and the session is
    not stored. *)
Theorem record_confirmed_too_late (host : Host) (path : option string)
        (options : RecordOptions) (p p1 : Process) (D : string)
        (pre mid rest : list LoopEvent) (chunk : string) :
  getDeviceId host (rec_device options) p = (Returned D, p1) ->
  fileExists host (output_path host path) && negb (default false (rec_force options)) = false ->
  child_events (spawn host (spawned p1) "xcrun"
                  (record_args D (output_path host path) options))
  = pre ++ StderrData chunk :: mid ++ TimeoutFired :: rest ->
  JS.includes chunk "Recording started" = true ->
  never_confirms pre ->
  ~ In TimeoutFired pre ->
  ~ In IntervalTick mid ->
  ~ In TimeoutFired mid ->
  fst (record host path options p) = Pending
  /\ env (snd (record host path options p)) = env p1.
Proof.
  intros Hd Hf He Hc Hn Hp Hi Hm.
  apply (record_unsettled host path options p p1 D Hd Hf).
  rewrite He. now apply await_confirmed_too_late.
Qed.

Lemma record_confirmed_too_late_witness :
  (getDeviceId lateHost None human = (Returned sampleUdid, human)
   /\ child_events (spawn lateHost [] "xcrun" [])
      = [IntervalTick] ++ StderrData "Recording started" :: [] ++ TimeoutFired :: [])
  /\ fst (record lateHost (Some "/tmp/new.mp4") no_record_options human) = Pending
  /\ env (snd (record lateHost (Some "/tmp/new.mp4") no_record_options human)) = env human.
Proof.
  assert (Hd : getDeviceId lateHost None human = (Returned sampleUdid, human))
    by (apply getDeviceId_default; reflexivity).
  split; [split; [exact Hd | reflexivity] |].
  refine (record_confirmed_too_late lateHost (Some "/tmp/new.mp4") no_record_options
            human human sampleUdid [IntervalTick] [] [] "Recording started"
            Hd eq_refl eq_refl eq_refl _ _ _ _).
  - intros c [H | []]. discriminate H.
  - intros [H | []]. discriminate H.
  - intros [].
  - intros [].
Defined.

(** ** The end of a recording *)

Lemma killProcess_returns (host : Host) (pattern : string) (p : Process) :
  (exists raw, execFile host (spawned p) "pkill" ["-SIGINT"; "-f"; pattern] = Exited raw)
  \/ (exists message, execFile host (spawned p) "pkill" ["-SIGINT"; "-f"; pattern]
                      = Failed message (ExitCode 1)) ->
  killProcess host pattern p
  = (Returned tt, started "pkill" ["-SIGINT"; "-f"; pattern] p).
Proof.
  intros [[raw H] | [message H]].
  - now apply killProcess_matched with (raw := raw).
  - now apply killProcess_no_match with (message := message).
Qed.

Lemma report_stopped_env (host : Host) (q : Process) :
  env (snd (report_stopped host q))
  = delete "SIM_CLI_RECORDING_PID" (delete "SIM_CLI_RECORDING_PATH" (env q)).
Proof.
  unfold report_stopped.
  rewrite (bind_returned (getenv _) _ q (env q !! "SIM_CLI_RECORDING_PATH") q eq_refl).
  assert (H : forall m : M unit, silent m ->
            env (snd ((m ;;; unsetenv "SIM_CLI_RECORDING_PATH" ;;;
                       unsetenv "SIM_CLI_RECORDING_PID") q))
            = delete "SIM_CLI_RECORDING_PID" (delete "SIM_CLI_RECORDING_PATH" (env q))).
  { intros m Hm. rewrite bind_silent by assumption.
    destruct (Hm q) as [_ [_ He]]. cbn. now rewrite He. }
  destruct (JS.if_truthy _) as [saved |]; [destruct (fileExists host saved) |];
    apply H; auto with quiet.
Qed.

Lemma json_only_success (text : string) (data : json) (q : Process) :
  Logger.format_json q = true ->
  spinner q = None ->
  (Logger.success text ;;; when_json (Logger.json data)) q
  = (Returned tt,
     {| env := env q; spawned := spawned q; console := console q ++ [LineJson Log data];
        log_level := log_level q; spinner := spinner q |}).
Proof.
  intros Hf Hs. unfold bind, Logger.success, Logger.shouldLog. rewrite Hs, Hf.
  rewrite andb_false_r. cbn [when ret]. unfold when_json, Logger.json. rewrite Hf.
  cbn [when]. unfold emit. now rewrite Hs.
Qed.


(** X25. When [pkill] exits, or finds nothing (status 1), [recordStop]
    returns and deletes the two session variables from the environment,
    and nothing else. In JSON mode it prints one object: success with the
    saved path when SIM_CLI_RECORDING_PATH named a file that exists, and
    the same object without a path otherwise. *)
Theorem recordStop_clears_session (host : Host) (p : Process) :
  (exists raw, execFile host (spawned p) "pkill" pkill_recording = Exited raw)
  \/ (exists message, execFile host (spawned p) "pkill" pkill_recording
                      = Failed message (ExitCode 1)) ->
  fst (recordStop host p) = Returned tt
  /\ env (snd (recordStop host p))
     = delete "SIM_CLI_RECORDING_PID" (delete "SIM_CLI_RECORDING_PATH" (env p))
  /\ (Logger.format_json p = true -> spinner p = None ->
      console (snd (recordStop host p))
      = console p
        ++ [LineJson Log
              (JObj ([("success", JBool true); ("recording", JBool false)]
                     ++ match JS.if_truthy (env p !! "SIM_CLI_RECORDING_PATH") with
                        | Some saved =>
                            if fileExists host saved then [("path", JStr saved)] else []
                        | None => []
                        end))]).
Proof.
  intros Hx. unfold pkill_recording in Hx.
  destruct (silent_startSpinner "Stopping video recording..." p) as [_ [Hs He]].
  rewrite <- Hs in Hx. pose proof (killProcess_returns host _ _ Hx) as Hk.
  rewrite (recordStop_after_kill host p _ Hk).
  split; [apply report_stopped_returns |]. split.
  - rewrite report_stopped_env. cbn [started record_spawn snd env]. now rewrite He.
  - intros Hf Hn.
    assert (Hsp : snd (Logger.startSpinner "Stopping video recording..." p) = p).
    { unfold Logger.startSpinner. now rewrite Hf. }
    rewrite Hsp. set (q := started "pkill" ["-SIGINT"; "-f"; "simctl.*recordVideo"] p).
    assert (Hfq : Logger.format_json q = true) by exact Hf.
    assert (Hnq : spinner q = None) by exact Hn.
    unfold report_stopped.
    rewrite (bind_returned (getenv _) _ q (env q !! "SIM_CLI_RECORDING_PATH") q eq_refl).
    change (env q) with (env p).
    destruct (JS.if_truthy (env p !! "SIM_CLI_RECORDING_PATH")) as [saved |];
      [destruct (fileExists host saved) |];
      rewrite (bind_returned _ _ _ _ _ (json_only_success _ _ q Hfq Hnq)); reflexivity.
Qed.

Lemma recordStop_clears_session_witness :
  (execFile sampleHost (spawned machine) "pkill" pkill_recording
   = Failed "Command failed: pkill -SIGINT -f simctl.*recordVideo" (ExitCode 1)
   /\ Logger.format_json machine = true /\ spinner machine = None)
  /\ fst (recordStop sampleHost machine) = Returned tt
  /\ env (snd (recordStop sampleHost machine))
     = delete "SIM_CLI_RECORDING_PID" (delete "SIM_CLI_RECORDING_PATH" (env machine))
  /\ console (snd (recordStop sampleHost machine))
     = [LineJson Log (JObj [("success", JBool true); ("recording", JBool false)])].
Proof.
  split; [repeat split |].
  destruct (recordStop_clears_session sampleHost machine) as [Ha [Hb Hc]].
  { right. eexists. reflexivity. }
  split; [exact Ha |]. split; [exact Hb |]. exact (Hc eq_refl eq_refl).
Defined.




(** X27. [screenshot] starts simctl io D screenshot with the chosen
    options and the output path, and reads the result off the error
    stream: the call succeeds when the trimmed stream is empty or contains
    "Wrote screenshot to", and fails with a general error quoting it
    otherwise. *)
Theorem screenshot_outcome (host : Host) (path : option string)
        (options : ScreenshotOptions) (p p1 : Process) (D : string) (raw : ExecutorResult) :
  getDeviceId host (shot_device options) p = (Returned D, p1) ->
  execFile host (spawned p1) "xcrun"
           (screenshot_args D (screenshot_path host path options) options) = Exited raw ->
  spawned (snd (screenshot host path options p))
  = spawned p1
    ++ [foreground "xcrun" (screenshot_args D (screenshot_path host path options) options)]
  /\ fst (screenshot host path options p)
     = if JS.truthy (JS.trim (stderr raw))
          && negb (JS.includes (JS.trim (stderr raw)) "Wrote screenshot to")
       then Threw (SimulatorError ("Screenshot failed: " +:+ JS.trim (stderr raw))
                     GENERAL_ERROR None)
       else Returned tt.
Proof.
  intros Hd Hx. unfold screenshot. rewrite (bind_returned _ _ _ _ _ Hd). cbv zeta. split.
  - apply appends_handler.
    apply appends_bind_keeps; [apply appends_run | intros r; auto 8 with quiet].
  - rewrite fst_handler, fst_run_bind, spawned_after_spinner, Hx. cbn [stderr trimmed].
    destruct (JS.truthy (JS.trim (stderr raw)) && _); [reflexivity |].
    apply fst_silent. auto with quiet.
Qed.

Lemma screenshot_outcome_witness :
  (getDeviceId sampleHost None human = (Returned sampleUdid, human)
   /\ execFile sampleHost (spawned human) "xcrun"
               ["simctl"; "io"; sampleUdid; "screenshot"; "--type=jpeg"; "--"; "/tmp/shot.jpeg"]
      = Exited {| stdout := ""; stderr := "" |})
  /\ spawned (snd (screenshot sampleHost (Some "/tmp/shot.jpeg")
                     {| shot_type := Some "jpeg"; shot_display := None; shot_mask := None;
                        shot_device := None |} human))
     = [foreground "xcrun"
          ["simctl"; "io"; sampleUdid; "screenshot"; "--type=jpeg"; "--"; "/tmp/shot.jpeg"]]
  /\ fst (screenshot sampleHost (Some "/tmp/shot.jpeg")
            {| shot_type := Some "jpeg"; shot_display := None; shot_mask := None;
               shot_device := None |} human) = Returned tt.
Proof.
  assert (Hd : getDeviceId sampleHost None human = (Returned sampleUdid, human))
    by (apply getDeviceId_default; reflexivity).
  split; [split; [exact Hd | reflexivity] |].
  exact (screenshot_outcome sampleHost (Some "/tmp/shot.jpeg")
           {| shot_type := Some "jpeg"; shot_display := None; shot_mask := None;
              shot_device := None |} human human sampleUdid
           {| stdout := ""; stderr := "" |} Hd eq_refl).
Defined.

(** ** Command actions *)

Lemma silent_for_each_emit {A} (f : A -> ConsoleEvent) (l : list A) :
  silent (for_each (fun x => emit (f x)) l).
Proof. intros p. rewrite for_each_emit. now repeat split. Qed.

Lemma silent_report (r : Report) : silent (report r).
Proof.
  intros p. unfold report. destruct (Logger.format_json p).
  - apply silent_emit.
  - assert (H : silent (Logger.error (message r) ;;;
                        when (0 <? Z.of_nat (List.length (suggestions r)))
                          (emit (Line Err Plain "Try one of the following:") ;;;
                           for_each (fun s => emit (Line Err Plain
                                                      (if JS.startsWith s bullet then s
                                                       else bullet +:+ " " +:+ s)))
                                    (suggestions r)) ;;;
                        emit (Line Err Plain "For more help, run: sim-cli --help"))).
    { repeat (apply silent_seq || apply silent_when);
        auto using silent_for_each_emit with quiet. }
    exact (H p).
Qed.

Lemma action_of_thrown (handler : M unit) (p p' : Process) (e : Thrown) :
  handler p = (Threw e, p') ->
  fst (action handler p) = ExitedWith (exit_status (exitCode (classify e)))
  /\ spawned (snd (action handler p)) = spawned p'.
Proof.
  intros H. unfold action. rewrite H. cbn [fst snd]. split; [reflexivity |].
  unfold handleError. cbn [snd]. apply (silent_report (classify e) p').
Qed.

(** X28. A value that fails validation ends the command with exit status
    2 before any external process is started: a button name outside the
    accepted set for [press], a text the schema refuses for [type], a
    bundle identifier the schema refuses for [launch]. *)
Theorem invalid_input_exits_with_2 (host : Host) (p : Process) :
  (forall button,
     JS.arr_includes Validator.hardwareButtons (JS.toLowerCase button) = false ->
     fst (action (press host button None) p) = ExitedWith 2
     /\ spawned (snd (action (press host button None) p)) = spawned p)
  /\ (forall text,
        Zod.success (Validator.textInputSchema text) = false ->
        fst (action (type_text host text None) p) = ExitedWith 2
        /\ spawned (snd (action (type_text host text None) p)) = spawned p)
  /\ (forall bundleId terminate,
        Zod.success (Validator.bundleIdSchema bundleId) = false ->
        fst (action (launch host bundleId terminate None) p) = ExitedWith 2
        /\ spawned (snd (action (launch host bundleId terminate None) p)) = spawned p).
Proof.
  split; [| split].
  - intros button H. destruct (enum_rejects _ _ H) as [issues Hi].
    apply (action_of_thrown _ p p (ZodError issues)).
    unfold press. now apply parse_failure.
  - intros text H. destruct (schema_failure _ _ H) as [issues Hi].
    apply (action_of_thrown _ p p (ZodError issues)).
    unfold type_text. now apply parse_failure.
  - intros bundleId terminate H. destruct (schema_failure _ _ H) as [issues Hi].
    apply (action_of_thrown _ p p (ZodError issues)).
    unfold launch. now apply parse_failure.
Qed.

Lemma invalid_input_exits_with_2_witness :
  (JS.arr_includes Validator.hardwareButtons (JS.toLowerCase "back") = false
   /\ fst (action (press sampleHost "back" None) human) = ExitedWith 2
   /\ spawned (snd (action (press sampleHost "back" None) human)) = spawned human)
  /\ (Zod.success (Validator.bundleIdSchema "com.example.app with spaces") = false
      /\ fst (action (launch sampleHost "com.example.app with spaces" None None) human)
         = ExitedWith 2
      /\ spawned (snd (action (launch sampleHost "com.example.app with spaces" None None)
                         human)) = spawned human).
Proof.
  destruct (invalid_input_exits_with_2 sampleHost human) as [Ha [_ Hc]].
  split; (split; [reflexivity |]).
  - exact (Ha "back" eq_refl).
  - exact (Hc "com.example.app with spaces" None eq_refl).
Defined.

(** ** Opening the simulator and reporting on it *)

Lemma silent_updateSpinner msg : silent (Logger.updateSpinner msg).
Proof. intros p. unfold Logger.updateSpinner. destruct (spinner p); by_quiet. Qed.

Lemma spawned_handler {A} msg (body : M A) (p : Process) :
  spawned (snd ((Logger.startSpinner msg ;;; try_catch body stop_and_rethrow) p))
  = spawned (snd (body (snd (Logger.startSpinner msg p)))).
Proof.
  rewrite bind_silent by auto with quiet. unfold try_catch.
  destruct (body _) as [[a | e |] q]; try reflexivity.
  apply keeps_stop_and_rethrow.
Qed.

Lemma spawned_run_bind {B} host command args (k : ExecutorResult -> M B) p :
  (forall r, keeps_spawned (k r)) ->
  spawned (snd (bind (run host command args None) k p))
  = spawned p ++ [foreground command args].
Proof. intros H. now apply appends_bind_keeps; [apply appends_run |]. Qed.

Lemma boot_requested_none (host : Host) (ios type : option string) (q : Process) :
  JS.truthy_opt type || JS.truthy_opt ios = false ->
  boot_requested host ios type q = (Returned tt, q).
Proof. intros H. unfold boot_requested. now rewrite H. Qed.

Lemma boot_requested_listed (host : Host) (ios type : option string) (q : Process)
      raw devices :
  JS.truthy_opt type || JS.truthy_opt ios = true ->
  execFile host (spawned q) "xcrun" ["simctl"; "list"; "devices"; "--json"] = Exited raw ->
  JS.trim (stderr raw) = "" ->
  parse_device_list host (JS.trim (stdout raw)) = Some devices ->
  boot_requested host ios type q
  = match collect_runtimes (requested ios type) devices with
    | [] => (Threw (SimulatorError "No matching simulator found" SIMULATOR_NOT_FOUND
                      (Some ["Run: sim-cli list to see available devices"])),
             snd (record_spawn list_devices q))
    | device :: _ =>
        if String.eqb (state device) "Booted"
        then (Returned tt, snd (record_spawn list_devices q))
        else (Logger.updateSpinner ("Booting " +:+ name device +:+ "...") ;;;
              run host "xcrun" ["simctl"; "boot"; udid device] None ;;;
              ret tt) (snd (record_spawn list_devices q))
    end.
Proof.
  intros Hf Hx He Hp. unfold boot_requested. rewrite Hf.
  rewrite (bind_returned _ _ _ _ _ (listDevices_result host _ q raw devices Hx He Hp)).
  fold (requested ios type).
  destruct (collect_runtimes (requested ios type) devices) as [| device rest];
    [reflexivity |].
  now destruct (String.eqb (state device) "Booted").
Qed.

Lemma after_the_boot (host : Host) (q : Process) :
  spawned (snd ((run host "open" ["-a"; "Simulator.app"] None ;;;
                 Logger.success "iOS Simulator opened successfully" ;;;
                 when_json (Logger.json (JObj [("success", JBool true);
                                               ("message", JStr "Simulator opened")]))) q))
  = spawned q ++ [open_simulator].
Proof. apply spawned_run_bind. intros r. auto 8 with quiet. Qed.

(** X29. What [open] starts. Without a truthy --ios or --device-type it
    starts [open -a Simulator.app] and nothing else. With one, it first
    runs the list query; when no device passes the filters it fails with
    SIMULATOR_NOT_FOUND and starts nothing more; when the first match is
    already booted it goes on to open the app; otherwise it boots that
    device by its UDID, and opens the app only if the boot command
    exited. *)
Theorem open_starts (host : Host) (ios type : option string) (p : Process) :
  (JS.truthy_opt type || JS.truthy_opt ios = false ->
   spawned (snd (open host ios type p)) = spawned p ++ [open_simulator])
  /\ (forall raw devices,
        JS.truthy_opt type || JS.truthy_opt ios = true ->
        execFile host (spawned p) "xcrun" ["simctl"; "list"; "devices"; "--json"]
        = Exited raw ->
        JS.trim (stderr raw) = "" ->
        parse_device_list host (JS.trim (stdout raw)) = Some devices ->
        match collect_runtimes (requested ios type) devices with
        | [] =>
            fst (open host ios type p)
            = Threw (SimulatorError "No matching simulator found" SIMULATOR_NOT_FOUND
                       (Some ["Run: sim-cli list to see available devices"]))
            /\ spawned (snd (open host ios type p)) = spawned p ++ [list_devices]
        | device :: _ =>
            spawned (snd (open host ios type p))
            = spawned p
              ++ (if String.eqb (state device) "Booted"
                  then [list_devices; open_simulator]
                  else
                    match execFile host (spawned p ++ [list_devices]) "xcrun"
                                   ["simctl"; "boot"; udid device] with
                    | Exited _ => [list_devices; boot_of device; open_simulator]
                    | Failed _ _ => [list_devices; boot_of device]
                    end)
        end).
Proof.
  split.
  - intros Hf. unfold open. rewrite spawned_handler.
    rewrite (bind_returned _ _ _ _ _ (boot_requested_none host ios type _ Hf)).
    now rewrite after_the_boot, spawned_after_spinner.
  - intros raw devices Hf Hx He Hp. unfold open.
    set (q := snd (Logger.startSpinner "Opening iOS Simulator..." p)).
    assert (Hq : spawned q = spawned p) by apply spawned_after_spinner.
    rewrite <- Hq in Hx.
    pose proof (boot_requested_listed host ios type q raw devices Hf Hx He Hp) as Hb.
    assert (Hl : spawned (snd (record_spawn list_devices q)) = spawned p ++ [list_devices])
      by (cbn [record_spawn snd spawned]; now rewrite Hq).
    destruct (collect_runtimes (requested ios type) devices) as [| device rest].
    + split.
      * rewrite fst_handler. fold q. now rewrite (bind_threw _ _ _ _ _ Hb).
      * rewrite spawned_handler. fold q. now rewrite (bind_threw _ _ _ _ _ Hb).
    + rewrite spawned_handler. fold q.
      destruct (String.eqb (state device) "Booted").
      * rewrite (bind_returned _ _ _ _ _ Hb), after_the_boot, Hl.
        now rewrite <- app_assoc.
      * set (q1 := snd (record_spawn list_devices q)) in *.
        set (q2 := snd (Logger.updateSpinner ("Booting " +:+ name device +:+ "...") q1)).
        assert (H2 : spawned q2 = spawned p ++ [list_devices])
          by (rewrite <- Hl; apply (silent_updateSpinner _ q1)).
        rewrite (bind_silent _ _ q1 (silent_updateSpinner _)) in Hb. fold q2 in Hb.
        rewrite <- H2.
        destruct (execFile host (spawned q2) "xcrun" ["simctl"; "boot"; udid device])
          as [answer | message code] eqn:E.
        -- rewrite (bind_returned _ _ _ _ _ (run_returns _ _ _ _ _ E)) in Hb.
           rewrite (bind_returned _ _ _ _ _ Hb), after_the_boot.
           cbn [started record_spawn snd spawned]. rewrite H2.
           now rewrite <- !app_assoc.
        -- rewrite (bind_threw _ _ _ _ _ (run_throws _ _ _ _ _ _ E)) in Hb.
           rewrite (bind_threw _ _ _ _ _ Hb).
           cbn [started record_spawn snd spawned]. rewrite H2.
           now rewrite <- !app_assoc.
Qed.

Lemma open_starts_witness :
  (JS.truthy_opt None || JS.truthy_opt (Some "") = false
   /\ spawned (snd (open bootedHost (Some "") None bare)) = [open_simulator])
  /\ ((JS.truthy_opt None || JS.truthy_opt (Some "iOS-17") = true
       /\ execFile bootedHost (spawned bare) "xcrun" ["simctl"; "list"; "devices"; "--json"]
          = Exited {| stdout := ""; stderr := "" |}
       /\ parse_device_list bootedHost "" = Some twoRuntimes)
      /\ spawned (snd (open bootedHost (Some "iOS-17") None bare))
         = [list_devices;
            foreground "xcrun" ["simctl"; "boot"; "11111111-2222-3333-4444-555555555555"];
            open_simulator])
  /\ ((JS.truthy_opt (Some "Pro") || JS.truthy_opt None = true
       /\ parse_device_list bootedHost "" = Some twoRuntimes)
      /\ spawned (snd (open bootedHost None (Some "Pro") bare))
         = [list_devices; open_simulator])
  /\ ((JS.truthy_opt (Some "iPad") || JS.truthy_opt None = true
       /\ parse_device_list bootedHost "" = Some twoRuntimes)
      /\ spawned (snd (open bootedHost None (Some "iPad") bare)) = [list_devices]).
Proof.
  split; [split; [reflexivity |] | split; [split; [repeat split |] | split; split;
                                                                    [repeat split | | repeat split |]]].
  - exact (proj1 (open_starts bootedHost (Some "") None bare) eq_refl).
  - exact (proj2 (open_starts bootedHost (Some "iOS-17") None bare)
             {| stdout := ""; stderr := "" |} twoRuntimes eq_refl eq_refl eq_refl eq_refl).
  - exact (proj2 (open_starts bootedHost None (Some "Pro") bare)
             {| stdout := ""; stderr := "" |} twoRuntimes eq_refl eq_refl eq_refl eq_refl).
  - exact (proj2 (proj2 (open_starts bootedHost None (Some "iPad") bare)
                    {| stdout := ""; stderr := "" |} twoRuntimes
                    eq_refl eq_refl eq_refl eq_refl)).
Defined.

Lemma getBootedDevice_answer (host : Host) (p q : Process) :
  spawned p = spawned q -> fst (getBootedDevice host p) = fst (getBootedDevice host q).
Proof.
  intros H. unfold getBootedDevice. rewrite !fst_run_bind, H.
  destruct (execFile host (spawned q) "xcrun" ["simctl"; "list"; "devices"; "--json"])
    as [raw | message code]; [| reflexivity].
  destruct (JS.truthy (stderr (trimmed raw))); [reflexivity |].
  destruct (parse_device_list host (stdout (trimmed raw))) as [devices |]; [| reflexivity].
  now destruct (search_runtimes devices).
Qed.

(** X30. [info] adds no failure of its own to [getBootedDevice]: it starts
    the one list query and nothing else, returns when a booted device is
    found and otherwise throws the very error [getBootedDevice] threw. *)
Theorem info_follows_getBootedDevice (host : Host) (p : Process) :
  spawned (snd (info host p)) = spawned p ++ [list_devices]
  /\ fst (info host p)
     = match fst (getBootedDevice host p) with
       | Returned _ => Returned tt
       | Threw e => Threw e
       | Pending => Pending
       end.
Proof.
  unfold info.
  set (q := snd (Logger.startSpinner "Getting simulator information..." p)).
  assert (Hq : spawned q = spawned p) by apply spawned_after_spinner.
  pose proof (getBootedDevice_state host q) as Hs.
  pose proof (getBootedDevice_answer host p q (eq_sym Hq)) as Ha.
  assert (Hk : forall device, silent (fun r : Process =>
            if Logger.format_json r
            then Logger.json (JObj [("success", JBool true);
                                    ("device", device_json device)]) r
            else (Logger.success ("Booted Simulator: " +:+ name device) ;;;
                  Logger.info ("UDID: " +:+ udid device) ;;;
                  Logger.info ("State: " +:+ state device) ;;;
                  Logger.info ("Runtime: " +:+ runtimeIdentifier device)) r)).
  { intros device r. destruct (Logger.format_json r); by_quiet. }
  split.
  - rewrite spawned_handler. fold q. unfold bind.
    destruct (getBootedDevice host q) as [[device | e |] q1]; cbn [snd] in Hs; subst q1;
      try (cbn [record_spawn snd spawned]; now rewrite Hq).
    transitivity (spawned (snd (record_spawn list_devices q)));
      [exact (proj1 (proj2 (Hk device _))) |].
    cbn [record_spawn snd spawned]. now rewrite Hq.
  - rewrite fst_handler. fold q. rewrite Ha. unfold bind.
    destruct (getBootedDevice host q) as [[device | e |] q1]; try reflexivity.
    cbn [fst]. apply (Hk device q1).
Qed.
